(** * asynqp/channel.py: channels, frame handling and message reception

    A shallow embedding of [src/asynqp/channel.py] and the properties of its
    name validation, its frame handlers, the message receiver, the returned
    message catcher and the channel factory. *)

From Stdlib Require Import ZArith String Ascii Bool Lia.
From stdpp Require Import base option list gmap strings.

Local Open Scope string_scope.

(** * Regular expressions (the fragment of Python's [re] used by channel.py)

    [re.match] succeeds when some way of matching the pattern against a
    prefix of the subject exists, so a boolean matcher in continuation
    passing style is enough.  The flags are those of the source: [re.A]
    (so [\w] is [[a-zA-Z0-9_]]) and no [re.MULTILINE] (so [^] matches at the
    start of the string only, and [$] matches at the end of the string and
    just before a newline that is the last character). *)
Module Re.

Inductive regex : Type :=
| Caret                              (* ^ *)
| Dollar                             (* $ *)
| Lit (c : ascii)                    (* a literal or escaped character *)
| Word                               (* \w *)
| Class (cs : list ascii)            (* [...] *)
| Alt (r1 r2 : regex)                (* r1|r2 *)
| Cat (r1 r2 : regex)                (* r1r2 *)
| Star (r : regex)                   (* r* *)
| Plus (r : regex)                   (* r+ *)
| NegLookahead (r : regex).          (* (?!r) *)

Definition between (lo hi c : ascii) : bool :=
  (nat_of_ascii lo <=? nat_of_ascii c)%nat && (nat_of_ascii c <=? nat_of_ascii hi)%nat.

Definition is_word (c : ascii) : bool :=
  between "a" "z" c || between "A" "Z" c || between "0" "9" c || Ascii.eqb c "_".

Definition in_class (cs : list ascii) (c : ascii) : bool :=
  existsb (Ascii.eqb c) cs.

Definition newline : ascii := "010".

(** [$] without [re.MULTILINE]. *)
Definition at_dollar (s : string) : bool :=
  match s with
  | EmptyString => true
  | String c EmptyString => Ascii.eqb c newline
  | _ => false
  end.

Definition one_char (p : ascii -> bool) (s : string) (k : bool -> string -> bool) : bool :=
  match s with
  | String c s' => p c && k false s'
  | EmptyString => false
  end.

(** Repetition: either stop here, or match the body once, having consumed
    at least one character, and repeat.  The subject's length bounds the
    number of rounds. *)
Fixpoint star_loop (body : bool -> string -> (bool -> string -> bool) -> bool)
    (k : bool -> string -> bool) (fuel : nat) (bol : bool) (s : string) : bool :=
  k bol s ||
  match fuel with
  | O => false
  | S fuel' =>
      body bol s (fun b s' =>
        (String.length s' <? String.length s)%nat && star_loop body k fuel' b s')
  end.

(** [matches r bol s k]: [r] matches a prefix of [s] and [k] accepts what
    follows; [bol] tells whether [s] starts at the beginning of the subject. *)
Fixpoint matches (r : regex) (bol : bool) (s : string)
    (k : bool -> string -> bool) {struct r} : bool :=
  match r with
  | Caret => bol && k bol s
  | Dollar => at_dollar s && k bol s
  | Lit c => one_char (Ascii.eqb c) s k
  | Word => one_char is_word s k
  | Class cs => one_char (in_class cs) s k
  | Alt r1 r2 => matches r1 bol s k || matches r2 bol s k
  | Cat r1 r2 => matches r1 bol s (fun b s' => matches r2 b s' k)
  | Star r' => star_loop (matches r') k (String.length s) bol s
  | Plus r' =>
      matches r' bol s (fun b s' => star_loop (matches r') k (String.length s') b s')
  | NegLookahead r' => negb (matches r' bol s (fun _ _ => true)) && k bol s
  end.

(** [pattern.match(s)] as a truth value. *)
Definition re_match (r : regex) (s : string) : bool :=
  matches r true s (fun _ _ => true).

Fixpoint lits (s : string) : regex :=
  match s with
  | EmptyString => Star (Class [])      (* matches the empty string only *)
  | String c EmptyString => Lit c
  | String c s' => Cat (Lit c) (lits s')
  end.

End Re.

Import Re.

(** [(\w|[-.:])] *)
Definition NAME_CHAR : regex := Alt Word (Class ["-"; "."; ":"]%char).

(** [VALID_QUEUE_NAME_RE = re.compile(r'^(?!amq\.)(\w|[-.:])*$', flags=re.A)] *)
Definition VALID_QUEUE_NAME_RE : regex :=
  Cat Caret (Cat (NegLookahead (lits "amq.")) (Cat (Star NAME_CHAR) Dollar)).

(** [VALID_EXCHANGE_NAME_RE = re.compile(r'^(?!amq\.)(\w|[-.:])+$', flags=re.A)] *)
Definition VALID_EXCHANGE_NAME_RE : regex :=
  Cat Caret (Cat (NegLookahead (lits "amq.")) (Cat (Plus NAME_CHAR) Dollar)).

Local Open Scope Z_scope.
Local Open Scope list_scope.

(** * Data model *)

Definition bytes := list Byte.byte.

(** Field tables ([{}] in the source is the empty table). *)
Definition Table := list (string * string).

(** Dynamically typed fields: [receive_return] passes [''] where the other
    sequences pass a number and a boolean. *)
Inductive PyVal : Set :=
| PNone
| PBool (b : bool)
| PInt (z : Z)
| PStr (s : string).

(** The methods of [spec] that the handlers of channel.py receive and that
    the coroutines below send, with the fields that channel.py reads or
    writes. *)
Inductive Method : Set :=
| ChannelOpen (reserved : string)
| ChannelOpenOK
| ChannelClose (status_code : Z) (msg : string) (class_id method_id : Z)
| ChannelCloseOK
| ExchangeDeclare (reserved : Z) (name type : string)
    (passive durable auto_delete internal nowait : bool) (arguments : Table)
| ExchangeDeclareOK
| ExchangeDeleteOK
| QueueDeclareOK (queue : string)
| QueueBindOK
| QueueUnbindOK
| QueuePurgeOK
| QueueDeleteOK
| BasicQos (prefetch_size prefetch_count : Z) (apply_globally : bool)
| BasicQosOK
| BasicConsumeOK (consumer_tag : string)
| BasicCancelOK (consumer_tag : string)
| BasicDeliver (consumer_tag : string) (delivery_tag : Z) (redelivered : bool)
    (exchange routing_key : string)
| BasicGetOK (delivery_tag : Z) (redelivered : bool) (exchange routing_key : string)
| BasicGetEmpty
| BasicReturn (exchange routing_key : string).

(** Payload of a content header frame. *)
Record ContentHeader : Set := {
  body_length : nat;
  properties : Table
}.

Inductive Frame : Set :=
| MethodFrame (channel_id : Z) (payload : Method)
| ContentHeaderFrame (channel_id : Z) (payload : ContentHeader)
| ContentBodyFrame (channel_id : Z) (payload : bytes).

Definition frame_channel_id (f : Frame) : Z :=
  match f with
  | MethodFrame c _ | ContentHeaderFrame c _ | ContentBodyFrame c _ => c
  end.

(** The classes that serve as keys of the synchroniser. *)
Inductive Key : Set :=
| spec_ChannelOpenOK | spec_ChannelCloseOK
| spec_ExchangeDeclareOK | spec_ExchangeDeleteOK
| spec_QueueDeclareOK | spec_QueueBindOK | spec_QueueUnbindOK
| spec_QueuePurgeOK | spec_QueueDeleteOK
| spec_BasicGetEmpty | spec_BasicGetOK
| spec_BasicConsumeOK | spec_BasicCancelOK | spec_BasicQosOK
| frames_ContentHeaderFrame | frames_ContentBodyFrame.

Global Instance Key_eq_dec : EqDecision Key.
Proof. solve_decision. Defined.

(** A reference to the mutable state of the objects that one call of
    [ChannelFactory.open] creates and wires together. *)
Definition ref := nat.

(** [ChannelMethodSender]: the channel id it stamps on every frame (the
    protocol object it writes to is the connection's, shared by all). *)
Record ChannelMethodSender : Set := { sender_channel_id : Z }.

(** [Self] stands for any of the objects that [ChannelFactory.open] wires
    together (handler, message receiver, catcher, synchroniser, consumers):
    there is one of each per channel and they refer to each other, so one
    reference names the group's mutable state; [sender] is the
    [ChannelMethodSender] they share. *)
Record Self : Set := { cell : ref; sender : ChannelMethodSender }.

(** [Channel]: [id] and the wired components. *)
Record Channel : Set := { id : Z; parts : Self }.

(** [exchange.Exchange(handler, synchroniser, sender, name, type, durable,
    auto_delete, internal)] *)
Record Exchange : Set := {
  ex_parts : Self;
  ex_name : string;
  ex_type : string;
  ex_durable : bool;
  ex_auto_delete : bool;
  ex_internal : bool
}.

(** The built artifact: header metadata, body and delivery metadata. *)
Record Message : Set := {
  msg_sender : ChannelMethodSender;
  msg_body : bytes;
  msg_properties : Table;
  msg_delivery_tag : PyVal;
  msg_redelivered : PyVal;
  msg_exchange_name : string;
  msg_routing_key : string
}.

(** A user callable, by name. *)
Definition Callback := nat.

Inductive Exn : Set :=
| ValueError (text : string)
| TypeError (text : string)
| AttributeError (text : string)
| AssertionError
| UndeliverableMessage (msg : Message)
| ProtocolError (text : string)
| OtherError (n : nat).

(** * Message builder *)

Record MessageBuilder : Set := {
  mb_sender : ChannelMethodSender;
  mb_delivery_tag : PyVal;
  mb_redelivered : PyVal;
  mb_exchange_name : string;
  mb_routing_key : string;
  consumer_tag : option string;
  mb_header : option ContentHeader;
  mb_body : bytes
}.

(** [message.MessageBuilder(sender, delivery_tag, redelivered, exchange_name,
    routing_key, consumer_tag=None)] *)
Definition new_MessageBuilder (s : ChannelMethodSender) (delivery_tag redelivered : PyVal)
    (exchange_name routing_key : string) (tag : option string) : MessageBuilder :=
  {| mb_sender := s; mb_delivery_tag := delivery_tag; mb_redelivered := redelivered;
     mb_exchange_name := exchange_name; mb_routing_key := routing_key;
     consumer_tag := tag; mb_header := None; mb_body := [] |}.

(** Modelled from the spec: [message.MessageBuilder.done], which is not in
    the sources at hand.  "true once accumulated length == declared length
    (zero-length bodies are done immediately after header)". *)
Definition done (b : MessageBuilder) : bool :=
  match mb_header b with
  | Some h => Nat.eqb (List.length (mb_body b)) (body_length h)
  | None => false
  end.

(** Modelled from the spec: [message.MessageBuilder.set_header].  "may be
    called exactly once; records declared body length". *)
Definition set_header (b : MessageBuilder) (h : ContentHeader) : Exn + MessageBuilder :=
  match mb_header b with
  | Some _ => inl (ProtocolError "header already set")
  | None =>
      inr {| mb_sender := mb_sender b; mb_delivery_tag := mb_delivery_tag b;
             mb_redelivered := mb_redelivered b; mb_exchange_name := mb_exchange_name b;
             mb_routing_key := mb_routing_key b; consumer_tag := consumer_tag b;
             mb_header := Some h; mb_body := mb_body b |}
  end.

(** Modelled from the spec: [message.MessageBuilder.add_body_chunk].
    "appends; fails if called after completion or before a header is set";
    "feeding chunks summing to more than L must fault". *)
Definition add_body_chunk (b : MessageBuilder) (chunk : bytes) : Exn + MessageBuilder :=
  match mb_header b with
  | None => inl (ProtocolError "body before header")
  | Some h =>
      if done b then inl (ProtocolError "body after completion")
      else if (body_length h <? List.length (mb_body b) + List.length chunk)%nat
      then inl (ProtocolError "body longer than declared")
      else
        inr {| mb_sender := mb_sender b; mb_delivery_tag := mb_delivery_tag b;
               mb_redelivered := mb_redelivered b; mb_exchange_name := mb_exchange_name b;
               mb_routing_key := mb_routing_key b; consumer_tag := consumer_tag b;
               mb_header := mb_header b; mb_body := mb_body b ++ chunk |}
  end.

(** Modelled from the spec: [message.MessageBuilder.build].  "assembles the
    final Message; may be called only when done()". *)
Definition build (b : MessageBuilder) : Exn + Message :=
  match mb_header b with
  | Some h =>
      if done b then
        inr {| msg_sender := mb_sender b; msg_body := mb_body b;
               msg_properties := properties h;
               msg_delivery_tag := mb_delivery_tag b; msg_redelivered := mb_redelivered b;
               msg_exchange_name := mb_exchange_name b; msg_routing_key := mb_routing_key b |}
      else inl (ProtocolError "build before completion")
  | None => inl (ProtocolError "build before completion")
  end.

(** * Coroutines

    The methods of channel.py are coroutines of a single-threaded event
    loop.  A coroutine is embedded as a tree of the operations it performs on
    the objects around it; [Await] is the one point where it is suspended
    ([yield from synchroniser.await(...)]). *)

(** Values that coroutines return and that waits are resolved with. *)
Inductive Value : Set :=
| VNone
| VBool (b : bool)
| VStr (s : string)
| VTuple (tag : option string) (msg : Message)
| VExchange (e : Exchange)
| VChannel (c : Channel).

(** How a call or a wait ends: with a value or with an exception. *)
Inductive Outcome : Set :=
| Resolved (v : Value)
| Failed (e : Exn).

Inductive Coro : Set :=
| Ret (v : Value)                                           (* return v *)
| Raise (e : Exn)                                           (* raise e *)
| Send (f : Frame) (k : Coro)                               (* protocol.send_method / send_frame *)
| Ready (h : ref) (k : Coro)                                (* handler.ready() *)
| Notify (s : ref) (key : Key) (v : Value) (k : Outcome -> Coro)   (* synchroniser.notify(key, v) *)
| Await (s : ref) (keys : list Key) (k : Outcome -> Coro)   (* yield from synchroniser.await( *keys) *)
| Async (c : Coro) (k : Coro)                               (* asyncio.async(c) *)
| GetBuilder (r : ref) (k : option MessageBuilder -> Coro)  (* self.message_builder *)
| SetBuilder (r : ref) (b : option MessageBuilder) (k : Coro)
| GetCallback (c : ref) (k : option Callback -> Coro)       (* self.callback *)
| SetCallback (c : ref) (cb : option Callback) (k : Coro)
| CallSoon (cb : Callback) (msg : Message) (k : Coro)       (* loop.call_soon(cb, msg) *)
| ConsumersDeliver (c : ref) (tag : option string) (msg : Message) (k : Coro)
| ConsumersCancel (c : ref) (tag : string) (k : Coro)
| NewComponents (cid : Z) (k : ref -> Coro)                 (* the constructors called by open *)
| GetNextChannelId (k : Z -> Coro)                          (* self.next_channel_id *)
| SetNextChannelId (n : Z) (k : Coro)
| AddHandler (cid : Z) (h : ref) (k : Coro)                 (* dispatcher.add_handler *)
| RemoveHandler (cid : Z) (k : Coro).                       (* dispatcher.remove_handler *)

(** Sequencing: run [c], then [k] on its result; an exception of [c] ends
    the whole. *)
Fixpoint bind (c : Coro) (k : Value -> Coro) : Coro :=
  match c with
  | Ret v => k v
  | Raise e => Raise e
  | Send f c' => Send f (bind c' k)
  | Ready h c' => Ready h (bind c' k)
  | Notify s key v c' => Notify s key v (fun o => bind (c' o) k)
  | Await s keys c' => Await s keys (fun o => bind (c' o) k)
  | Async t c' => Async t (bind c' k)
  | GetBuilder r c' => GetBuilder r (fun b => bind (c' b) k)
  | SetBuilder r b c' => SetBuilder r b (bind c' k)
  | GetCallback r c' => GetCallback r (fun cb => bind (c' cb) k)
  | SetCallback r cb c' => SetCallback r cb (bind c' k)
  | CallSoon cb m c' => CallSoon cb m (bind c' k)
  | ConsumersDeliver r t m c' => ConsumersDeliver r t m (bind c' k)
  | ConsumersCancel r t c' => ConsumersCancel r t (bind c' k)
  | NewComponents cid c' => NewComponents cid (fun r => bind (c' r) k)
  | GetNextChannelId c' => GetNextChannelId (fun n => bind (c' n) k)
  | SetNextChannelId n c' => SetNextChannelId n (bind c' k)
  | AddHandler cid h c' => AddHandler cid h (bind c' k)
  | RemoveHandler cid c' => RemoveHandler cid (bind c' k)
  end.

(** [try: c  except: h; raise]: an exception raised anywhere in [c], also
    after a suspension, runs [h] and is raised again. *)
Fixpoint try_except_reraise (c : Coro) (h : Coro) : Coro :=
  match c with
  | Ret v => Ret v
  | Raise e => bind h (fun _ => Raise e)
  | Send f c' => Send f (try_except_reraise c' h)
  | Ready r c' => Ready r (try_except_reraise c' h)
  | Notify s key v c' => Notify s key v (fun o => try_except_reraise (c' o) h)
  | Await s keys c' => Await s keys (fun o => try_except_reraise (c' o) h)
  | Async t c' => Async t (try_except_reraise c' h)
  | GetBuilder r c' => GetBuilder r (fun b => try_except_reraise (c' b) h)
  | SetBuilder r b c' => SetBuilder r b (try_except_reraise c' h)
  | GetCallback r c' => GetCallback r (fun cb => try_except_reraise (c' cb) h)
  | SetCallback r cb c' => SetCallback r cb (try_except_reraise c' h)
  | CallSoon cb m c' => CallSoon cb m (try_except_reraise c' h)
  | ConsumersDeliver r t m c' => ConsumersDeliver r t m (try_except_reraise c' h)
  | ConsumersCancel r t c' => ConsumersCancel r t (try_except_reraise c' h)
  | NewComponents cid c' => NewComponents cid (fun r => try_except_reraise (c' r) h)
  | GetNextChannelId c' => GetNextChannelId (fun n => try_except_reraise (c' n) h)
  | SetNextChannelId n c' => SetNextChannelId n (try_except_reraise c' h)
  | AddHandler cid r c' => AddHandler cid r (try_except_reraise c' h)
  | RemoveHandler cid c' => RemoveHandler cid (try_except_reraise c' h)
  end.

Declare Scope coro_scope.
Delimit Scope coro_scope with coro.
Bind Scope coro_scope with Coro.
Notation "x <- c ;; k" := (bind c (fun x => k))
  (at level 100, c at next level, right associativity) : coro_scope.
Notation "c ;; k" := (bind c (fun _ => k))
  (at level 100, right associativity) : coro_scope.
Local Open Scope coro_scope.

Definition of_outcome (o : Outcome) : Coro :=
  match o with
  | Resolved v => Ret v
  | Failed e => Raise e
  end.

Definition send_frame (f : Frame) : Coro := Send f (Ret VNone).
Definition ready (h : Self) : Coro := Ready (cell h) (Ret VNone).
Definition notify (s : Self) (key : Key) (v : Value) : Coro := Notify (cell s) key v of_outcome.
Definition await (s : Self) (keys : list Key) : Coro := Await (cell s) keys of_outcome.
Definition async (c : Coro) : Coro := Async c (Ret VNone).

(** A method call on the builder held in the slot, which changes the
    builder in place; on [None] the attribute lookup fails. *)
Definition on_builder (self : Self) (method : string)
    (f : MessageBuilder -> Exn + MessageBuilder) : Coro :=
  GetBuilder (cell self) (fun slot =>
    match slot with
    | None => Raise (AttributeError method)
    | Some b =>
        match f b with
        | inl e => Raise e
        | inr b' => SetBuilder (cell self) (Some b') (Ret VNone)
        end
    end).

(** Reading from the builder held in the slot. *)
Definition read_builder (self : Self) (method : string) (k : MessageBuilder -> Coro) : Coro :=
  GetBuilder (cell self) (fun slot =>
    match slot with
    | None => Raise (AttributeError method)
    | Some b => k b
    end).

(** * channel.py *)

(** ** [ChannelMethodSender] *)

(** Modelled from the spec: [bases.Sender.send_method], which is not in the
    sources at hand.  "Translates outbound operations into one method
    frame"; [send_QueueUnbind] shows the call it makes on the protocol:
    [self.protocol.send_method(self.channel_id, method)]. *)
Definition send_method (self : ChannelMethodSender) (method : Method) : Coro :=
  send_frame (MethodFrame (sender_channel_id self) method).

Definition send_ChannelOpen (self : ChannelMethodSender) : Coro :=
  send_method self (ChannelOpen "").

Definition send_ExchangeDeclare (self : ChannelMethodSender) (name type : string)
    (durable auto_delete internal : bool) : Coro :=
  send_method self (ExchangeDeclare 0 name type false durable auto_delete internal false []).

Definition send_Close (self : ChannelMethodSender) (status_code : Z) (msg : string)
    (class_id method_id : Z) : Coro :=
  send_method self (ChannelClose status_code msg class_id method_id).

Definition send_CloseOK (self : ChannelMethodSender) : Coro :=
  send_method self ChannelCloseOK.

Definition send_BasicQos (self : ChannelMethodSender) (prefetch_size prefetch_count : Z)
    (apply_globally : bool) : Coro :=
  send_method self (BasicQos prefetch_size prefetch_count apply_globally).

(** ** [ReturnedMessageCatcher] *)

(** An argument that may or may not be callable. *)
Inductive PyObj : Set :=
| Callable (cb : Callback)
| NotCallable (v : PyVal).

Definition set_callback (self : Self) (callback : PyObj) : Coro :=
  match callback with
  | NotCallable _ =>
      Raise (TypeError "The handler must be a callable with one argument (a dictionary).")
  | Callable cb => SetCallback (cell self) (Some cb) (Ret VNone)
  end.

Definition handle_returned_message (self : Self) (msg : Message) : Coro :=
  GetCallback (cell self) (fun callback =>
    match callback with
    | None => Raise (UndeliverableMessage msg)
    | Some cb => CallSoon cb msg (Ret VNone)
    end).

(** ** [MessageReceiver] *)

Definition no_attribute (a : string) : Coro := Raise (AttributeError a).

Definition receive_getOK (self : Self) (frame : Frame) : Coro :=
  notify self spec_BasicGetOK (VBool true) ;;
  match frame with
  | MethodFrame _ (BasicGetOK delivery_tag redelivered exchange routing_key) =>
      SetBuilder (cell self)
        (Some (new_MessageBuilder (sender self) (PInt delivery_tag) (PBool redelivered)
                 exchange routing_key None))
        (ready self)
  | _ => no_attribute "delivery_tag"
  end.

Definition receive_deliver (self : Self) (frame : Frame) : Coro :=
  match frame with
  | MethodFrame _ (BasicDeliver tag delivery_tag redelivered exchange routing_key) =>
      SetBuilder (cell self)
        (Some (new_MessageBuilder (sender self) (PInt delivery_tag) (PBool redelivered)
                 exchange routing_key (Some tag)))
        (ready self ;;
         await self [frames_ContentHeaderFrame] ;;
         r <- await self [frames_ContentBodyFrame] ;;
         match r with
         | VTuple tag msg =>
             ConsumersDeliver (cell self) tag msg (ready self)
         | _ => Raise (TypeError "cannot unpack")
         end)
  | _ => no_attribute "delivery_tag"
  end.

Definition receive_return (self : Self) (frame : Frame) : Coro :=
  match frame with
  | MethodFrame _ (BasicReturn exchange routing_key) =>
      SetBuilder (cell self)
        (Some (new_MessageBuilder (sender self) (PStr "") (PStr "")
                 exchange routing_key None))
        (ready self ;;
         await self [frames_ContentHeaderFrame] ;;
         r <- await self [frames_ContentBodyFrame] ;;
         match r with
         | VTuple tag msg =>
             match tag with
             | Some _ => Raise AssertionError          (* assert tag is None *)
             | None =>
                 ready self ;;
                 handle_returned_message self msg
             end
         | _ => Raise (TypeError "cannot unpack")
         end)
  | _ => no_attribute "exchange"
  end.

Definition receive_header (self : Self) (frame : Frame) : Coro :=
  notify self frames_ContentHeaderFrame VNone ;;
  match frame with
  | ContentHeaderFrame _ payload =>
      on_builder self "set_header" (fun b => set_header b payload) ;;
      ready self
  | _ => Raise (TypeError "set_header")
  end.

Definition receive_body (self : Self) (frame : Frame) : Coro :=
  match frame with
  | ContentBodyFrame _ payload =>
      on_builder self "add_body_chunk" (fun b => add_body_chunk b payload) ;;
      read_builder self "done" (fun b =>
        if done b then
          match build b with
          | inl e => Raise e
          | inr msg =>
              let tag := consumer_tag b in
              notify self frames_ContentBodyFrame (VTuple tag msg) ;;
              SetBuilder (cell self) None (Ret VNone)
          end
        else ready self)
  | _ => Raise (TypeError "add_body_chunk")
  end.

(** ** [ChannelFrameHandler] *)

Definition handle_ChannelOpenOK (self : Self) (frame : Frame) : Coro :=
  notify self spec_ChannelOpenOK VNone.

Definition handle_QueueDeclareOK (self : Self) (frame : Frame) : Coro :=
  match frame with
  | MethodFrame _ (QueueDeclareOK queue) => notify self spec_QueueDeclareOK (VStr queue)
  | _ => no_attribute "queue"
  end.

Definition handle_ExchangeDeclareOK (self : Self) (frame : Frame) : Coro :=
  notify self spec_ExchangeDeclareOK VNone.

Definition handle_ExchangeDeleteOK (self : Self) (frame : Frame) : Coro :=
  notify self spec_ExchangeDeleteOK VNone.

Definition handle_QueueBindOK (self : Self) (frame : Frame) : Coro :=
  notify self spec_QueueBindOK VNone.

Definition handle_QueueUnbindOK (self : Self) (frame : Frame) : Coro :=
  notify self spec_QueueUnbindOK VNone.

Definition handle_QueuePurgeOK (self : Self) (frame : Frame) : Coro :=
  notify self spec_QueuePurgeOK VNone.

Definition handle_QueueDeleteOK (self : Self) (frame : Frame) : Coro :=
  notify self spec_QueueDeleteOK VNone.

Definition handle_BasicGetEmpty (self : Self) (frame : Frame) : Coro :=
  notify self spec_BasicGetEmpty (VBool false).

Definition handle_BasicGetOK (self : Self) (frame : Frame) : Coro :=
  async (receive_getOK self frame).

Definition handle_BasicConsumeOK (self : Self) (frame : Frame) : Coro :=
  match frame with
  | MethodFrame _ (BasicConsumeOK tag) => notify self spec_BasicConsumeOK (VStr tag)
  | _ => no_attribute "consumer_tag"
  end.

Definition handle_BasicCancelOK (self : Self) (frame : Frame) : Coro :=
  match frame with
  | MethodFrame _ (BasicCancelOK tag) =>
      notify self spec_BasicCancelOK VNone ;;
      ConsumersCancel (cell self) tag (Ret VNone)
  | _ => no_attribute "consumer_tag"
  end.

Definition handle_BasicDeliver (self : Self) (frame : Frame) : Coro :=
  async (receive_deliver self frame).

Definition handle_ContentHeaderFrame (self : Self) (frame : Frame) : Coro :=
  async (receive_header self frame).

Definition handle_ContentBodyFrame (self : Self) (frame : Frame) : Coro :=
  async (receive_body self frame).

Definition handle_ChannelClose (self : Self) (frame : Frame) : Coro :=
  send_CloseOK (sender self).

Definition handle_ChannelCloseOK (self : Self) (frame : Frame) : Coro :=
  notify self spec_ChannelCloseOK VNone.

Definition handle_BasicQosOK (self : Self) (frame : Frame) : Coro :=
  notify self spec_BasicQosOK VNone.

Definition handle_BasicReturn (self : Self) (frame : Frame) : Coro :=
  async (receive_return self frame).

(** Modelled from the spec: [bases.FrameHandler.handle], which is not in the
    sources at hand.  "Dynamic dispatch by method name (source used
    per-method handler lookup)": the frame goes to the method named after
    the frame's class or, for a method frame, after its payload's class; a
    class without such a method is an attribute error. *)
Definition handle (self : Self) (frame : Frame) : Coro :=
  match frame with
  | ContentHeaderFrame _ _ => handle_ContentHeaderFrame self frame
  | ContentBodyFrame _ _ => handle_ContentBodyFrame self frame
  | MethodFrame _ m =>
      match m with
      | ChannelOpenOK => handle_ChannelOpenOK self frame
      | QueueDeclareOK _ => handle_QueueDeclareOK self frame
      | ExchangeDeclareOK => handle_ExchangeDeclareOK self frame
      | ExchangeDeleteOK => handle_ExchangeDeleteOK self frame
      | QueueBindOK => handle_QueueBindOK self frame
      | QueueUnbindOK => handle_QueueUnbindOK self frame
      | QueuePurgeOK => handle_QueuePurgeOK self frame
      | QueueDeleteOK => handle_QueueDeleteOK self frame
      | BasicGetEmpty => handle_BasicGetEmpty self frame
      | BasicGetOK _ _ _ _ => handle_BasicGetOK self frame
      | BasicConsumeOK _ => handle_BasicConsumeOK self frame
      | BasicCancelOK _ => handle_BasicCancelOK self frame
      | BasicDeliver _ _ _ _ _ => handle_BasicDeliver self frame
      | ChannelClose _ _ _ _ => handle_ChannelClose self frame
      | ChannelCloseOK => handle_ChannelCloseOK self frame
      | BasicQosOK => handle_BasicQosOK self frame
      | BasicReturn _ _ => handle_BasicReturn self frame
      | ChannelOpen _ | ExchangeDeclare _ _ _ _ _ _ _ _ _ | BasicQos _ _ _ =>
          no_attribute "handle"
      end
  end.

(** ** [Channel] *)

Definition new_Exchange (owner : Self) (name type : string)
    (durable auto_delete internal : bool) : Exchange :=
  {| ex_parts := owner; ex_name := name; ex_type := type; ex_durable := durable;
     ex_auto_delete := auto_delete; ex_internal := internal |}.

Definition declare_exchange (self : Channel) (name type : string)
    (durable auto_delete internal : bool) : Coro :=
  if String.eqb name "" then
    Ret (VExchange (new_Exchange (parts self) name "direct" true false false))
  else if negb (re_match VALID_EXCHANGE_NAME_RE name) then
    Raise (ValueError "Invalid exchange name.")
  else
    send_ExchangeDeclare (sender (parts self)) name type durable auto_delete internal ;;
    await (parts self) [spec_ExchangeDeclareOK] ;;
    let ex := new_Exchange (parts self) name type durable auto_delete internal in
    ready (parts self) ;;
    Ret (VExchange ex).

Definition close (self : Channel) : Coro :=
  send_Close (sender (parts self)) 0 "Channel closed by application" 0 0 ;;
  await (parts self) [spec_ChannelCloseOK] ;;
  (* don't say self.handler.ready - stop reading frames from the q *)
  Ret VNone.

Definition set_qos (self : Channel) (prefetch_size prefetch_count : Z)
    (apply_globally : bool) : Coro :=
  send_BasicQos (sender (parts self)) prefetch_size prefetch_count apply_globally ;;
  await (parts self) [spec_BasicQosOK] ;;
  ready (parts self).

Definition set_return_handler (self : Channel) (handler : PyObj) : Coro :=
  set_callback (parts self) handler.

(** ** [ChannelFactory] *)

Definition open : Coro :=
  GetNextChannelId (fun sender_id =>
  let sender := {| sender_channel_id := sender_id |} in
  NewComponents sender_id (fun r =>
  let wired := {| cell := r; sender := sender |} in
  GetNextChannelId (fun channel_id =>
  let channel := {| id := channel_id; parts := wired |} in
  GetNextChannelId (fun handler_id =>
  AddHandler handler_id r (
  try_except_reraise
    (send_ChannelOpen sender ;;
     ready wired ;;
     await wired [spec_ChannelOpenOK])
    (GetNextChannelId (fun n => RemoveHandler n (Ret VNone))) ;;
  GetNextChannelId (fun n =>
  SetNextChannelId (n + 1) (
  ready wired ;;
  Ret (VChannel channel)))))))).

(** * The event loop and the objects around the coroutines *)

(** What the outside can observe, in order. *)
Inductive Event : Set :=
| ESend (f : Frame)                                   (* a frame written to the transport *)
| EReady (h : ref)                                    (* the handler signalled readiness *)
| ENotify (s : ref) (key : Key) (v : Value)           (* a wait under [key] resolved with [v] *)
| EHandle (h : ref) (f : Frame)                       (* a frame handed to the handler *)
| ECallSoon (cb : Callback) (msg : Message)           (* a callback scheduled *)
| ECall (cb : Callback) (msg : Message)               (* the scheduled callback run by the loop *)
| EDeliver (c : ref) (tag : option string) (msg : Message)   (* consumers.deliver *)
| ECancel (c : ref) (tag : string)                    (* consumers.cancel *)
| EAddHandler (cid : Z) (h : ref)
| ERemoveHandler (cid : Z)
| ERaised (e : Exn).                                  (* an exception nobody caught *)

(** What the loop has been asked to run. *)
Inductive Task : Set :=
| TCoro (c : Coro)
| TCallback (cb : Callback) (msg : Message).

(** The mutable state of one channel's components. *)
Record Comp : Set := {
  comp_sender : ChannelMethodSender;
  message_builder : option MessageBuilder;       (* MessageReceiver.message_builder *)
  callback : option Callback;                    (* ReturnedMessageCatcher.callback *)
  futures : list (list Key * (Outcome -> Coro)); (* Synchroniser: pending waits, oldest first *)
  is_ready : bool;                               (* the handler asked for the next frame *)
  frames_q : list Frame                          (* frames dispatched, not yet handled *)
}.

(** State after the constructors of [open]: [self.message_builder = None],
    [self.callback = None], nothing pending. *)
Definition new_Comp (s : ChannelMethodSender) : Comp :=
  {| comp_sender := s; message_builder := None; callback := None;
     futures := []; is_ready := false; frames_q := [] |}.

Record World : Type := {
  next_channel_id : Z;          (* ChannelFactory.next_channel_id *)
  handlers : gmap Z ref;        (* the dispatcher's table *)
  heap : list Comp;
  runq : list Task;             (* the loop's queue of scheduled tasks, oldest first *)
  trace : list Event;
  results : list Value          (* what finished tasks returned *)
}.

(** A connection on which no channel has been opened:
    [self.next_channel_id = 1]. *)
Definition new_World : World :=
  {| next_channel_id := 1; handlers := ∅; heap := []; runq := []; trace := []; results := [] |}.

Definition set_next_channel_id (n : Z) (w : World) : World :=
  {| next_channel_id := n; handlers := handlers w; heap := heap w; runq := runq w;
     trace := trace w; results := results w |}.
Definition set_handlers (h : gmap Z ref) (w : World) : World :=
  {| next_channel_id := next_channel_id w; handlers := h; heap := heap w; runq := runq w;
     trace := trace w; results := results w |}.
Definition set_heap (h : list Comp) (w : World) : World :=
  {| next_channel_id := next_channel_id w; handlers := handlers w; heap := h; runq := runq w;
     trace := trace w; results := results w |}.
Definition set_runq (q : list Task) (w : World) : World :=
  {| next_channel_id := next_channel_id w; handlers := handlers w; heap := heap w; runq := q;
     trace := trace w; results := results w |}.
Definition log (e : Event) (w : World) : World :=
  {| next_channel_id := next_channel_id w; handlers := handlers w; heap := heap w;
     runq := runq w; trace := trace w ++ [e]; results := results w |}.
Definition returned (v : Value) (w : World) : World :=
  {| next_channel_id := next_channel_id w; handlers := handlers w; heap := heap w;
     runq := runq w; trace := trace w; results := results w ++ [v] |}.
Definition schedule (t : Task) (w : World) : World := set_runq (runq w ++ [t]) w.

Definition set_message_builder (b : option MessageBuilder) (c : Comp) : Comp :=
  {| comp_sender := comp_sender c; message_builder := b; callback := callback c;
     futures := futures c; is_ready := is_ready c; frames_q := frames_q c |}.
Definition set_callback_slot (cb : option Callback) (c : Comp) : Comp :=
  {| comp_sender := comp_sender c; message_builder := message_builder c; callback := cb;
     futures := futures c; is_ready := is_ready c; frames_q := frames_q c |}.
Definition set_futures (l : list (list Key * (Outcome -> Coro))) (c : Comp) : Comp :=
  {| comp_sender := comp_sender c; message_builder := message_builder c;
     callback := callback c; futures := l; is_ready := is_ready c; frames_q := frames_q c |}.
Definition set_is_ready (b : bool) (c : Comp) : Comp :=
  {| comp_sender := comp_sender c; message_builder := message_builder c;
     callback := callback c; futures := futures c; is_ready := b; frames_q := frames_q c |}.
Definition set_frames_q (q : list Frame) (c : Comp) : Comp :=
  {| comp_sender := comp_sender c; message_builder := message_builder c;
     callback := callback c; futures := futures c; is_ready := is_ready c; frames_q := q |}.

(** The components behind a reference (references come from
    [NewComponents], so the lookup finds them). *)
Definition comp (w : World) (r : ref) : Comp :=
  default (new_Comp {| sender_channel_id := 0 |}) (heap w !! r).

Definition upd (r : ref) (f : Comp -> Comp) (w : World) : World :=
  set_heap (<[r := f (comp w r)]> (heap w)) w.

(** Modelled from the spec: [Synchroniser.notify]'s choice of the wait, which
    is not in the sources at hand.  "matches the oldest pending wait
    registered under key (FIFO per key)". *)
Fixpoint take_future (key : Key) (l : list (list Key * (Outcome -> Coro)))
    : option ((Outcome -> Coro) * list (list Key * (Outcome -> Coro))) :=
  match l with
  | [] => None
  | (keys, k) :: l' =>
      if bool_decide (key ∈ keys) then Some (k, l')
      else match take_future key l' with
           | Some (k', rest) => Some (k', (keys, k) :: rest)
           | None => None
           end
  end.

(** [exec c w] runs the coroutine until it is suspended or ends, and tells
    how it ended.

    Modelled from the spec, for the objects that are not in the sources at
    hand: [Synchroniser.await] "creates a pending wait"; [Synchroniser.notify]
    "unblocks it with value; resolving with no matching pending wait is an
    error", the unblocked caller being scheduled by the loop;
    [FrameHandler.ready] signals readiness, "the sole backpressure
    mechanism"; [asyncio.async] and [loop.call_soon] put a task at the end of
    the loop's queue. *)
Fixpoint exec (c : Coro) (w : World) : World * option Outcome :=
  match c with
  | Ret v => (w, Some (Resolved v))
  | Raise e => (w, Some (Failed e))
  | Send f k => exec k (log (ESend f) w)
  | Ready h k => exec k (upd h (set_is_ready true) (log (EReady h) w))
  | Notify s key v k =>
      match take_future key (futures (comp w s)) with
      | Some (waiter, rest) =>
          exec (k (Resolved VNone))
            (schedule (TCoro (waiter (Resolved v)))
               (upd s (set_futures rest) (log (ENotify s key v) w)))
      | None => exec (k (Failed (ProtocolError "no pending wait"))) w
      end
  | Await s keys k =>
      (upd s (fun c => set_futures (futures c ++ [(keys, k)]) c) w, None)
  | Async t k => exec k (schedule (TCoro t) w)
  | GetBuilder r k => exec (k (message_builder (comp w r))) w
  | SetBuilder r b k => exec k (upd r (set_message_builder b) w)
  | GetCallback r k => exec (k (callback (comp w r))) w
  | SetCallback r cb k => exec k (upd r (set_callback_slot cb) w)
  | CallSoon cb msg k => exec k (schedule (TCallback cb msg) (log (ECallSoon cb msg) w))
  | ConsumersDeliver r tag msg k => exec k (log (EDeliver r tag msg) w)
  | ConsumersCancel r tag k => exec k (log (ECancel r tag) w)
  | NewComponents cid k =>
      exec (k (List.length (heap w)))
        (set_heap (heap w ++ [new_Comp {| sender_channel_id := cid |}]) w)
  | GetNextChannelId k => exec (k (next_channel_id w)) w
  | SetNextChannelId n k => exec k (set_next_channel_id n w)
  | AddHandler cid h k =>
      exec k (set_handlers (<[cid := h]> (handlers w)) (log (EAddHandler cid h) w))
  | RemoveHandler cid k =>
      exec k (set_handlers (delete cid (handlers w)) (log (ERemoveHandler cid) w))
  end.

(** The end of a task: its value is kept, its exception goes to the loop. *)
Definition finish (r : World * option Outcome) : World :=
  match r with
  | (w, None) => w
  | (w, Some (Resolved v)) => returned v w
  | (w, Some (Failed e)) => log (ERaised e) w
  end.

(** The end of a handler call: only an exception is of interest. *)
Definition finish_handler (r : World * option Outcome) : World :=
  match r with
  | (w, Some (Failed e)) => log (ERaised e) w
  | (w, _) => w
  end.

(** The first channel that is ready and has a frame waiting. *)
Fixpoint find_deliverable (r : ref) (l : list Comp) : option (ref * Frame) :=
  match l with
  | [] => None
  | c :: l' =>
      match is_ready c, frames_q c with
      | true, f :: _ => Some (r, f)
      | _, _ => find_deliverable (S r) l'
      end
  end.

(** One turn of the loop: the oldest scheduled task runs until it is
    suspended or ends; when nothing is scheduled, a channel that signalled
    readiness is given its next frame.

    Modelled from the spec (the dispatcher and the handler's base class are
    not in the sources at hand): "the Dispatcher must not deliver the next
    frame for a channel until that channel's handler has signalled
    readiness". *)
Definition step (w : World) : option World :=
  match runq w with
  | TCoro c :: q => Some (finish (exec c (set_runq q w)))
  | TCallback cb msg :: q => Some (log (ECall cb msg) (set_runq q w))
  | [] =>
      match find_deliverable 0%nat (heap w) with
      | Some (r, f) =>
          let c := comp w r in
          let self := {| cell := r; sender := comp_sender c |} in
          Some (finish_handler
                  (exec (handle self f)
                     (log (EHandle r f)
                        (upd r (fun c => set_frames_q (tail (frames_q c)) (set_is_ready false c)) w))))
      | None => None
      end
  end.

(** The loop runs until nothing is left to do. *)
Fixpoint run (fuel : nat) (w : World) : World :=
  match fuel with
  | O => w
  | S fuel' =>
      match step w with
      | Some w' => run fuel' w'
      | None => w
      end
  end.

Definition quiescent (w : World) : Prop := step w = None.

(** What reaches the loop from outside. *)
Inductive Input : Set :=
| Arrive (f : Frame)                          (* a frame read from the transport *)
| Call (c : Coro)                             (* the application starts a coroutine *)
| FailWait (s : ref) (key : Key) (e : Exn).   (* the oldest wait under [key] is failed *)

(** Modelled from the spec: [Dispatcher.dispatch], which is not in the
    sources at hand.  "routes each inbound frame to the handler for its
    channel id, or signals a protocol fault if none registered". *)
Definition dispatch (f : Frame) (w : World) : World :=
  match handlers w !! frame_channel_id f with
  | Some r => upd r (fun c => set_frames_q (frames_q c ++ [f]) c) w
  | None => log (ERaised (ProtocolError "no handler for channel")) w
  end.

Definition feed (i : Input) (w : World) : World :=
  match i with
  | Arrive f => dispatch f w
  | Call c => schedule (TCoro c) w
  | FailWait s key e =>
      match take_future key (futures (comp w s)) with
      | Some (waiter, rest) =>
          schedule (TCoro (waiter (Failed e))) (upd s (set_futures rest) w)
      | None => w
      end
  end.

(** Each input is followed by the loop running for at most [fuel] turns. *)
Definition play (fuel : nat) (inputs : list Input) (w : World) : World :=
  fold_left (fun w i => run fuel (feed i w)) inputs w.

(** * Vocabulary of the properties *)

(** ** Names *)

(** "letters, digits, hyphen, underscore, period, or colon" *)
Definition allowed_char (c : ascii) : bool :=
  between "a" "z" c || between "A" "Z" c || between "0" "9" c
  || Ascii.eqb c "_" || Ascii.eqb c "-" || Ascii.eqb c "." || Ascii.eqb c ":".

Fixpoint all_allowed (s : string) : bool :=
  match s with
  | EmptyString => true
  | String c s' => allowed_char c && all_allowed s'
  end.

(** "begins with 'amq.'" *)
Definition begins_with_amq (s : string) : bool :=
  match s with
  | String "a" (String "m" (String "q" (String "." _))) => true
  | _ => false
  end.

(** The name without the newline that may end it. *)
Fixpoint chomp (s : string) : string :=
  match s with
  | EmptyString => EmptyString
  | String c EmptyString => if Ascii.eqb c newline then EmptyString else s
  | String c s' => String c (chomp s')
  end.

(** What the loop of [(\w|[-.:])*$] accepts. *)
Fixpoint name_tail (s : string) : bool :=
  at_dollar s ||
  match s with
  | String c s' => allowed_char c && name_tail s'
  | EmptyString => false
  end.

(** Non-empty names of allowed characters that do not begin with [amq.],
    the name being first relieved of a newline that ends it. *)
Definition valid_exchange_name (s : string) : bool :=
  negb (begins_with_amq s) && negb (String.eqb (chomp s) "") && all_allowed (chomp s).

(** ** Example objects *)

(** The world after the first channel has been opened, and that channel. *)
Definition opened : World :=
  play 4 [Call open; Arrive (MethodFrame 1 ChannelOpenOK)] new_World.

Definition ch1 : Channel :=
  {| id := 1; parts := {| cell := 0%nat; sender := {| sender_channel_id := 1 |} |} |}.

(** ** Continuations *)

(** What [declare_exchange] does once its wait is over. *)
Definition declare_exchange_resume (self : Channel) (name type : string)
    (durable auto_delete internal : bool) : Outcome -> Coro :=
  fun o =>
    of_outcome o ;;
    ready (parts self) ;;
    Ret (VExchange (new_Exchange (parts self) name type durable auto_delete internal)).

(** The frame that [declare_exchange] sends. *)
Definition ExchangeDeclare_frame (self : Channel) (name type : string)
    (durable auto_delete internal : bool) : Frame :=
  MethodFrame (sender_channel_id (sender (parts self)))
    (ExchangeDeclare 0 name type false durable auto_delete internal false []).

(** The default exchange that [declare_exchange] answers the empty name with. *)
Definition default_exchange (self : Channel) : Exchange :=
  new_Exchange (parts self) "" "direct" true false false.

(** ** Channels in the world *)

(** A channel between two frames: it asked for the next frame, nothing is
    pending, no reconstruction is in flight. *)
Definition idle (cid : Z) (cb : option Callback) : Comp :=
  {| comp_sender := {| sender_channel_id := cid |}; message_builder := None;
     callback := cb; futures := []; is_ready := true; frames_q := [] |}.

(** A world whose only channel is [cid], idle, with nothing scheduled. *)
Definition idle_channel (w : World) (cid : Z) (cb : option Callback) : Prop :=
  handlers w !! cid = Some 0%nat /\ heap w = [idle cid cb] /\ runq w = [].

(** The handler, receiver and catcher of the only channel. *)
Definition self0 (cid : Z) : Self :=
  {| cell := 0%nat; sender := {| sender_channel_id := cid |} |}.

(** A world with one channel. *)
Definition world1 (n : Z) (hs : gmap Z ref) (c : Comp) (q : list Task)
    (t : list Event) (rs : list Value) : World :=
  {| next_channel_id := n; handlers := hs; heap := [c]; runq := q; trace := t; results := rs |}.

(** A channel with nothing in its frame queue. *)
Definition busy (cid : Z) (cb : option Callback) (b : option MessageBuilder)
    (fs : list (list Key * (Outcome -> Coro))) (rdy : bool) : Comp :=
  {| comp_sender := {| sender_channel_id := cid |}; message_builder := b;
     callback := cb; futures := fs; is_ready := rdy; frames_q := [] |}.

(** ** Reconstruction *)

(** The builder [b0] once it has got the header [h] and the bytes [body]. *)
Definition building (b0 : MessageBuilder) (h : ContentHeader) (body : bytes) : MessageBuilder :=
  {| mb_sender := mb_sender b0; mb_delivery_tag := mb_delivery_tag b0;
     mb_redelivered := mb_redelivered b0; mb_exchange_name := mb_exchange_name b0;
     mb_routing_key := mb_routing_key b0; consumer_tag := consumer_tag b0;
     mb_header := Some h; mb_body := body |}.

(** The message that the builder [b0] makes of the header [h] and the bytes
    [body]. *)
Definition message_of (b0 : MessageBuilder) (h : ContentHeader) (body : bytes) : Message :=
  {| msg_sender := mb_sender b0; msg_body := body; msg_properties := properties h;
     msg_delivery_tag := mb_delivery_tag b0; msg_redelivered := mb_redelivered b0;
     msg_exchange_name := mb_exchange_name b0; msg_routing_key := mb_routing_key b0 |}.

(** The chunks complete a body of [L] bytes of which [acc] are there: every
    chunk but the last leaves the body incomplete, the last completes it. *)
Fixpoint fits (L acc : nat) (chunks : list bytes) : bool :=
  match chunks with
  | [] => false
  | c :: cs =>
      match cs with
      | [] => (acc <? L)%nat && (acc + List.length c =? L)%nat
      | _ :: _ => (acc + List.length c <? L)%nat && fits L (acc + List.length c) cs
      end
  end.

(** What the loop shows of the body frames of a reconstruction, [final]
    being what the last one brings about. *)
Fixpoint body_trace (cid : Z) (chunks : list bytes) (final : list Event) : list Event :=
  match chunks with
  | [] => []
  | c :: cs =>
      match cs with
      | [] => EHandle 0%nat (ContentBodyFrame cid c) :: final
      | _ :: _ =>
          EHandle 0%nat (ContentBodyFrame cid c) :: EReady 0%nat :: body_trace cid cs final
      end
  end.

(** [receive_return] after its last wait. *)
Definition receive_return_on_body (self : Self) : Outcome -> Coro :=
  fun o =>
    r <- of_outcome o ;;
    match r with
    | VTuple tag msg =>
        match tag with
        | Some _ => Raise AssertionError
        | None => ready self ;; handle_returned_message self msg
        end
    | _ => Raise (TypeError "cannot unpack")
    end.

(** A receiver after its wait for the header, [kb] being what it does after
    its wait for the body. *)
Definition on_header (self : Self) (kb : Outcome -> Coro) : Outcome -> Coro :=
  fun o => of_outcome o ;; Await (cell self) [frames_ContentBodyFrame] kb.

(** The builder that [receive_return] installs. *)
Definition return_builder (cid : Z) (exchange routing_key : string) : MessageBuilder :=
  new_MessageBuilder {| sender_channel_id := cid |} (PStr "") (PStr "") exchange routing_key None.

(** The frames of a returned message. *)
Definition return_frames (cid : Z) (exchange routing_key : string) (h : ContentHeader)
    (chunks : list bytes) : list Frame :=
  MethodFrame cid (BasicReturn exchange routing_key)
  :: ContentHeaderFrame cid h
  :: map (ContentBodyFrame cid) chunks.

(** The trace [t] after the events [l], logged one by one. *)
Definition logs (t l : list Event) : list Event :=
  fold_left (fun acc e => acc ++ [e]) l t.

(** The callbacks that the loop has run. *)
Fixpoint calls (t : list Event) : list (Callback * Message) :=
  match t with
  | [] => []
  | ECall cb msg :: t' => (cb, msg) :: calls t'
  | _ :: t' => calls t'
  end.

(** What the loop shows of a returned message up to the catcher. *)
Definition return_trace (cid : Z) (exchange routing_key : string) (h : ContentHeader)
    (chunks : list bytes) (msg : Message) : list Event :=
  [EHandle 0%nat (MethodFrame cid (BasicReturn exchange routing_key)); EReady 0%nat;
   EHandle 0%nat (ContentHeaderFrame cid h);
   ENotify 0%nat frames_ContentHeaderFrame VNone; EReady 0%nat]
  ++ body_trace cid chunks
       [ENotify 0%nat frames_ContentBodyFrame (VTuple None msg); EReady 0%nat].

(** What the catcher brings about once the loop has come to rest. *)
Definition catcher_trace (cb : option Callback) (msg : Message) : list Event :=
  match cb with
  | Some f => [ECallSoon f msg; ECall f msg]
  | None => [ERaised (UndeliverableMessage msg)]
  end.

(** The returned message that the frames carry. *)
Definition returned_message (cid : Z) (exchange routing_key : string) (h : ContentHeader)
    (chunks : list bytes) : Message :=
  message_of (return_builder cid exchange routing_key) h (concat chunks).

(** A header that declares three bytes, and these in two chunks. *)
Definition hdr3 : ContentHeader := {| body_length := 3; properties := [] |}.
Definition xy_z : list bytes := [[Byte.x78; Byte.x79]; [Byte.x7a]].

(** The first channel after the trigger and the header of a returned
    message and the first two of its three bytes. *)
Definition awaiting_last : World :=
  play 4 (map Arrive (return_frames 1 "ex" "rk" hdr3 [[Byte.x78; Byte.x79]])) opened.

(** Modelled from the spec: the caller of a polled get ([queue.Queue.get]
    is not in the sources at hand), as far as its first wait: the operation
    "registers exactly one rendezvous wait keyed by the corresponding
    completion event", which for a get is either of [BasicGetOK] and
    [BasicGetEmpty]. *)
Definition get_wait (self : Self) : Coro :=
  await self [spec_BasicGetOK; spec_BasicGetEmpty].

(** The first channel with a polled get under way. *)
Definition getting : World := play 4 [Call (get_wait (self0 1))] opened.

(** The channel that the loop's only channel is. *)
Definition channel0 (cid : Z) : Channel := {| id := cid; parts := self0 cid |}.

(** The frame that [Channel.close] sends. *)
Definition close_frame (cid : Z) : Frame :=
  MethodFrame cid (ChannelClose 0 "Channel closed by application" 0 0).

(** ** Opening channels *)

(** Two calls of [open], the second made while the first waits for
    [ChannelOpenOK]. *)
Definition two_opens : World := play 4 [Call open; Call open] new_World.

(** Two calls of [open] again: the answer to the first arrives and the
    second call is made before the loop takes its next turn, and the peer
    then answers the second request as well. *)
Definition overlapping_opens : World :=
  run 4 (feed (Arrive (MethodFrame 1 ChannelOpenOK))
    (run 4 (feed (Call open) (feed (Arrive (MethodFrame 1 ChannelOpenOK))
      (run 4 (feed (Call open) new_World)))))).

(** Three calls of [open], each made after the one before has returned. *)
Definition three_opens : World :=
  play 4 [Call open; Arrive (MethodFrame 1 ChannelOpenOK);
          Call open; Arrive (MethodFrame 2 ChannelOpenOK);
          Call open; Arrive (MethodFrame 3 ChannelOpenOK)] new_World.

(** A call of [open] whose wait for [ChannelOpenOK] is failed. *)
Definition failed_open : World :=
  play 4 [Call open; FailWait 0%nat spec_ChannelOpenOK (OtherError 0)] new_World.

(** The channel that the [k]-th call of [open] makes out of the components
    at [r] when it reads the id [n]. *)
Definition opened_channel (n : Z) (r : ref) : Channel :=
  {| id := n; parts := {| cell := r; sender := {| sender_channel_id := n |} |} |}.

(** * Vocabulary of further properties *)

(** The frame that [Channel.set_qos] sends. *)
Definition BasicQos_frame (cid prefetch_size prefetch_count : Z) (apply_globally : bool) : Frame :=
  MethodFrame cid (BasicQos prefetch_size prefetch_count apply_globally).

(** Calls of [set_return_handler], one after another. *)
Definition set_return_handlers (self : Channel) (args : list PyObj) (w : World) : World :=
  fold_left (fun w a => fst (exec (set_return_handler self a) w)) args w.

(** How often readiness was signalled. *)
Fixpoint readies (t : list Event) : nat :=
  match t with
  | [] => 0%nat
  | EReady _ :: t' => S (readies t')
  | _ :: t' => readies t'
  end.

(** The frames that a handler answers by resolving a wait in its own body
    (the others start a receiver or, for [ChannelClose], send the answer). *)
Definition is_response (m : Method) : bool :=
  match m with
  | ChannelOpenOK | QueueDeclareOK _ | ExchangeDeclareOK | ExchangeDeleteOK
  | QueueBindOK | QueueUnbindOK | QueuePurgeOK | QueueDeleteOK | BasicGetEmpty
  | BasicConsumeOK _ | BasicCancelOK _ | ChannelCloseOK | BasicQosOK => true
  | _ => false
  end.

(** [receive_deliver] after its last wait. *)
Definition receive_deliver_on_body (self : Self) : Outcome -> Coro :=
  fun o =>
    r <- of_outcome o ;;
    match r with
    | VTuple tag msg => ConsumersDeliver (cell self) tag msg (ready self)
    | _ => Raise (TypeError "cannot unpack")
    end.

(** The builder that [receive_deliver] installs. *)
Definition deliver_builder (cid : Z) (tag : string) (delivery_tag : Z) (redelivered : bool)
    (exchange routing_key : string) : MessageBuilder :=
  new_MessageBuilder {| sender_channel_id := cid |} (PInt delivery_tag) (PBool redelivered)
    exchange routing_key (Some tag).

(** The frames of a pushed delivery. *)
Definition deliver_frames (cid : Z) (tag : string) (delivery_tag : Z) (redelivered : bool)
    (exchange routing_key : string) (h : ContentHeader) (chunks : list bytes) : list Frame :=
  MethodFrame cid (BasicDeliver tag delivery_tag redelivered exchange routing_key)
  :: ContentHeaderFrame cid h
  :: map (ContentBodyFrame cid) chunks.

(** [open] after its wait, for the id [n] and the components at [r]. *)
Definition open_resume (n : Z) (r : ref) : Outcome -> Coro :=
  fun o =>
    try_except_reraise (of_outcome o)
      (GetNextChannelId (fun n' => RemoveHandler n' (Ret VNone))) ;;
    GetNextChannelId (fun n' =>
    SetNextChannelId (n' + 1) (
    Ready r (Ret (VChannel (opened_channel n r))))).

(** The components that [open] has made for the id [n], at [r], while it
    waits for [ChannelOpenOK]. *)
Definition opening (n : Z) (r : ref) : Comp :=
  {| comp_sender := {| sender_channel_id := n |}; message_builder := None; callback := None;
     futures := [([spec_ChannelOpenOK], open_resume n r)]; is_ready := true; frames_q := [] |}.

(** [k] calls of [open], each answered by the peer before the next is
    made, the first of them for the id [n]. *)
Fixpoint open_calls (n : Z) (k : nat) : list Input :=
  match k with
  | O => []
  | S k' => Call open :: Arrive (MethodFrame n ChannelOpenOK) :: open_calls (n + 1) k'
  end.

(** The channels that [k] calls of [open] return when the first reads the
    id [n] and makes its components at [r]. *)
Fixpoint opened_channels (n : Z) (r : ref) (k : nat) : list Value :=
  match k with
  | O => []
  | S k' => VChannel (opened_channel n r) :: opened_channels (n + 1) (S r) k'
  end.

(** The dispatcher's table after [k] calls of [open] in turn, the first for
    the id [n] with its components at [r]. *)
Fixpoint registered (n : Z) (r : ref) (k : nat) (hs : gmap Z ref) : gmap Z ref :=
  match k with
  | O => hs
  | S k' => registered (n + 1) (S r) k' (<[n := r]> hs)
  end.

(** Nothing is scheduled and no channel is both ready and has a frame
    waiting. *)
Definition at_rest (w : World) : Prop := runq w = [] /\ quiescent w.

(** ** Requests in flight *)

(** A world whose only channel is [cid], ready for the next frame, with [b]
    in its builder slot and the waits [fs] pending, and nothing scheduled. *)
Definition ready_channel (w : World) (cid : Z) (cb : option Callback)
    (b : option MessageBuilder) (fs : list (list Key * (Outcome -> Coro))) : Prop :=
  handlers w !! cid = Some 0%nat /\ heap w = [busy cid cb b fs true] /\ runq w = [].

(** The first channel with the declaration of an exchange in flight. *)
Definition declaring : World :=
  play 4 [Call (declare_exchange (channel0 1) "logs" "fanout" true false false)] opened.

(** * Name validation *)

Example re_foo : re_match VALID_EXCHANGE_NAME_RE "my-exchange.v1:a_b" = true.
Proof. reflexivity. Qed.
Example re_amq : re_match VALID_EXCHANGE_NAME_RE "amq.direct" = false.
Proof. reflexivity. Qed.
Example re_amq_only : re_match VALID_EXCHANGE_NAME_RE "amq" = true.
Proof. reflexivity. Qed.
Example re_space : re_match VALID_EXCHANGE_NAME_RE "a b" = false.
Proof. reflexivity. Qed.
Example re_empty : re_match VALID_EXCHANGE_NAME_RE "" = false.
Proof. reflexivity. Qed.
Example re_empty_queue : re_match VALID_QUEUE_NAME_RE "" = true.
Proof. reflexivity. Qed.


Lemma matches_NAME_CHAR (bol : bool) (s : string) (k : bool -> string -> bool) :
  matches NAME_CHAR bol s k =
  match s with
  | String c s' => allowed_char c && k false s'
  | EmptyString => false
  end.
Proof.
  destruct s as [|c s']; [reflexivity|].
  cbn [matches NAME_CHAR one_char]. unfold allowed_char, is_word, in_class. cbn [existsb].
  rewrite !(Ascii.eqb_sym c).
  destruct (between "a" "z" c), (between "A" "Z" c), (between "0" "9" c),
    (Ascii.eqb "_" c), (Ascii.eqb "-" c), (Ascii.eqb "." c), (Ascii.eqb ":" c),
    (k false s'); reflexivity.
Qed.

Lemma star_NAME_CHAR_dollar (n : nat) :
  forall (s : string) (bol : bool), (String.length s <= n)%nat ->
  star_loop (matches NAME_CHAR) (fun b s' => matches Dollar b s' (fun _ _ => true)) n bol s
  = name_tail s.
Proof.
  induction n as [|n IH]; intros s bol Hn.
  - destruct s; [reflexivity | cbn in Hn; lia].
  - cbn [star_loop]. rewrite matches_NAME_CHAR.
    destruct s as [|c s']; cbn [name_tail matches].
    + reflexivity.
    + rewrite andb_true_r. f_equal.
      cbn [String.length] in *.
      replace (String.length s' <? S (String.length s'))%nat with true
        by (symmetry; apply Nat.ltb_lt; lia).
      rewrite andb_true_l, IH by lia. reflexivity.
Qed.

Lemma lookahead_amq (s : string) (bol : bool) :
  matches (lits "amq.") bol s (fun _ _ => true) = begins_with_amq s.
Proof.
  cbn [lits matches]. unfold begins_with_amq.
  do 4 (destruct s as [|[[] [] [] [] [] [] [] []] s]; cbn; try reflexivity).
Qed.

Lemma name_tail_chomp (s : string) : name_tail s = all_allowed (chomp s).
Proof.
  induction s as [|c s' IH]; [reflexivity|].
  destruct s' as [|c' s''].
  - cbn. destruct (Ascii.eqb_spec c newline) as [->|Hne]; [reflexivity|].
    cbn. reflexivity.
  - change (name_tail (String c (String c' s'')))
      with (false || allowed_char c && name_tail (String c' s'')).
    change (chomp (String c (String c' s''))) with (String c (chomp (String c' s''))).
    rewrite IH. reflexivity.
Qed.

(** What [VALID_EXCHANGE_NAME_RE.match] decides. *)
Lemma VALID_EXCHANGE_NAME_RE_spec (s : string) :
  re_match VALID_EXCHANGE_NAME_RE s = valid_exchange_name s.
Proof.
  unfold re_match, VALID_EXCHANGE_NAME_RE, valid_exchange_name.
  change (matches (Cat Caret (Cat (NegLookahead (lits "amq.")) (Cat (Plus NAME_CHAR) Dollar)))
            true s (fun _ _ => true))
    with (true && (negb (matches (lits "amq.") true s (fun _ _ => true)) &&
          matches NAME_CHAR true s (fun b s' =>
            star_loop (matches NAME_CHAR)
              (fun b s' => matches Dollar b s' (fun _ _ => true)) (String.length s') b s'))).
  rewrite lookahead_amq, matches_NAME_CHAR, andb_true_l, <- andb_assoc. f_equal.
  destruct s as [|c s']; [reflexivity|].
  rewrite star_NAME_CHAR_dollar by lia. rewrite name_tail_chomp.
  destruct s' as [|c' s''].
  - cbn. destruct (Ascii.eqb_spec c newline) as [->|Hne]; [reflexivity|].
    cbn. reflexivity.
  - change (chomp (String c (String c' s''))) with (String c (chomp (String c' s''))).
    reflexivity.
Qed.

Lemma all_allowed_chomp (s : string) : all_allowed s = true -> chomp s = s.
Proof.
  induction s as [|c s' IH]; [reflexivity|].
  cbn [all_allowed]. intros [Hc Hs]%andb_true_iff.
  destruct s' as [|c' s''].
  - cbn. destruct (Ascii.eqb_spec c newline) as [->|Hne]; [discriminate Hc | reflexivity].
  - change (chomp (String c (String c' s''))) with (String c (chomp (String c' s''))).
    rewrite IH by exact Hs. reflexivity.
Qed.

(** A name that begins with [amq.] does not match. *)
Lemma amq_name_no_match (s : string) :
  begins_with_amq s = true -> re_match VALID_EXCHANGE_NAME_RE s = false.
Proof.
  intros H. rewrite VALID_EXCHANGE_NAME_RE_spec. unfold valid_exchange_name.
  rewrite H. reflexivity.
Qed.

(** A name with a character that is not allowed does not match, unless that
    character is a newline that ends the name. *)
Lemma disallowed_name_no_match (s : string) :
  all_allowed (chomp s) = false -> re_match VALID_EXCHANGE_NAME_RE s = false.
Proof.
  intros H. rewrite VALID_EXCHANGE_NAME_RE_spec. unfold valid_exchange_name.
  rewrite H. apply andb_false_r.
Qed.

(** A non-empty name of allowed characters that does not begin with [amq.]
    matches. *)
Lemma allowed_name_matches (s : string) :
  s <> "" -> all_allowed s = true -> begins_with_amq s = false ->
  re_match VALID_EXCHANGE_NAME_RE s = true.
Proof.
  intros Hne Hall Hamq. rewrite VALID_EXCHANGE_NAME_RE_spec. unfold valid_exchange_name.
  rewrite (all_allowed_chomp s Hall), Hall, Hamq.
  destruct (String.eqb_spec s ""); [contradiction | reflexivity].
Qed.

(** ** [Channel.declare_exchange] *)

(** A non-empty name that the pattern refuses: [ValueError], and the world
    is as it was (no frame sent, no wait registered). *)
Lemma declare_exchange_rejects (self : Channel) (name type : string)
    (durable auto_delete internal : bool) (w : World) :
  name <> "" -> re_match VALID_EXCHANGE_NAME_RE name = false ->
  exec (declare_exchange self name type durable auto_delete internal) w
  = (w, Some (Failed (ValueError "Invalid exchange name."))).
Proof.
  intros Hne Hre. unfold declare_exchange.
  destruct (String.eqb_spec name ""); [contradiction|].
  rewrite Hre. reflexivity.
Qed.

(** A non-empty name that the pattern accepts: one [ExchangeDeclare] frame is
    sent and the coroutine waits for [ExchangeDeclareOK]. *)
Lemma declare_exchange_sends (self : Channel) (name type : string)
    (durable auto_delete internal : bool) (w : World) :
  name <> "" -> re_match VALID_EXCHANGE_NAME_RE name = true ->
  exec (declare_exchange self name type durable auto_delete internal) w
  = (upd (cell (parts self))
       (fun c => set_futures
          (futures c ++ [([spec_ExchangeDeclareOK],
                          declare_exchange_resume self name type durable auto_delete internal)]) c)
       (log (ESend (ExchangeDeclare_frame self name type durable auto_delete internal)) w),
     None).
Proof.
  intros Hne Hre. unfold declare_exchange.
  destruct (String.eqb_spec name ""); [contradiction|].
  rewrite Hre. reflexivity.
Qed.

(** Names that begin with [amq.] are refused before any frame is sent. *)
Lemma declare_exchange_amq (self : Channel) (name type : string)
    (durable auto_delete internal : bool) (w : World) :
  begins_with_amq name = true ->
  exec (declare_exchange self name type durable auto_delete internal) w
  = (w, Some (Failed (ValueError "Invalid exchange name."))).
Proof.
  intros H. apply declare_exchange_rejects.
  - intros ->. discriminate H.
  - apply amq_name_no_match, H.
Qed.

(** C1, at the input where the code departs from it: the name [a] followed
    by a newline contains a character that is not allowed, and yet
    [declare_exchange] raises nothing, sends the [ExchangeDeclare] frame and
    waits for the answer, because [$] also matches before a newline that
    ends the name. *)
Theorem declare_exchange_trailing_newline :
  let name := String "a" (String newline "") in
  all_allowed name = false /\
  re_match VALID_EXCHANGE_NAME_RE name = true /\
  snd (exec (declare_exchange ch1 name "direct" true false false) opened) = None /\
  trace (fst (exec (declare_exchange ch1 name "direct" true false false) opened))
  = trace opened ++ [ESend (MethodFrame 1 (ExchangeDeclare 0 name "direct" false true false false false []))].
Proof. vm_compute. repeat split; reflexivity. Qed.

(** C2, as stated, fails: [declare_exchange] called with the empty name
    raises nothing. *)
Lemma declare_exchange_empty_not_rejected :
  ~ exists e : Exn,
      snd (exec (declare_exchange ch1 "" "fanout" true false false) opened) = Some (Failed e).
Proof. intros [e He]. vm_compute in He. discriminate He. Qed.

(** C2, amended: the empty name matches the pattern of queue names and not
    that of exchange names, but [declare_exchange] never tests it against
    the pattern: it returns the default exchange (direct, durable, neither
    auto-deleted nor internal, whatever was asked for), raises nothing, and
    leaves the world as it was: no frame is sent. *)
Theorem declare_exchange_empty_name (self : Channel) (type : string)
    (durable auto_delete internal : bool) (w : World) :
  re_match VALID_QUEUE_NAME_RE "" = true /\
  re_match VALID_EXCHANGE_NAME_RE "" = false /\
  exec (declare_exchange self "" type durable auto_delete internal) w
  = (w, Some (Resolved (VExchange (default_exchange self)))).
Proof. repeat split; reflexivity. Qed.

(** * The loop *)

Lemma run_quiescent (n : nat) (w : World) : quiescent w -> run n w = w.
Proof. unfold quiescent. intros H. destruct n; [reflexivity|]. cbn. rewrite H. reflexivity. Qed.

Lemma run_add (n m : nat) (w : World) : run (n + m) w = run m (run n w).
Proof.
  revert w. induction n as [|n IH]; intros w; [reflexivity|].
  cbn [Nat.add run]. destruct (step w) as [w'|] eqn:E.
  - apply IH.
  - symmetry. apply run_quiescent. exact E.
Qed.

(** More turns than needed change nothing. *)
Lemma run_ge (n fuel : nat) (w : World) :
  quiescent (run n w) -> (n <= fuel)%nat -> run fuel w = run n w.
Proof.
  intros Hq Hle. replace fuel with (n + (fuel - n))%nat by lia.
  rewrite run_add. apply run_quiescent, Hq.
Qed.

Lemma run_to (n fuel : nat) (w w' : World) :
  run n w = w' -> quiescent w' -> (n <= fuel)%nat -> run fuel w = w'.
Proof. intros <- Hq Hle. apply run_ge; assumption. Qed.

Lemma play_app (fuel : nat) (i1 i2 : list Input) (w : World) :
  play fuel (i1 ++ i2) w = play fuel i2 (play fuel i1 w).
Proof. apply fold_left_app. Qed.

Lemma play_cons (fuel : nat) (i : Input) (inputs : list Input) (w : World) :
  play fuel (i :: inputs) w = play fuel inputs (run fuel (feed i w)).
Proof. reflexivity. Qed.

Lemma dispatch_to (f : Frame) (r : ref) (w : World) :
  handlers w !! frame_channel_id f = Some r ->
  dispatch f w = upd r (fun c => set_frames_q (frames_q c ++ [f]) c) w.
Proof. unfold dispatch. intros ->. reflexivity. Qed.


(** ** The store *)

Lemma comp_upd (r : ref) (f : Comp -> Comp) (w : World) (c : Comp) :
  heap w !! r = Some c -> comp (upd r f w) r = f c.
Proof.
  intros H. unfold upd. unfold comp at 1. cbn [heap set_heap].
  rewrite list_lookup_insert_eq by (apply lookup_lt_Some in H; exact H).
  unfold comp. rewrite H. reflexivity.
Qed.

Lemma builder_in_heap (w : World) (r : ref) (b : MessageBuilder) :
  message_builder (comp w r) = Some b ->
  exists c, heap w !! r = Some c /\ comp w r = c.
Proof.
  unfold comp. destruct (heap w !! r) as [c|]; cbn; [eauto | discriminate].
Qed.

(** ** The builder *)

Lemma done_building (b0 : MessageBuilder) (h : ContentHeader) (body : bytes) :
  done (building b0 h body) = (List.length body =? body_length h)%nat.
Proof. reflexivity. Qed.

Lemma set_header_new (b0 : MessageBuilder) (h : ContentHeader) :
  mb_header b0 = None -> set_header b0 h = inr (building b0 h (mb_body b0)).
Proof. unfold set_header. intros ->. reflexivity. Qed.

Lemma add_body_chunk_building (b0 : MessageBuilder) (h : ContentHeader) (body chunk : bytes) :
  (List.length body < body_length h)%nat ->
  (List.length body + List.length chunk <= body_length h)%nat ->
  add_body_chunk (building b0 h body) chunk = inr (building b0 h (body ++ chunk)).
Proof.
  intros Hlt Hle. unfold add_body_chunk. cbn [mb_header building].
  rewrite done_building.
  destruct (Nat.eqb_spec (List.length body) (body_length h)); [lia|].
  change (mb_body (building b0 h body)) with body.
  destruct (Nat.ltb_spec (body_length h) (List.length body + List.length chunk)); [lia|].
  reflexivity.
Qed.

Lemma build_building (b0 : MessageBuilder) (h : ContentHeader) (body : bytes) :
  List.length body = body_length h ->
  build (building b0 h body) = inr (message_of b0 h body).
Proof.
  intros H. unfold build. cbn [mb_header building]. rewrite done_building.
  rewrite (proj2 (Nat.eqb_eq _ _) H). reflexivity.
Qed.

Lemma done_build (b : MessageBuilder) :
  done b = true -> exists msg, build b = inr msg.
Proof.
  intros H. unfold build. rewrite H.
  unfold done in H. destruct (mb_header b) as [h|]; [eauto | discriminate].
Qed.

(** The builder's operations leave the consumer tag alone. *)
Lemma set_header_consumer_tag (b b' : MessageBuilder) (h : ContentHeader) :
  set_header b h = inr b' -> consumer_tag b' = consumer_tag b.
Proof.
  unfold set_header. destruct (mb_header b); [discriminate|].
  intros [= <-]. reflexivity.
Qed.

Lemma add_body_chunk_consumer_tag (b b' : MessageBuilder) (chunk : bytes) :
  add_body_chunk b chunk = inr b' -> consumer_tag b' = consumer_tag b.
Proof.
  unfold add_body_chunk. destruct (mb_header b); [|discriminate].
  destruct (done b); [discriminate|].
  destruct (_ <? _)%nat; [discriminate|].
  intros [= <-]. reflexivity.
Qed.

(** ** [MessageReceiver.receive_body], one call *)

Lemma exec_receive_body_more (self : Self) (cid : Z) (chunk : bytes) (w : World)
    (b b' : MessageBuilder) :
  message_builder (comp w (cell self)) = Some b ->
  add_body_chunk b chunk = inr b' ->
  done b' = false ->
  exec (receive_body self (ContentBodyFrame cid chunk)) w
  = (upd (cell self) (set_is_ready true)
       (log (EReady (cell self)) (upd (cell self) (set_message_builder (Some b')) w)),
     Some (Resolved VNone)).
Proof.
  intros Hb Hadd Hdone.
  destruct (builder_in_heap _ _ _ Hb) as (c & Hc & Hcomp).
  unfold receive_body, on_builder, read_builder.
  cbn [bind exec]. rewrite Hb, Hadd. cbn [bind exec].
  rewrite (comp_upd _ _ _ _ Hc). cbn [message_builder set_message_builder].
  rewrite Hdone. reflexivity.
Qed.

Lemma exec_receive_body_done (self : Self) (cid : Z) (chunk : bytes) (w : World)
    (b b' : MessageBuilder) (msg : Message) (waiter : Outcome -> Coro)
    (rest : list (list Key * (Outcome -> Coro))) :
  message_builder (comp w (cell self)) = Some b ->
  add_body_chunk b chunk = inr b' ->
  done b' = true ->
  build b' = inr msg ->
  take_future frames_ContentBodyFrame (futures (comp w (cell self))) = Some (waiter, rest) ->
  exec (receive_body self (ContentBodyFrame cid chunk)) w
  = (upd (cell self) (set_message_builder None)
       (schedule (TCoro (waiter (Resolved (VTuple (consumer_tag b') msg))))
          (upd (cell self) (set_futures rest)
             (log (ENotify (cell self) frames_ContentBodyFrame (VTuple (consumer_tag b') msg))
                (upd (cell self) (set_message_builder (Some b')) w)))),
     Some (Resolved VNone)).
Proof.
  intros Hb Hadd Hdone Hbuild Hwait.
  destruct (builder_in_heap _ _ _ Hb) as (c & Hc & Hcomp).
  unfold receive_body, on_builder, read_builder.
  cbn [bind exec]. rewrite Hb, Hadd. cbn [bind exec].
  rewrite (comp_upd _ _ _ _ Hc). cbn [message_builder set_message_builder].
  rewrite Hdone, Hbuild. unfold notify. cbn [bind exec].
  rewrite (comp_upd _ _ _ _ Hc). cbn [futures set_message_builder].
  rewrite Hcomp in Hwait. rewrite Hwait. reflexivity.
Qed.

(** * One channel under the loop *)

Lemma logs_app (t l : list Event) : logs t l = t ++ l.
Proof.
  revert t. induction l as [|e l IH]; intros t; cbn.
  - symmetry. apply app_nil_r.
  - unfold logs in IH. rewrite IH, <- app_assoc. reflexivity.
Qed.

Lemma calls_app (t1 t2 : list Event) : calls (t1 ++ t2) = calls t1 ++ calls t2.
Proof.
  induction t1 as [|e t1 IH]; [reflexivity|].
  destruct e; cbn; rewrite IH; reflexivity.
Qed.

Lemma calls_body_trace (cid : Z) (chunks : list bytes) (final : list Event) :
  chunks <> [] -> calls (body_trace cid chunks final) = calls final.
Proof.
  induction chunks as [|c cs IH]; [congruence|]. intros _.
  destruct cs as [|c' cs']; [reflexivity|].
  change (calls (body_trace cid (c' :: cs') final) = calls final).
  apply IH. discriminate.
Qed.

Lemma elem_of_body_trace (cid : Z) (chunks : list bytes) (final : list Event) (e : Event) :
  e ∈ body_trace cid chunks final ->
  e ∈ final \/ e = EReady 0%nat \/ exists c, e = EHandle 0%nat (ContentBodyFrame cid c).
Proof.
  induction chunks as [|c cs IH]; cbn [body_trace].
  - intros H. inversion H.
  - destruct cs as [|c' cs'].
    + intros [->|H]%elem_of_cons; eauto.
    + intros [->|[->|H]%elem_of_cons]%elem_of_cons; eauto.
Qed.

Lemma elem_of_body_trace_final (cid : Z) (chunks : list bytes) (final : list Event)
    (e : Event) :
  chunks <> [] -> e ∈ final -> e ∈ body_trace cid chunks final.
Proof.
  intros Hne He. induction chunks as [|c cs IH]; [congruence|].
  destruct cs as [|c' cs'].
  - cbn. apply elem_of_cons. right. exact He.
  - change (body_trace cid (c :: c' :: cs') final)
      with (EHandle 0%nat (ContentBodyFrame cid c) :: EReady 0%nat
              :: body_trace cid (c' :: cs') final).
    do 2 (apply elem_of_cons; right). apply IH. discriminate.
Qed.

Lemma fits_nonempty (L acc : nat) (chunks : list bytes) :
  fits L acc chunks = true -> chunks <> [].
Proof. destruct chunks; [discriminate | discriminate]. Qed.

Section OneChannel.

Variables (n : Z) (hs : gmap Z ref) (cid : Z) (cb : option Callback).
Hypothesis Hhs : hs !! cid = Some 0%nat.

Lemma arrive (f : Frame) (c : Comp) (q : list Task) (t : list Event) (rs : list Value) :
  frame_channel_id f = cid ->
  feed (Arrive f) (world1 n hs c q t rs)
  = world1 n hs (set_frames_q (frames_q c ++ [f]) c) q t rs.
Proof.
  intros Hf. unfold feed. rewrite dispatch_to with (r := 0%nat); [reflexivity|].
  rewrite Hf. exact Hhs.
Qed.

(** The trigger frame of a returned message reaches an idle channel. *)
Lemma arrive_return (t : list Event) (rs : list Value) (ex rk : string) :
  run 2 (feed (Arrive (MethodFrame cid (BasicReturn ex rk))) (world1 n hs (idle cid cb) [] t rs))
  = world1 n hs
      (busy cid cb (Some (return_builder cid ex rk))
         [([frames_ContentHeaderFrame], on_header (self0 cid) (receive_return_on_body (self0 cid)))]
         true)
      [] (logs t [EHandle 0%nat (MethodFrame cid (BasicReturn ex rk)); EReady 0%nat]) rs.
Proof. rewrite arrive by reflexivity. reflexivity. Qed.

(** The header frame reaches a receiver that waits for it. *)
Lemma arrive_header (t : list Event) (rs : list Value) (h : ContentHeader)
    (s : ChannelMethodSender) (dt rd : PyVal) (ex rk : string) (tag : option string)
    (kb : Outcome -> Coro) :
  let b0 := new_MessageBuilder s dt rd ex rk tag in
  run 3 (feed (Arrive (ContentHeaderFrame cid h))
           (world1 n hs (busy cid cb (Some b0)
                           [([frames_ContentHeaderFrame], on_header (self0 cid) kb)] true)
              [] t rs))
  = world1 n hs
      (busy cid cb (Some (building b0 h [])) [([frames_ContentBodyFrame], kb)] true)
      [] (logs t [EHandle 0%nat (ContentHeaderFrame cid h);
                  ENotify 0%nat frames_ContentHeaderFrame VNone; EReady 0%nat])
      (rs ++ [VNone]).
Proof. intros b0. rewrite arrive by reflexivity. reflexivity. Qed.

(** A body frame that leaves the body incomplete. *)
Lemma arrive_chunk (t : list Event) (rs : list Value) (h : ContentHeader)
    (b0 : MessageBuilder) (body chunk : bytes) (kb : Outcome -> Coro) :
  (List.length body + List.length chunk < body_length h)%nat ->
  run 2 (feed (Arrive (ContentBodyFrame cid chunk))
           (world1 n hs (busy cid cb (Some (building b0 h body))
                           [([frames_ContentBodyFrame], kb)] true)
              [] t rs))
  = world1 n hs
      (busy cid cb (Some (building b0 h (body ++ chunk))) [([frames_ContentBodyFrame], kb)] true)
      [] (logs t [EHandle 0%nat (ContentBodyFrame cid chunk); EReady 0%nat])
      (rs ++ [VNone]).
Proof.
  intros Hlt. rewrite arrive by reflexivity.
  transitivity (finish (exec (receive_body (self0 cid) (ContentBodyFrame cid chunk))
     (world1 n hs (busy cid cb (Some (building b0 h body))
                           [([frames_ContentBodyFrame], kb)] false)
              [] (t ++ [EHandle 0%nat (ContentBodyFrame cid chunk)]) rs)));
    [reflexivity|].
  rewrite exec_receive_body_more
    with (b := building b0 h body) (b' := building b0 h (body ++ chunk)).
  - reflexivity.
  - reflexivity.
  - apply add_body_chunk_building; lia.
  - rewrite done_building. apply Nat.eqb_neq. rewrite length_app. lia.
Qed.

(** The body frame that completes the body. *)
Lemma arrive_last_chunk (t : list Event) (rs : list Value) (h : ContentHeader)
    (b0 : MessageBuilder) (body chunk : bytes) (kb : Outcome -> Coro) :
  (List.length body < body_length h)%nat ->
  (List.length body + List.length chunk = body_length h)%nat ->
  let v := VTuple (consumer_tag b0) (message_of b0 h (body ++ chunk)) in
  run 2 (feed (Arrive (ContentBodyFrame cid chunk))
           (world1 n hs (busy cid cb (Some (building b0 h body))
                           [([frames_ContentBodyFrame], kb)] true)
              [] t rs))
  = world1 n hs (busy cid cb None [] false) [TCoro (kb (Resolved v))]
      (logs t [EHandle 0%nat (ContentBodyFrame cid chunk);
               ENotify 0%nat frames_ContentBodyFrame v])
      (rs ++ [VNone]).
Proof.
  intros Hlt Heq v. rewrite arrive by reflexivity.
  transitivity (finish (exec (receive_body (self0 cid) (ContentBodyFrame cid chunk))
     (world1 n hs (busy cid cb (Some (building b0 h body))
                           [([frames_ContentBodyFrame], kb)] false)
              [] (t ++ [EHandle 0%nat (ContentBodyFrame cid chunk)]) rs)));
    [reflexivity|].
  rewrite exec_receive_body_done
    with (b := building b0 h body) (b' := building b0 h (body ++ chunk))
         (msg := message_of b0 h (body ++ chunk)) (waiter := kb) (rest := []).
  - reflexivity.
  - reflexivity.
  - apply add_body_chunk_building; lia.
  - rewrite done_building. apply Nat.eqb_eq. rewrite length_app. lia.
  - apply build_building. rewrite length_app. lia.
  - reflexivity.
Qed.

(** The body frames of a reconstruction, up to the turn in which the
    receiver that waits for the body is woken. *)
Lemma arrive_body (fuel : nat) (h : ContentHeader) (b0 : MessageBuilder)
    (kb : Outcome -> Coro) (chunks : list bytes) :
  forall (body : bytes) (t : list Event) (rs : list Value),
  fits (body_length h) (List.length body) chunks = true ->
  (2 <= fuel)%nat ->
  let v := VTuple (consumer_tag b0) (message_of b0 h (body ++ concat chunks)) in
  exists rs',
    play fuel (map Arrive (map (ContentBodyFrame cid) chunks))
      (world1 n hs (busy cid cb (Some (building b0 h body))
                      [([frames_ContentBodyFrame], kb)] true) [] t rs)
    = run (fuel - 2)
        (world1 n hs (busy cid cb None [] false) [TCoro (kb (Resolved v))]
           (t ++ body_trace cid chunks [ENotify 0%nat frames_ContentBodyFrame v]) rs').
Proof.
  induction chunks as [|c cs IH]; intros body t rs Hfits Hfuel v; [discriminate|].
  destruct cs as [|c' cs'].
  - cbn [fits] in Hfits. apply andb_true_iff in Hfits as [H1%Nat.ltb_lt H2%Nat.eqb_eq].
    exists (rs ++ [VNone]). cbn [map play fold_left].
    replace fuel with (2 + (fuel - 2))%nat at 1 by lia.
    rewrite run_add, arrive_last_chunk, logs_app by assumption.
    subst v. cbn [concat body_trace]. rewrite app_nil_r. reflexivity.
  - cbn [fits] in Hfits. apply andb_true_iff in Hfits as [H1%Nat.ltb_lt H2].
    rewrite <- length_app in H2.
    destruct (IH (body ++ c)
                (logs t [EHandle 0%nat (ContentBodyFrame cid c); EReady 0%nat])
                (rs ++ [VNone]) H2 Hfuel) as [rs' Hrs'].
    exists rs'. cbn [map]. rewrite play_cons.
    rewrite (run_to 2 fuel _ _ (arrive_chunk t rs h b0 body c kb H1) eq_refl Hfuel).
    cbn [map] in Hrs'. rewrite Hrs'. subst v.
    rewrite logs_app, <- !app_assoc. reflexivity.
Qed.

(** [receive_return] after the last body frame, when a callback is set. *)
Lemma return_tail_callback (f : Callback) (t : list Event) (rs : list Value) (msg : Message) :
  cb = Some f ->
  run 1 (world1 n hs (busy cid cb None [] false)
           [TCoro (receive_return_on_body (self0 cid) (Resolved (VTuple None msg)))] t rs)
  = world1 n hs (busy cid cb None [] true) [TCallback f msg]
      (logs t [EReady 0%nat; ECallSoon f msg]) (rs ++ [VNone]).
Proof. intros ->. reflexivity. Qed.

(** [receive_return] after the last body frame, when no callback is set. *)
Lemma return_tail_no_callback (t : list Event) (rs : list Value) (msg : Message) :
  cb = None ->
  run 1 (world1 n hs (busy cid cb None [] false)
           [TCoro (receive_return_on_body (self0 cid) (Resolved (VTuple None msg)))] t rs)
  = world1 n hs (busy cid cb None [] true) []
      (logs t [EReady 0%nat; ERaised (UndeliverableMessage msg)]) rs.
Proof. intros ->. reflexivity. Qed.

Lemma callback_turn (c : Comp) (f : Callback) (t : list Event) (rs : list Value)
    (msg : Message) :
  run 1 (world1 n hs c [TCallback f msg] t rs) = world1 n hs c [] (logs t [ECall f msg]) rs.
Proof. reflexivity. Qed.

(** The frames of a returned message, up to the turn in which
    [receive_return] is woken for the last time. *)
Lemma return_sequence (fuel : nat) (t : list Event) (rs : list Value) (ex rk : string)
    (h : ContentHeader) (chunks : list bytes) :
  fits (body_length h) 0 chunks = true ->
  (3 <= fuel)%nat ->
  let msg := returned_message cid ex rk h chunks in
  exists rs',
    play fuel (map Arrive (return_frames cid ex rk h chunks)) (world1 n hs (idle cid cb) [] t rs)
    = run (fuel - 2)
        (world1 n hs (busy cid cb None [] false)
           [TCoro (receive_return_on_body (self0 cid) (Resolved (VTuple None msg)))]
           (t ++ [EHandle 0%nat (MethodFrame cid (BasicReturn ex rk)); EReady 0%nat;
                  EHandle 0%nat (ContentHeaderFrame cid h);
                  ENotify 0%nat frames_ContentHeaderFrame VNone; EReady 0%nat]
              ++ body_trace cid chunks [ENotify 0%nat frames_ContentBodyFrame (VTuple None msg)])
           rs').
Proof.
  intros Hfits Hfuel msg. unfold return_frames. cbn [map]. rewrite !play_cons.
  rewrite (run_to 2 fuel _ _ (arrive_return t rs ex rk) eq_refl) by lia.
  unfold return_builder.
  rewrite (run_to 3 fuel _ _ (arrive_header _ rs h _ _ _ ex rk None _) eq_refl) by lia.
  destruct (arrive_body fuel h
              (new_MessageBuilder {| sender_channel_id := cid |} (PStr "") (PStr "") ex rk None)
              (receive_return_on_body (self0 cid)) chunks []
              (logs (logs t [EHandle 0%nat (MethodFrame cid (BasicReturn ex rk)); EReady 0%nat])
                 [EHandle 0%nat (ContentHeaderFrame cid h);
                  ENotify 0%nat frames_ContentHeaderFrame VNone; EReady 0%nat])
              (rs ++ [VNone]) Hfits ltac:(lia)) as [rs' Hrs'].
  exists rs'. rewrite Hrs'. rewrite !logs_app, <- !app_assoc. reflexivity.
Qed.

Lemma body_trace_app (chunks : list bytes) (f1 f2 : list Event) :
  chunks <> [] -> body_trace cid chunks (f1 ++ f2) = body_trace cid chunks f1 ++ f2.
Proof.
  induction chunks as [|c cs IH]; [congruence|]. intros _.
  destruct cs as [|c' cs']; [reflexivity|].
  change (EHandle 0%nat (ContentBodyFrame cid c) :: EReady 0%nat
            :: body_trace cid (c' :: cs') (f1 ++ f2)
          = EHandle 0%nat (ContentBodyFrame cid c) :: EReady 0%nat
            :: body_trace cid (c' :: cs') f1 ++ f2).
  rewrite IH by discriminate. reflexivity.
Qed.

Lemma body_trace_snoc (chunks : list bytes) (a b : Event) :
  chunks <> [] -> body_trace cid chunks [a; b] = body_trace cid chunks [a] ++ [b].
Proof. apply (body_trace_app chunks [a] [b]). Qed.

(** The whole of a returned message, the loop having come to rest. *)
Lemma return_sequence_rest (fuel : nat) (t : list Event) (rs : list Value) (ex rk : string)
    (h : ContentHeader) (chunks : list bytes) :
  fits (body_length h) 0 chunks = true ->
  (4 <= fuel)%nat ->
  let msg := returned_message cid ex rk h chunks in
  let w' := play fuel (map Arrive (return_frames cid ex rk h chunks))
              (world1 n hs (idle cid cb) [] t rs) in
  trace w' = t ++ return_trace cid ex rk h chunks msg ++ catcher_trace cb msg
  /\ runq w' = [].
Proof.
  intros Hfits Hfuel msg w'.
  destruct (return_sequence fuel t rs ex rk h chunks Hfits ltac:(lia)) as [rs' Hrs'].
  subst w'. rewrite Hrs'. fold msg. unfold return_trace.
  rewrite body_trace_snoc by (eapply fits_nonempty, Hfits).
  destruct cb as [f|] eqn:Hcb.
  - rewrite (run_to 2 (fuel - 2) _
               (world1 n hs (busy cid (Some f) None [] true) []
                  (logs (logs (t ++ [EHandle 0%nat (MethodFrame cid (BasicReturn ex rk)); EReady 0%nat;
                  EHandle 0%nat (ContentHeaderFrame cid h);
                  ENotify 0%nat frames_ContentHeaderFrame VNone; EReady 0%nat]
              ++ body_trace cid chunks [ENotify 0%nat frames_ContentBodyFrame (VTuple None msg)])
                     [EReady 0%nat; ECallSoon f msg]) [ECall f msg]) (rs' ++ [VNone])))
      by (reflexivity || lia).
    cbn [trace runq world1]. split; [|reflexivity].
    rewrite !logs_app, <- !app_assoc. reflexivity.
  - rewrite (run_to 1 (fuel - 2) _
               (world1 n hs (busy cid None None [] true) []
                  (logs (t ++ [EHandle 0%nat (MethodFrame cid (BasicReturn ex rk)); EReady 0%nat;
                  EHandle 0%nat (ContentHeaderFrame cid h);
                  ENotify 0%nat frames_ContentHeaderFrame VNone; EReady 0%nat]
              ++ body_trace cid chunks [ENotify 0%nat frames_ContentBodyFrame (VTuple None msg)])
                     [EReady 0%nat; ERaised (UndeliverableMessage msg)]) rs'))
      by (reflexivity || lia).
    cbn [trace runq world1]. split; [|reflexivity].
    rewrite !logs_app, <- !app_assoc. reflexivity.
Qed.

(** A returned message and a callback, one turn before the loop comes to
    rest: the callback is scheduled and has not run. *)
Lemma return_sequence_scheduled (f : Callback) (t : list Event) (rs : list Value)
    (ex rk : string) (h : ContentHeader) (chunks : list bytes) :
  cb = Some f ->
  fits (body_length h) 0 chunks = true ->
  let msg := returned_message cid ex rk h chunks in
  let w' := play 3 (map Arrive (return_frames cid ex rk h chunks))
              (world1 n hs (idle cid cb) [] t rs) in
  trace w' = t ++ return_trace cid ex rk h chunks msg ++ [ECallSoon f msg]
  /\ runq w' = [TCallback f msg].
Proof.
  intros Hcb Hfits msg w'.
  destruct (return_sequence 3 t rs ex rk h chunks Hfits ltac:(lia)) as [rs' Hrs'].
  subst w'. rewrite Hrs'. fold msg. unfold return_trace.
  rewrite body_trace_snoc by (eapply fits_nonempty, Hfits).
  change (3 - 2)%nat with 1%nat. rewrite (return_tail_callback f) by exact Hcb.
  cbn [trace runq world1]. split; [|reflexivity].
  rewrite !logs_app, <- !app_assoc. reflexivity.
Qed.

End OneChannel.

Lemma idle_channel_world (w : World) (cid : Z) (cb : option Callback) :
  idle_channel w cid cb ->
  handlers w !! cid = Some 0%nat /\
  w = world1 (next_channel_id w) (handlers w) (idle cid cb) [] (trace w) (results w).
Proof.
  destruct w as [n hs hp q t rs]. unfold idle_channel. cbn.
  intros (H & -> & ->). split; [exact H | reflexivity].
Qed.

Lemma opened_idle : idle_channel opened 1 None.
Proof. vm_compute. repeat split; reflexivity. Qed.

(** * The returned message *)

(** The frames of a returned message with a body reach an idle channel.
    Once the last body frame has completed the message, the wait for the
    body is resolved with it and readiness is signalled ([return_trace]
    ends with these two events) before the catcher acts.  With a callback
    set, the catcher schedules it: after the turn of [receive_return] the
    callback sits in the loop's queue and has not run; the loop then runs
    it once, with the returned message.  With no callback set, the
    exception [UndeliverableMessage], which carries the message, reaches
    the loop. *)
Lemma returned_message_catcher (w : World) (cid : Z) (cb : option Callback)
    (ex rk : string) (h : ContentHeader) (chunks : list bytes) :
  idle_channel w cid cb ->
  fits (body_length h) 0 chunks = true ->
  let inputs := map Arrive (return_frames cid ex rk h chunks) in
  let msg := returned_message cid ex rk h chunks in
  let seen := return_trace cid ex rk h chunks msg in
  match cb with
  | Some f =>
      (trace (play 3 inputs w) = trace w ++ seen ++ [ECallSoon f msg]
       /\ runq (play 3 inputs w) = [TCallback f msg]
       /\ calls (trace (play 3 inputs w)) = calls (trace w))
      /\ forall fuel, (4 <= fuel)%nat ->
           trace (play fuel inputs w) = trace w ++ seen ++ [ECallSoon f msg; ECall f msg]
           /\ runq (play fuel inputs w) = []
           /\ calls (trace (play fuel inputs w)) = calls (trace w) ++ [(f, msg)]
  | None =>
      forall fuel, (4 <= fuel)%nat ->
        trace (play fuel inputs w)
        = trace w ++ seen ++ [ERaised (UndeliverableMessage msg)]
        /\ runq (play fuel inputs w) = []
  end.
Proof.
  intros [Hhs Hw]%idle_channel_world Hfits inputs msg seen.
  assert (Hseen : calls seen = []).
  { subst seen. unfold return_trace. rewrite calls_app, calls_body_trace
      by (eapply fits_nonempty, Hfits). reflexivity. }
  destruct cb as [f|].
  - split.
    + destruct (return_sequence_scheduled (next_channel_id w) (handlers w) cid (Some f) Hhs
                  f (trace w) (results w) ex rk h chunks eq_refl Hfits) as [Ht Hq].
      rewrite <- Hw in Ht, Hq. fold inputs msg seen in Ht, Hq.
      repeat split; [exact Ht | exact Hq |].
      rewrite Ht, !calls_app, Hseen. cbn. apply app_nil_r.
    + intros fuel Hfuel.
      destruct (return_sequence_rest (next_channel_id w) (handlers w) cid (Some f) Hhs
                  fuel (trace w) (results w) ex rk h chunks Hfits Hfuel) as [Ht Hq].
      rewrite <- Hw in Ht, Hq. fold inputs msg seen in Ht, Hq.
      repeat split; [exact Ht | exact Hq |].
      rewrite Ht, !calls_app, Hseen. reflexivity.
  - intros fuel Hfuel.
    destruct (return_sequence_rest (next_channel_id w) (handlers w) cid None Hhs
                fuel (trace w) (results w) ex rk h chunks Hfits Hfuel) as [Ht Hq].
    rewrite <- Hw in Ht, Hq. split; [exact Ht | exact Hq].
Qed.

Lemma returned_message_catcher_witness :
  idle_channel opened 1 None /\
  fits (body_length hdr3) 0 xy_z = true /\
  forall fuel, (4 <= fuel)%nat ->
    trace (play fuel (map Arrive (return_frames 1 "ex" "rk" hdr3 xy_z)) opened)
    = trace opened
      ++ return_trace 1 "ex" "rk" hdr3 xy_z (returned_message 1 "ex" "rk" hdr3 xy_z)
      ++ [ERaised (UndeliverableMessage (returned_message 1 "ex" "rk" hdr3 xy_z))]
    /\ runq (play fuel (map Arrive (return_frames 1 "ex" "rk" hdr3 xy_z)) opened) = [].
Proof.
  split; [exact opened_idle|]. split; [reflexivity|].
  exact (returned_message_catcher opened 1 None "ex" "rk" hdr3 xy_z opened_idle eq_refl).
Defined.

(** In the sequence of a returned message with a body, alone on an idle
    channel, the builder is made without a consumer tag, every resolution
    of the wait for the body that the sequence brings about carries the tag
    [None], the message is among them, and no assertion fails. *)
Lemma returned_message_tag_none (w : World) (cid : Z) (cb : option Callback)
    (ex rk : string) (h : ContentHeader) (chunks : list bytes) (fuel : nat) :
  idle_channel w cid cb ->
  fits (body_length h) 0 chunks = true ->
  (4 <= fuel)%nat ->
  let msg := returned_message cid ex rk h chunks in
  (exists b,
     message_builder (comp (play fuel [Arrive (MethodFrame cid (BasicReturn ex rk))] w) 0%nat)
     = Some b /\ consumer_tag b = None) /\
  exists new,
    trace (play fuel (map Arrive (return_frames cid ex rk h chunks)) w) = trace w ++ new
    /\ ENotify 0%nat frames_ContentBodyFrame (VTuple None msg) ∈ new
    /\ (forall tag m, ENotify 0%nat frames_ContentBodyFrame (VTuple tag m) ∈ new -> tag = None)
    /\ ERaised AssertionError ∉ new.
Proof.
  intros [Hhs Hw]%idle_channel_world Hfits Hfuel msg. split.
  - exists (return_builder cid ex rk). split; [|reflexivity].
    rewrite Hw. cbn [play fold_left].
    rewrite (run_to 2 fuel _ _ (arrive_return _ _ cid cb Hhs _ _ ex rk) eq_refl) by lia.
    reflexivity.
  - destruct (return_sequence_rest (next_channel_id w) (handlers w) cid cb Hhs
                fuel (trace w) (results w) ex rk h chunks Hfits Hfuel) as [Ht _].
    rewrite <- Hw in Ht. fold msg in Ht.
    exists (return_trace cid ex rk h chunks msg ++ catcher_trace cb msg).
    split; [exact Ht|].
    assert (Hin : forall e, e ∈ return_trace cid ex rk h chunks msg ++ catcher_trace cb msg ->
              e = ENotify 0%nat frames_ContentBodyFrame (VTuple None msg)
              \/ (forall tag m, e <> ENotify 0%nat frames_ContentBodyFrame (VTuple tag m))
                 /\ e <> ERaised AssertionError).
    { intros e. unfold return_trace. rewrite !elem_of_app.
      intros [[He|He]|He].
      - right. repeat (apply elem_of_cons in He as [->|He]); [split; intros; discriminate ..|].
        inversion He.
      - apply elem_of_body_trace in He as [He|[->|[c ->]]];
          [|right; split; intros; discriminate ..].
        repeat (apply elem_of_cons in He as [->|He]);
          [left; reflexivity | right; split; intros; discriminate | inversion He].
      - right. destruct cb; cbn in He;
          repeat (apply elem_of_cons in He as [->|He]);
          try (split; intros; discriminate); inversion He. }
    split; [|split].
    + unfold return_trace. rewrite !elem_of_app. left. right.
      apply elem_of_body_trace_final; [eapply fits_nonempty, Hfits|].
      apply elem_of_cons. left. reflexivity.
    + intros tag m [He|[He _]]%Hin; [congruence | destruct (He tag m eq_refl)].
    + intros [He|[_ He]]%Hin; [discriminate | congruence].
Qed.

Lemma returned_message_tag_none_witness :
  idle_channel opened 1 None /\
  fits (body_length hdr3) 0 xy_z = true /\
  exists new,
    trace (play 4 (map Arrive (return_frames 1 "ex" "rk" hdr3 xy_z)) opened)
    = trace opened ++ new
    /\ ENotify 0%nat frames_ContentBodyFrame
         (VTuple None (returned_message 1 "ex" "rk" hdr3 xy_z)) ∈ new
    /\ (forall tag m, ENotify 0%nat frames_ContentBodyFrame (VTuple tag m) ∈ new -> tag = None)
    /\ ERaised AssertionError ∉ new.
Proof.
  split; [exact opened_idle|]. split; [reflexivity|].
  exact (proj2 (returned_message_tag_none opened 1 None "ex" "rk" hdr3 xy_z 4
                  opened_idle eq_refl ltac:(lia))).
Defined.

(** C3, at the input where the code departs from it: a returned message
    whose header declares an empty body.  The message is complete when the
    header has been handled: the builder in the slot is done and builds
    the returned message.  But [receive_header] does not look whether the
    builder is done, and [receive_return] waits for a body frame, of which
    an empty body has none: the loop comes to rest with that wait pending,
    and the catcher has not been invoked: no callback is scheduled or run,
    and no [UndeliverableMessage] is raised. *)
Theorem returned_message_empty_body (w : World) (cid : Z) (cb : option Callback)
    (ex rk : string) (h : ContentHeader) (fuel : nat) :
  idle_channel w cid cb ->
  body_length h = 0%nat ->
  (3 <= fuel)%nat ->
  let ret := MethodFrame cid (BasicReturn ex rk) in
  let hdr := ContentHeaderFrame cid h in
  let w' := play fuel (map Arrive (return_frames cid ex rk h [])) w in
  (exists b, message_builder (comp w' 0%nat) = Some b /\ done b = true
             /\ build b = inr (returned_message cid ex rk h []))
  /\ trace w' = trace w ++ [EHandle 0%nat ret; EReady 0%nat; EHandle 0%nat hdr;
                            ENotify 0%nat frames_ContentHeaderFrame VNone; EReady 0%nat]
  /\ calls (trace w') = calls (trace w)
  /\ futures (comp w' 0%nat)
     = [([frames_ContentBodyFrame], receive_return_on_body (self0 cid))]
  /\ runq w' = []
  /\ quiescent w'.
Proof.
  intros [Hhs Hw]%idle_channel_world Hlen Hfuel ret hdr w'.
  assert (Hw' : w' = world1 (next_channel_id w) (handlers w)
                      (busy cid cb (Some (building (return_builder cid ex rk) h []))
                         [([frames_ContentBodyFrame], receive_return_on_body (self0 cid))] true)
                      []
                      (logs (logs (trace w) [EHandle 0%nat ret; EReady 0%nat])
                         [EHandle 0%nat hdr; ENotify 0%nat frames_ContentHeaderFrame VNone;
                          EReady 0%nat])
                      (results w ++ [VNone])).
  { subst w'. rewrite Hw at 1. unfold return_frames. cbn [map]. rewrite !play_cons.
    cbn [play fold_left].
    rewrite (run_to 2 fuel _ _ (arrive_return _ _ cid cb Hhs _ _ ex rk) eq_refl) by lia.
    unfold return_builder.
    apply (run_to 3 fuel _ _
             (arrive_header _ _ cid cb Hhs _ (results w) h _ _ _ ex rk None _));
      [reflexivity | lia]. }
  rewrite Hw'. cbn [trace world1]. rewrite !logs_app, <- app_assoc.
  split; [|split; [reflexivity|split; [|repeat split]]].
  - eexists. split; [reflexivity|]. split.
    + rewrite done_building, Hlen. reflexivity.
    + apply build_building. symmetry. exact Hlen.
  - rewrite !calls_app. cbn. apply app_nil_r.
Qed.

Lemma returned_message_empty_body_witness :
  idle_channel opened 1 None /\
  let h := {| body_length := 0; properties := [] |} in
  let ret := MethodFrame 1 (BasicReturn "ex" "rk") in
  let hdr := ContentHeaderFrame 1 h in
  let w' := play 3 (map Arrive (return_frames 1 "ex" "rk" h [])) opened in
  (exists b, message_builder (comp w' 0%nat) = Some b /\ done b = true
             /\ build b = inr (returned_message 1 "ex" "rk" h []))
  /\ trace w' = trace opened ++ [EHandle 0%nat ret; EReady 0%nat; EHandle 0%nat hdr;
                                 ENotify 0%nat frames_ContentHeaderFrame VNone; EReady 0%nat]
  /\ calls (trace w') = calls (trace opened)
  /\ futures (comp w' 0%nat)
     = [([frames_ContentBodyFrame], receive_return_on_body (self0 1))]
  /\ runq w' = []
  /\ quiescent w'.
Proof.
  split; [exact opened_idle|].
  exact (returned_message_empty_body opened 1 None "ex" "rk"
           {| body_length := 0; properties := [] |} 3 opened_idle eq_refl ltac:(lia)).
Defined.

(** C9, at the input where the code departs from it: a returned message
    with an empty body, complete with its header, and after it a pushed
    delivery with a body.  [receive_return] still waits for a body frame
    when the delivery begins, and its wait is the oldest: the body frame of
    the delivery resolves it with the delivered message and the tag of its
    consumer.  The assertion of [receive_return] on the tag fails, the
    channel is left not ready, the message is handed to no consumer and
    the receiver of the delivery waits on. *)
Theorem delivery_after_empty_return (w : World) (cid : Z) (cb : option Callback)
    (ex rk : string) (h0 : ContentHeader)
    (tag : string) (delivery_tag : Z) (redelivered : bool) (ex' rk' : string)
    (h : ContentHeader) (chunk : bytes) (fuel : nat) :
  idle_channel w cid cb ->
  body_length h0 = 0%nat ->
  (0 < body_length h)%nat ->
  List.length chunk = body_length h ->
  (3 <= fuel)%nat ->
  let ret := MethodFrame cid (BasicReturn ex rk) in
  let hdr0 := ContentHeaderFrame cid h0 in
  let dlv := MethodFrame cid (BasicDeliver tag delivery_tag redelivered ex' rk') in
  let hdr := ContentHeaderFrame cid h in
  let body := ContentBodyFrame cid chunk in
  let msg := message_of (deliver_builder cid tag delivery_tag redelivered ex' rk') h chunk in
  let w' := play fuel (map Arrive (return_frames cid ex rk h0 []
                                   ++ deliver_frames cid tag delivery_tag redelivered ex' rk'
                                        h [chunk])) w in
  done (building (return_builder cid ex rk) h0 []) = true
  /\ trace w' = trace w ++ [EHandle 0%nat ret; EReady 0%nat;
                            EHandle 0%nat hdr0; ENotify 0%nat frames_ContentHeaderFrame VNone;
                            EReady 0%nat;
                            EHandle 0%nat dlv; EReady 0%nat;
                            EHandle 0%nat hdr; ENotify 0%nat frames_ContentHeaderFrame VNone;
                            EReady 0%nat;
                            EHandle 0%nat body;
                            ENotify 0%nat frames_ContentBodyFrame (VTuple (Some tag) msg);
                            ERaised AssertionError]
  /\ is_ready (comp w' 0%nat) = false
  /\ message_builder (comp w' 0%nat) = None
  /\ futures (comp w' 0%nat)
     = [([frames_ContentBodyFrame], receive_deliver_on_body (self0 cid))]
  /\ quiescent w'.
Proof.
  intros [Hhs Hw]%idle_channel_world Hlen0 Hpos Hlen Hfuel ret hdr0 dlv hdr body msg w'.
  split; [rewrite done_building, Hlen0; reflexivity|].
  set (b0 := new_MessageBuilder {| sender_channel_id := cid |} (PInt delivery_tag)
               (PBool redelivered) ex' rk' (Some tag)).
  set (returning := ([frames_ContentBodyFrame], receive_return_on_body (self0 cid))).
  set (delivering := ([frames_ContentBodyFrame], receive_deliver_on_body (self0 cid))).
  set (t2 := logs (logs (trace w) [EHandle 0%nat ret; EReady 0%nat])
               [EHandle 0%nat hdr0; ENotify 0%nat frames_ContentHeaderFrame VNone;
                EReady 0%nat]).
  set (t4 := logs (logs t2 [EHandle 0%nat dlv; EReady 0%nat])
               [EHandle 0%nat hdr; ENotify 0%nat frames_ContentHeaderFrame VNone;
                EReady 0%nat]).
  assert (Hw' : w' = world1 (next_channel_id w) (handlers w)
                      (busy cid cb None [delivering] false) []
                      (logs t4 [EHandle 0%nat body;
                                ENotify 0%nat frames_ContentBodyFrame (VTuple (Some tag) msg);
                                ERaised AssertionError])
                      (((results w ++ [VNone]) ++ [VNone]) ++ [VNone])).
  { subst w'. rewrite Hw at 1. unfold return_frames, deliver_frames.
    cbn [map app]. rewrite !play_cons. cbn [play fold_left].
    rewrite (run_to 2 fuel _ _ (arrive_return _ _ cid cb Hhs _ _ ex rk) eq_refl) by lia.
    unfold return_builder.
    rewrite (run_to 3 fuel _ _
               (arrive_header _ _ cid cb Hhs _ (results w) h0 _ _ _ ex rk None _) eq_refl)
      by lia.
    fold (return_builder cid ex rk). fold ret hdr0. fold t2.
    rewrite (run_to 2 fuel
               (feed (Arrive dlv) _)
               (world1 (next_channel_id w) (handlers w)
                  (busy cid cb (Some b0)
                     [returning;
                      ([frames_ContentHeaderFrame],
                       on_header (self0 cid) (receive_deliver_on_body (self0 cid)))] true) []
                  (logs t2 [EHandle 0%nat dlv; EReady 0%nat]) (results w ++ [VNone])));
      [|rewrite (arrive _ _ _ Hhs) by reflexivity; reflexivity | reflexivity | lia].
    rewrite (run_to 3 fuel
               (feed (Arrive hdr) _)
               (world1 (next_channel_id w) (handlers w)
                  (busy cid cb (Some (building b0 h [])) [returning; delivering] true) []
                  t4 ((results w ++ [VNone]) ++ [VNone])));
      [|rewrite (arrive _ _ _ Hhs) by reflexivity; reflexivity | reflexivity | lia].
    rewrite (arrive _ _ _ Hhs) by reflexivity.
    apply (run_to 3); [|reflexivity | lia].
    transitivity
      (run 1 (finish (exec (receive_body (self0 cid) body)
                        (world1 (next_channel_id w) (handlers w)
                           (busy cid cb (Some (building b0 h [])) [returning; delivering]
                              false) []
                           (t4 ++ [EHandle 0%nat body]) ((results w ++ [VNone]) ++ [VNone])))));
      [reflexivity|].
    unfold body.
    rewrite exec_receive_body_done
      with (b := building b0 h []) (b' := building b0 h chunk) (msg := msg)
           (waiter := receive_return_on_body (self0 cid)) (rest := [delivering]).
    - reflexivity.
    - reflexivity.
    - apply (add_body_chunk_building b0 h [] chunk); cbn [List.length]; lia.
    - rewrite done_building. apply Nat.eqb_eq. exact Hlen.
    - apply build_building. exact Hlen.
    - reflexivity. }
  rewrite Hw'. cbn [trace world1]. subst t4 t2. rewrite !logs_app, <- !app_assoc.
  repeat split.
Qed.

Lemma delivery_after_empty_return_witness :
  idle_channel opened 1 None /\
  let h0 := {| body_length := 0; properties := [] |} in
  let chunk := [Byte.x78; Byte.x79; Byte.x7a] in
  let ret := MethodFrame 1 (BasicReturn "ex" "rk") in
  let hdr0 := ContentHeaderFrame 1 h0 in
  let dlv := MethodFrame 1 (BasicDeliver "ctag" 5 false "ex2" "rk2") in
  let hdr := ContentHeaderFrame 1 hdr3 in
  let body := ContentBodyFrame 1 chunk in
  let msg := message_of (deliver_builder 1 "ctag" 5 false "ex2" "rk2") hdr3 chunk in
  let w' := play 3 (map Arrive [ret; hdr0; dlv; hdr; body]) opened in
  trace w' = trace opened ++ [EHandle 0%nat ret; EReady 0%nat;
                              EHandle 0%nat hdr0;
                              ENotify 0%nat frames_ContentHeaderFrame VNone; EReady 0%nat;
                              EHandle 0%nat dlv; EReady 0%nat;
                              EHandle 0%nat hdr;
                              ENotify 0%nat frames_ContentHeaderFrame VNone; EReady 0%nat;
                              EHandle 0%nat body;
                              ENotify 0%nat frames_ContentBodyFrame (VTuple (Some "ctag") msg);
                              ERaised AssertionError]
  /\ is_ready (comp w' 0%nat) = false
  /\ message_builder (comp w' 0%nat) = None
  /\ futures (comp w' 0%nat)
     = [([frames_ContentBodyFrame], receive_deliver_on_body (self0 1))]
  /\ quiescent w'.
Proof.
  split; [exact opened_idle|].
  exact (proj2 (delivery_after_empty_return opened 1 None "ex" "rk"
                  {| body_length := 0; properties := [] |} "ctag" 5 false "ex2" "rk2" hdr3
                  [Byte.x78; Byte.x79; Byte.x7a] 3 opened_idle eq_refl ltac:(cbn; lia)
                  eq_refl ltac:(lia))).
Defined.

(** * Single calls in any world *)

Lemma heap_upd (r : ref) (f : Comp -> Comp) (w : World) (c : Comp) :
  heap w !! r = Some c -> heap (upd r f w) !! r = Some (f c).
Proof.
  intros H. unfold upd. cbn [heap set_heap].
  rewrite list_lookup_insert_eq by (apply lookup_lt_Some in H; exact H).
  unfold comp. rewrite H. reflexivity.
Qed.

(** The cell at [r] after updates, logs and schedulings, from what it was
    ([H]) before them. *)
Ltac cell_after H :=
  repeat first
    [ progress change (heap (schedule ?t ?w)) with (heap w)
    | progress change (heap (log ?e ?w)) with (heap w)
    | apply heap_upd ];
  exact H.

(** Changing the pending waits leaves the builder slot alone. *)
Lemma message_builder_upd_futures (r : ref) (l : list (list Key * (Outcome -> Coro)))
    (w : World) :
  message_builder (comp (upd r (set_futures l) w) r) = message_builder (comp w r).
Proof.
  destruct (heap w !! r) as [c|] eqn:H.
  - rewrite (comp_upd _ _ _ _ H). unfold comp. rewrite H. reflexivity.
  - unfold upd, comp. cbn [heap set_heap].
    rewrite list_insert_ge by (apply lookup_ge_None; exact H).
    reflexivity.
Qed.

(** C5: one body chunk, added to the builder in the slot.  If the builder
    is not done after the chunk, readiness is signalled and that is all: no
    wait is resolved and nothing is scheduled.  If the chunk makes the
    builder done, the oldest wait for the body is resolved with the pair of
    the builder's consumer tag and the built message, the slot is set to
    [None], and readiness is not signalled: the trace gets the resolution
    and nothing else, and the readiness flag is as it was. *)
Theorem receive_body_chunk (self : Self) (cid : Z) (chunk : bytes) (w : World)
    (b b' : MessageBuilder) :
  message_builder (comp w (cell self)) = Some b ->
  add_body_chunk b chunk = inr b' ->
  let r := exec (receive_body self (ContentBodyFrame cid chunk)) w in
  if done b' then
    forall waiter rest,
      take_future frames_ContentBodyFrame (futures (comp w (cell self))) = Some (waiter, rest) ->
      exists msg,
        build b' = inr msg
        /\ snd r = Some (Resolved VNone)
        /\ trace (fst r)
           = trace w ++ [ENotify (cell self) frames_ContentBodyFrame (VTuple (consumer_tag b) msg)]
        /\ runq (fst r) = runq w ++ [TCoro (waiter (Resolved (VTuple (consumer_tag b) msg)))]
        /\ message_builder (comp (fst r) (cell self)) = None
        /\ futures (comp (fst r) (cell self)) = rest
        /\ is_ready (comp (fst r) (cell self)) = is_ready (comp w (cell self))
  else
    snd r = Some (Resolved VNone)
    /\ trace (fst r) = trace w ++ [EReady (cell self)]
    /\ runq (fst r) = runq w
    /\ message_builder (comp (fst r) (cell self)) = Some b'
    /\ futures (comp (fst r) (cell self)) = futures (comp w (cell self))
    /\ is_ready (comp (fst r) (cell self)) = true.
Proof.
  intros Hb Hadd r.
  destruct (builder_in_heap _ _ _ Hb) as (c & Hc & Hcomp).
  destruct (done b') eqn:Hdone.
  - intros waiter rest Hwait.
    destruct (done_build b' Hdone) as [msg Hmsg]. exists msg.
    subst r.
    rewrite (exec_receive_body_done self cid chunk w b b' msg waiter rest Hb Hadd Hdone Hmsg Hwait).
    rewrite (add_body_chunk_consumer_tag b b' chunk Hadd).
    cbn [fst snd].
    repeat split; try reflexivity; try exact Hmsg.
    + erewrite comp_upd; [|cell_after Hc]. reflexivity.
    + erewrite comp_upd; [|cell_after Hc]. reflexivity.
    + erewrite comp_upd; [|cell_after Hc]. rewrite Hcomp. reflexivity.
  - subst r. rewrite (exec_receive_body_more self cid chunk w b b' Hb Hadd Hdone).
    cbn [fst snd].
    assert (Hh : heap (log (EReady (cell self)) (upd (cell self) (set_message_builder (Some b')) w))
                 !! cell self = Some (set_message_builder (Some b') c)).
    { cell_after Hc. }
    rewrite (comp_upd _ _ _ _ Hh), Hcomp.
    repeat split; reflexivity.
Qed.

Lemma receive_body_chunk_witness :
  let b := building (return_builder 1 "ex" "rk") hdr3 [Byte.x78; Byte.x79] in
  let b' := building (return_builder 1 "ex" "rk") hdr3 [Byte.x78; Byte.x79; Byte.x7a] in
  let r := exec (receive_body (self0 1) (ContentBodyFrame 1 [Byte.x7a])) awaiting_last in
  message_builder (comp awaiting_last 0%nat) = Some b /\
  add_body_chunk b [Byte.x7a] = inr b' /\
  forall waiter rest,
    take_future frames_ContentBodyFrame (futures (comp awaiting_last 0%nat))
    = Some (waiter, rest) ->
    exists msg,
      build b' = inr msg
      /\ snd r = Some (Resolved VNone)
      /\ trace (fst r)
         = trace awaiting_last ++ [ENotify 0%nat frames_ContentBodyFrame (VTuple None msg)]
      /\ runq (fst r) = runq awaiting_last ++ [TCoro (waiter (Resolved (VTuple None msg)))]
      /\ message_builder (comp (fst r) 0%nat) = None
      /\ futures (comp (fst r) 0%nat) = rest
      /\ is_ready (comp (fst r) 0%nat) = is_ready (comp awaiting_last 0%nat).
Proof.
  intros b b' r. split; [reflexivity|]. split; [reflexivity|].
  exact (receive_body_chunk (self0 1) 1 [Byte.x7a] awaiting_last b b' eq_refl eq_refl).
Defined.

(** C10, as stated, fails: a header frame that arrives while no
    reconstruction is in flight, the slot empty and no wait pending, does
    not fail on the slot.  [receive_header] notifies before it touches the
    slot, and the notification fails, there being no wait to resolve: the
    world is as it was. *)
Lemma header_without_wait_fails_in_notify :
  let header := ContentHeaderFrame 1 hdr3 in
  message_builder (comp opened 0%nat) = None
  /\ futures (comp opened 0%nat) = []
  /\ exec (receive_header (self0 1) header) opened
     = (opened, Some (Failed (ProtocolError "no pending wait")))
  /\ ~ exists a, snd (exec (receive_header (self0 1) header) opened)
                 = Some (Failed (AttributeError a)).
Proof. vm_compute. repeat split. intros [a H]. discriminate H. Qed.

(** C10, amended: with the builder slot empty, [receive_body] fails at once
    on the slot, having done nothing; [receive_header] first resolves the
    wait for the header and then fails on the slot, or, when no such wait
    is pending, fails before it reaches the slot, in the notification; in
    no case is readiness signalled or the frame turned away in an orderly
    manner. *)
Theorem receive_without_builder (self : Self) (w : World) :
  message_builder (comp w (cell self)) = None ->
  (forall cid chunk,
     exec (receive_body self (ContentBodyFrame cid chunk)) w
     = (w, Some (Failed (AttributeError "add_body_chunk")))) /\
  (forall cid h,
     match take_future frames_ContentHeaderFrame (futures (comp w (cell self))) with
     | Some (waiter, rest) =>
         exec (receive_header self (ContentHeaderFrame cid h)) w
         = (schedule (TCoro (waiter (Resolved VNone)))
              (upd (cell self) (set_futures rest)
                 (log (ENotify (cell self) frames_ContentHeaderFrame VNone) w)),
            Some (Failed (AttributeError "set_header")))
     | None =>
         exec (receive_header self (ContentHeaderFrame cid h)) w
         = (w, Some (Failed (ProtocolError "no pending wait")))
     end).
Proof.
  intros Hb. split.
  - intros cid chunk. unfold receive_body, on_builder. cbn [bind exec].
    rewrite Hb. reflexivity.
  - intros cid h. unfold receive_header, notify, on_builder. cbn [bind exec].
    destruct (take_future _ _) as [[waiter rest]|]; [|reflexivity].
    cbn [bind exec of_outcome].
    change (comp (schedule ?t ?w') (cell self)) with (comp w' (cell self)).
    rewrite message_builder_upd_futures.
    change (comp (log ?e ?w') (cell self)) with (comp w' (cell self)).
    rewrite Hb. reflexivity.
Qed.

Lemma receive_without_builder_witness :
  message_builder (comp opened 0%nat) = None /\
  (forall cid chunk,
     exec (receive_body (self0 1) (ContentBodyFrame cid chunk)) opened
     = (opened, Some (Failed (AttributeError "add_body_chunk")))) /\
  (forall cid h,
     exec (receive_header (self0 1) (ContentHeaderFrame cid h)) opened
     = (opened, Some (Failed (ProtocolError "no pending wait")))).
Proof.
  split; [reflexivity|].
  exact (receive_without_builder (self0 1) opened eq_refl).
Defined.

(** With a builder in the slot, the slot is not what [receive_body] or
    [receive_header] fail on. *)
Lemma receive_with_builder (self : Self) (w : World) (b : MessageBuilder) :
  message_builder (comp w (cell self)) = Some b ->
  (forall cid chunk a,
     snd (exec (receive_body self (ContentBodyFrame cid chunk)) w)
     <> Some (Failed (AttributeError a))) /\
  (forall cid h a,
     snd (exec (receive_header self (ContentHeaderFrame cid h)) w)
     <> Some (Failed (AttributeError a))).
Proof.
  intros Hb. destruct (builder_in_heap _ _ _ Hb) as (c & Hc & Hcomp). split.
  - intros cid chunk a. unfold receive_body, on_builder, read_builder. cbn [bind exec].
    rewrite Hb. unfold add_body_chunk, build.
    destruct (mb_header b) as [h|]; [|discriminate].
    destruct (done b); [discriminate|].
    destruct (_ <? _)%nat; [discriminate|].
    cbn [bind exec]. rewrite (comp_upd _ _ _ _ Hc). cbn [message_builder set_message_builder mb_header].
    match goal with |- context [done ?x] => destruct (done x) end; [|discriminate].
    unfold notify. cbn [bind exec].
    destruct (take_future _ _) as [[waiter rest]|]; discriminate.
  - intros cid h a. unfold receive_header, notify, on_builder. cbn [bind exec].
    destruct (take_future _ _) as [[waiter rest]|]; [|discriminate].
    cbn [bind exec of_outcome].
    change (comp (schedule ?t ?w') (cell self)) with (comp w' (cell self)).
    rewrite message_builder_upd_futures.
    change (comp (log ?e ?w') (cell self)) with (comp w' (cell self)).
    rewrite Hb. unfold set_header. destruct (mb_header b); discriminate.
Qed.

(** * Content frames out of turn *)

(** A body frame or a header frame that reaches an idle channel, on which
    no reconstruction is in flight: the receiver's task ends in an
    exception, and the channel is left not ready. *)
Lemma content_frame_on_idle_channel (w : World) (cid : Z) (cb : option Callback)
    (h : ContentHeader) (chunk : bytes) (fuel : nat) :
  idle_channel w cid cb ->
  (2 <= fuel)%nat ->
  let body := ContentBodyFrame cid chunk in
  let header := ContentHeaderFrame cid h in
  (trace (play fuel [Arrive body] w)
   = trace w ++ [EHandle 0%nat body; ERaised (AttributeError "add_body_chunk")]
   /\ is_ready (comp (play fuel [Arrive body] w) 0%nat) = false)
  /\ (trace (play fuel [Arrive header] w)
      = trace w ++ [EHandle 0%nat header; ERaised (ProtocolError "no pending wait")]
      /\ is_ready (comp (play fuel [Arrive header] w) 0%nat) = false).
Proof.
  intros [Hhs Hw]%idle_channel_world Hfuel body header.
  assert (Hb : play fuel [Arrive body] w
               = world1 (next_channel_id w) (handlers w) (busy cid cb None [] false) []
                   (logs (trace w) [EHandle 0%nat body; ERaised (AttributeError "add_body_chunk")])
                   (results w)).
  { rewrite Hw at 1. cbn [play fold_left]. rewrite (arrive _ _ _ Hhs) by reflexivity.
    apply (run_to 2); [reflexivity | reflexivity | lia]. }
  assert (Hh : play fuel [Arrive header] w
               = world1 (next_channel_id w) (handlers w) (busy cid cb None [] false) []
                   (logs (trace w) [EHandle 0%nat header;
                                    ERaised (ProtocolError "no pending wait")])
                   (results w)).
  { rewrite Hw at 1. cbn [play fold_left]. rewrite (arrive _ _ _ Hhs) by reflexivity.
    apply (run_to 2); [reflexivity | reflexivity | lia]. }
  rewrite Hb, Hh. cbn [trace world1]. rewrite !logs_app. repeat split.
Qed.

(** * Closing *)

Section Closing.

Variables (n : Z) (hs : gmap Z ref) (cid : Z).
Hypothesis Hhs : hs !! cid = Some 0%nat.

Lemma not_ready_quiescent (c : Comp) (t : list Event) (rs : list Value) :
  is_ready c = false -> quiescent (world1 n hs c [] t rs).
Proof.
  intros H. unfold quiescent, step. cbn [runq world1 heap find_deliverable].
  rewrite H. reflexivity.
Qed.

(** Frames that arrive at a channel which is not ready, with nothing
    scheduled, pile up in its queue: none is handled. *)
Lemma arrive_not_ready (fuel : nat) (frames : list Frame) :
  forall (c : Comp) (t : list Event) (rs : list Value),
  Forall (fun f => frame_channel_id f = cid) frames ->
  is_ready c = false ->
  play fuel (map Arrive frames) (world1 n hs c [] t rs)
  = world1 n hs (set_frames_q (frames_q c ++ frames) c) [] t rs.
Proof.
  induction frames as [|f fs IH]; intros c t rs Hall Hc.
  - cbn [map play fold_left]. rewrite app_nil_r. destruct c; reflexivity.
  - apply Forall_cons in Hall as [Hf Hfs].
    cbn [map]. rewrite play_cons, (arrive n hs _ Hhs) by exact Hf.
    rewrite run_quiescent by (apply not_ready_quiescent; exact Hc).
    rewrite IH by (assumption || exact Hc).
    cbn [frames_q set_frames_q]. rewrite <- app_assoc. reflexivity.
Qed.

End Closing.

Lemma ready_channel_world (w : World) (cid : Z) (cb : option Callback)
    (b : option MessageBuilder) (fs : list (list Key * (Outcome -> Coro))) :
  ready_channel w cid cb b fs ->
  handlers w !! cid = Some 0%nat /\
  w = world1 (next_channel_id w) (handlers w) (busy cid cb b fs true) [] (trace w) (results w).
Proof.
  destruct w as [n hs hp q t rs]. unfold ready_channel. cbn.
  intros (H & -> & ->). split; [exact H | reflexivity].
Qed.

Lemma declaring_ready :
  ready_channel declaring 1 None None
    [([spec_ExchangeDeclareOK],
      declare_exchange_resume (channel0 1) "logs" "fanout" true false false)].
Proof. vm_compute. repeat split; reflexivity. Qed.

(** C6, as stated, fails: the peer's [ChannelClose] arrives while the
    declaration of an exchange is in flight.  The handler acknowledges it
    and resolves nothing: the wait of the declaration is still pending when
    the loop has come to rest, and the call has not returned. *)
Lemma close_by_peer_resolves_nothing :
  let frame := MethodFrame 1 (ChannelClose 200 "bye" 0 0) in
  let w' := play 4 [Arrive frame] declaring in
  trace w' = trace declaring ++ [EHandle 0%nat frame; ESend (MethodFrame 1 ChannelCloseOK)]
  /\ futures (comp w' 0%nat) = futures (comp declaring 0%nat)
  /\ futures (comp w' 0%nat) <> []
  /\ results w' = results declaring
  /\ quiescent w'.
Proof. vm_compute. repeat split. discriminate. Qed.

(** C6, amended: the handler answers the peer's [ChannelClose] with
    [ChannelCloseOK] on its channel and that is all it does: it signals no
    readiness, resolves no wait and schedules nothing.  On a channel that
    is ready for the frame, whatever waits are pending on it and whatever
    is in its builder slot, the loop comes to rest with the channel not
    ready, the waits and the slot as they were and no call returned:
    whatever frames arrive for the channel afterwards stay in its queue and
    are never handed to the handler. *)
Theorem peer_close (w : World) (cid : Z) (cb : option Callback)
    (b : option MessageBuilder) (fs : list (list Key * (Outcome -> Coro)))
    (status_code : Z) (text : string) (class_id method_id : Z)
    (later : list Frame) (fuel : nat) :
  ready_channel w cid cb b fs ->
  Forall (fun f => frame_channel_id f = cid) later ->
  (1 <= fuel)%nat ->
  let frame := MethodFrame cid (ChannelClose status_code text class_id method_id) in
  let w' := play fuel (map Arrive (frame :: later)) w in
  (forall self w0,
     exec (handle self frame) w0
     = (log (ESend (MethodFrame (sender_channel_id (sender self)) ChannelCloseOK)) w0,
        Some (Resolved VNone)))
  /\ trace w' = trace w ++ [EHandle 0%nat frame; ESend (MethodFrame cid ChannelCloseOK)]
  /\ is_ready (comp w' 0%nat) = false
  /\ frames_q (comp w' 0%nat) = later
  /\ futures (comp w' 0%nat) = fs
  /\ message_builder (comp w' 0%nat) = b
  /\ results w' = results w
  /\ quiescent w'.
Proof.
  intros [Hhs Hw]%ready_channel_world Hlater Hfuel frame w'.
  split; [reflexivity|].
  assert (Hw' : w' = world1 (next_channel_id w) (handlers w)
                      (set_frames_q later (busy cid cb b fs false)) []
                      (logs (trace w) [EHandle 0%nat frame; ESend (MethodFrame cid ChannelCloseOK)])
                      (results w)).
  { subst w'. rewrite Hw at 1. cbn [map]. rewrite play_cons.
    rewrite (arrive _ _ _ Hhs) by reflexivity.
    rewrite (run_to 1 fuel _
               (world1 (next_channel_id w) (handlers w) (busy cid cb b fs false) []
                  (logs (trace w) [EHandle 0%nat frame; ESend (MethodFrame cid ChannelCloseOK)])
                  (results w)))
      by (reflexivity || lia).
    rewrite (arrive_not_ready _ _ cid Hhs) by (assumption || reflexivity).
    reflexivity. }
  rewrite Hw'. cbn [trace world1]. rewrite logs_app.
  repeat split.
Qed.

Lemma peer_close_witness :
  let waiting := [([spec_ExchangeDeclareOK],
                   declare_exchange_resume (channel0 1) "logs" "fanout" true false false)] in
  ready_channel declaring 1 None None waiting /\
  let frame := MethodFrame 1 (ChannelClose 200 "bye" 0 0) in
  let later := [MethodFrame 1 ExchangeDeclareOK; MethodFrame 1 ChannelCloseOK] in
  let w' := play 5 (map Arrive (frame :: later)) declaring in
  trace w' = trace declaring ++ [EHandle 0%nat frame; ESend (MethodFrame 1 ChannelCloseOK)]
  /\ is_ready (comp w' 0%nat) = false
  /\ frames_q (comp w' 0%nat) = later
  /\ futures (comp w' 0%nat) = waiting
  /\ message_builder (comp w' 0%nat) = None
  /\ results w' = results declaring
  /\ quiescent w'.
Proof.
  split; [exact declaring_ready|].
  exact (proj2 (peer_close declaring 1 None None _ 200 "bye" 0 0
                  [MethodFrame 1 ExchangeDeclareOK; MethodFrame 1 ChannelCloseOK] 5
                  declaring_ready
                  ltac:(repeat constructor) ltac:(lia))).
Defined.

(** C7: [Channel.close] on an idle channel sends the close request and
    waits; the peer's [ChannelCloseOK] resolves the wait and [close]
    returns.  Neither the handler nor [close] signals readiness: no
    [EReady] is logged, the loop comes to rest with the channel not ready,
    and whatever frames arrive for the channel afterwards stay in its queue
    and are never handed to the handler. *)
Theorem close_stops_frames (w : World) (cid : Z) (cb : option Callback)
    (later : list Frame) (fuel : nat) :
  idle_channel w cid cb ->
  Forall (fun f => frame_channel_id f = cid) later ->
  (2 <= fuel)%nat ->
  let ok := MethodFrame cid ChannelCloseOK in
  let w' := play fuel (Call (close (channel0 cid)) :: Arrive ok :: map Arrive later) w in
  trace w' = trace w ++ [ESend (close_frame cid); EHandle 0%nat ok;
                         ENotify 0%nat spec_ChannelCloseOK VNone]
  /\ results w' = results w ++ [VNone]
  /\ is_ready (comp w' 0%nat) = false
  /\ frames_q (comp w' 0%nat) = later
  /\ quiescent w'.
Proof.
  intros [Hhs Hw]%idle_channel_world Hlater Hfuel ok w'.
  assert (Hw' : w' = world1 (next_channel_id w) (handlers w)
                      (set_frames_q later (busy cid cb None [] false)) []
                      (logs (trace w) [ESend (close_frame cid); EHandle 0%nat ok;
                                       ENotify 0%nat spec_ChannelCloseOK VNone])
                      (results w ++ [VNone])).
  { subst w'. rewrite Hw at 1. rewrite !play_cons.
    rewrite (run_to 1 fuel
               (feed (Call (close (channel0 cid)))
                  (world1 (next_channel_id w) (handlers w) (idle cid cb) [] (trace w) (results w)))
               (world1 (next_channel_id w) (handlers w)
                  (busy cid cb None
                     [([spec_ChannelCloseOK], fun o => (of_outcome o ;; Ret VNone)%coro)] true) []
                  (logs (trace w) [ESend (close_frame cid)]) (results w)))
      by (reflexivity || lia).
    rewrite (arrive _ _ _ Hhs) by reflexivity.
    rewrite (run_to 2 fuel _
               (world1 (next_channel_id w) (handlers w) (busy cid cb None [] false) []
                  (logs (trace w) [ESend (close_frame cid); EHandle 0%nat ok;
                                   ENotify 0%nat spec_ChannelCloseOK VNone])
                  (results w ++ [VNone])))
      by (reflexivity || lia).
    rewrite (arrive_not_ready _ _ cid Hhs) by (assumption || reflexivity).
    reflexivity. }
  rewrite Hw'. cbn [trace results world1]. rewrite logs_app.
  repeat split.
Qed.

Lemma close_stops_frames_witness :
  idle_channel opened 1 None /\
  let ok := MethodFrame 1 ChannelCloseOK in
  let later := [MethodFrame 1 BasicQosOK; ContentBodyFrame 1 []] in
  let w' := play 5 (Call (close (channel0 1)) :: Arrive ok :: map Arrive later) opened in
  trace w' = trace opened ++ [ESend (close_frame 1); EHandle 0%nat ok;
                              ENotify 0%nat spec_ChannelCloseOK VNone]
  /\ results w' = results opened ++ [VNone]
  /\ is_ready (comp w' 0%nat) = false
  /\ frames_q (comp w' 0%nat) = later
  /\ quiescent w'.
Proof.
  split; [exact opened_idle|].
  exact (close_stops_frames opened 1 None
           [MethodFrame 1 BasicQosOK; ContentBodyFrame 1 []] 5
           opened_idle ltac:(repeat constructor) ltac:(lia)).
Defined.

(** * The polled get *)

Lemma futures_in_heap (w : World) (r : ref) (key : Key)
    (x : (Outcome -> Coro) * list (list Key * (Outcome -> Coro))) :
  take_future key (futures (comp w r)) = Some x ->
  exists c, heap w !! r = Some c /\ comp w r = c.
Proof.
  unfold comp. destruct (heap w !! r) as [c|]; cbn; [eauto | discriminate].
Qed.

(** C4, as stated, fails: the get-OK trigger resolves the wait of the get
    with [True] and nothing else; no resolution under [BasicGetOK] carries a
    message. *)
Lemma get_ok_resolves_without_message :
  let ok := MethodFrame 1 (BasicGetOK 7 false "ex" "rk") in
  let w' := play 4 [Arrive ok] getting in
  trace w' = trace getting ++ [EHandle 0%nat ok; ENotify 0%nat spec_BasicGetOK (VBool true);
                               EReady 0%nat]
  /\ results w' = results getting ++ [VNone; VBool true]
  /\ ~ exists tag msg, ENotify 0%nat spec_BasicGetOK (VTuple tag msg) ∈ trace w'.
Proof.
  vm_compute. repeat split.
  intros (tag & msg & H).
  repeat (apply elem_of_cons in H as [H|H]; [discriminate H|]).
  inversion H.
Qed.

(** C4, amended: a get-empty frame resolves the oldest wait under
    [BasicGetEmpty] with [False] in the handler itself: nothing but the
    woken caller is scheduled and the builder slot is as it was.  A get-OK
    frame makes the handler start [receive_getOK], which resolves the
    oldest wait under [BasicGetOK] with [True] alone, puts a fresh builder
    without consumer tag for the frame's delivery data into the slot and
    signals readiness. *)
Theorem get_trigger (self : Self) (w : World) (cid delivery_tag : Z) (redelivered : bool)
    (exchange routing_key : string) (waiter : Outcome -> Coro)
    (rest : list (list Key * (Outcome -> Coro))) :
  let ok := MethodFrame cid (BasicGetOK delivery_tag redelivered exchange routing_key) in
  let empty := MethodFrame cid BasicGetEmpty in
  (take_future spec_BasicGetEmpty (futures (comp w (cell self))) = Some (waiter, rest) ->
   let r := exec (handle self empty) w in
   snd r = Some (Resolved VNone)
   /\ trace (fst r) = trace w ++ [ENotify (cell self) spec_BasicGetEmpty (VBool false)]
   /\ runq (fst r) = runq w ++ [TCoro (waiter (Resolved (VBool false)))]
   /\ message_builder (comp (fst r) (cell self)) = message_builder (comp w (cell self)))
  /\ exec (handle self ok) w = (schedule (TCoro (receive_getOK self ok)) w, Some (Resolved VNone))
  /\ (take_future spec_BasicGetOK (futures (comp w (cell self))) = Some (waiter, rest) ->
      let r := exec (receive_getOK self ok) w in
      snd r = Some (Resolved VNone)
      /\ trace (fst r) = trace w ++ [ENotify (cell self) spec_BasicGetOK (VBool true);
                                     EReady (cell self)]
      /\ runq (fst r) = runq w ++ [TCoro (waiter (Resolved (VBool true)))]
      /\ message_builder (comp (fst r) (cell self))
         = Some (new_MessageBuilder (sender self) (PInt delivery_tag) (PBool redelivered)
                   exchange routing_key None)
      /\ is_ready (comp (fst r) (cell self)) = true).
Proof.
  intros ok empty. split; [|split; [reflexivity|]].
  - intros Hwait r. subst r.
    unfold empty, handle, handle_BasicGetEmpty, notify. cbn [exec]. rewrite Hwait.
    cbn [exec of_outcome fst snd].
    repeat split.
    change (comp (schedule ?t ?w') (cell self)) with (comp w' (cell self)).
    rewrite message_builder_upd_futures. reflexivity.
  - intros Hwait r. subst r.
    destruct (futures_in_heap _ _ _ _ Hwait) as (c & Hc & Hcomp).
    unfold ok, receive_getOK, notify, ready. cbn [bind exec]. rewrite Hwait.
    cbn [bind exec of_outcome fst snd].
    assert (Hh : heap (log (EReady (cell self))
                   (upd (cell self)
                      (set_message_builder
                         (Some (new_MessageBuilder (sender self) (PInt delivery_tag)
                                  (PBool redelivered) exchange routing_key None)))
                      (schedule (TCoro (waiter (Resolved (VBool true))))
                         (upd (cell self) (set_futures rest)
                            (log (ENotify (cell self) spec_BasicGetOK (VBool true)) w)))))
                 !! cell self
                 = Some (set_message_builder
                           (Some (new_MessageBuilder (sender self) (PInt delivery_tag)
                                    (PBool redelivered) exchange routing_key None))
                           (set_futures rest c))).
    { cell_after Hc. }
    rewrite (comp_upd _ _ _ _ Hh).
    repeat split. cbn [trace log upd set_heap schedule set_runq].
    rewrite <- app_assoc. reflexivity.
Qed.

Lemma get_trigger_witness :
  let ok := MethodFrame 1 (BasicGetOK 7 false "ex" "rk") in
  let r := exec (receive_getOK (self0 1) ok) getting in
  take_future spec_BasicGetOK (futures (comp getting 0%nat)) = Some (of_outcome, []) /\
  snd r = Some (Resolved VNone)
  /\ trace (fst r) = trace getting ++ [ENotify 0%nat spec_BasicGetOK (VBool true); EReady 0%nat]
  /\ runq (fst r) = runq getting ++ [TCoro (of_outcome (Resolved (VBool true)))]
  /\ message_builder (comp (fst r) 0%nat)
     = Some (new_MessageBuilder {| sender_channel_id := 1 |} (PInt 7) (PBool false)
               "ex" "rk" None)
  /\ is_ready (comp (fst r) 0%nat) = true.
Proof.
  intros ok r. split; [reflexivity|].
  exact (proj2 (proj2 (get_trigger (self0 1) getting 1 7 false "ex" "rk" of_outcome [])) eq_refl).
Defined.

(** * [ChannelFactory.open] *)

(** Up to its wait, [open] reads the next channel id, registers the new
    handler under it, and only then sends [ChannelOpen] and signals
    readiness; the next channel id is as it was. *)
Lemma open_registers_first (w : World) :
  let n := next_channel_id w in
  let r := List.length (heap w) in
  snd (exec open w) = None
  /\ trace (fst (exec open w))
     = logs (trace w) [EAddHandler n r; ESend (MethodFrame n (ChannelOpen "")); EReady r]
  /\ handlers (fst (exec open w)) = <[n := r]> (handlers w)
  /\ next_channel_id (fst (exec open w)) = n.
Proof. repeat split. Qed.

(** Calls of [open] that follow one another get the ids 1, 2, 3. *)
Lemma open_one_after_another :
  results three_opens = [VChannel (opened_channel 1 0%nat); VChannel (opened_channel 2 1%nat);
                         VChannel (opened_channel 3 2%nat)]
  /\ next_channel_id three_opens = 4.
Proof. vm_compute. split; reflexivity. Qed.

(** When the wait for [ChannelOpenOK] fails, the registration is removed,
    the exception reaches the caller, and the next channel id is as it
    was. *)
Lemma open_rolls_back :
  trace failed_open
  = [EAddHandler 1 0%nat; ESend (MethodFrame 1 (ChannelOpen "")); EReady 0%nat;
     ERemoveHandler 1; ERaised (OtherError 0)]
  /\ handlers failed_open !! 1 = None
  /\ next_channel_id failed_open = 1.
Proof. vm_compute. repeat split; reflexivity. Qed.

(** C8, at the input where the code departs from it: [open] adds one to
    [next_channel_id] only after its wait, so a call made while another
    waits reads the same id.  Both calls register their handler under the
    id 1, the second in place of the first, and both send [ChannelOpen] on
    channel 1; when the peer answers both, both calls return a channel
    with the id 1, and the next id is 3. *)
Theorem open_overlapping_same_id :
  trace two_opens
  = [EAddHandler 1 0%nat; ESend (MethodFrame 1 (ChannelOpen "")); EReady 0%nat;
     EAddHandler 1 1%nat; ESend (MethodFrame 1 (ChannelOpen "")); EReady 1%nat]
  /\ handlers two_opens !! 1 = Some 1%nat
  /\ results overlapping_opens = [VChannel (opened_channel 1 0%nat); VChannel (opened_channel 1 1%nat)]
  /\ next_channel_id overlapping_opens = 3.
Proof. vm_compute. repeat split; reflexivity. Qed.

(** * More on the name patterns *)

Lemma chomp_app_newline (b : string) : chomp (b ++ String newline "") = b.
Proof.
  induction b as [|c b IH]; [reflexivity|].
  change (chomp (String c (b ++ String newline ""))%string = String c b).
  destruct (b ++ String newline "")%string as [|c' s'] eqn:E.
  - destruct b; discriminate E.
  - change (String c (chomp (String c' s')) = String c b). rewrite IH. reflexivity.
Qed.

Lemma chomp_cases (s : string) : s = chomp s \/ s = (chomp s ++ String newline "")%string.
Proof.
  induction s as [|c s' IH]; [left; reflexivity|].
  destruct s' as [|c' s''].
  - cbn. destruct (Ascii.eqb_spec c newline) as [->|Hne]; [right | left]; reflexivity.
  - change (chomp (String c (String c' s''))) with (String c (chomp (String c' s''))).
    destruct IH as [IH|IH]; [left | right].
    + f_equal. exact IH.
    + change (String c (String c' s'')
              = String c (chomp (String c' s'') ++ String newline "")%string).
      f_equal. exact IH.
Qed.

Lemma begins_with_amq_app_newline (b : string) :
  begins_with_amq (b ++ String newline "") = begins_with_amq b.
Proof.
  unfold begins_with_amq.
  do 4 (destruct b as [|[[] [] [] [] [] [] [] []] b]; cbn; try reflexivity).
Qed.

Lemma begins_with_amq_chomp (s : string) : begins_with_amq (chomp s) = begins_with_amq s.
Proof.
  destruct (chomp_cases s) as [H|H]; rewrite H at 2; [reflexivity|].
  apply eq_sym, begins_with_amq_app_newline.
Qed.

(** X1: the names that [VALID_EXCHANGE_NAME_RE] matches are the non-empty
    strings of letters, digits, underscores, hyphens, periods and colons
    that do not begin with [amq.], each of them also with one newline
    after it. *)
Theorem exchange_name_pattern (s : string) :
  re_match VALID_EXCHANGE_NAME_RE s = true <->
  exists body,
    (s = body \/ s = (body ++ String newline "")%string)
    /\ body <> "" /\ all_allowed body = true /\ begins_with_amq body = false.
Proof.
  rewrite VALID_EXCHANGE_NAME_RE_spec. unfold valid_exchange_name. split.
  - intros [[Hamq Hne]%andb_true_iff Hall]%andb_true_iff.
    exists (chomp s). split; [apply chomp_cases|]. split; [|split].
    + intros E. rewrite E in Hne. discriminate Hne.
    + exact Hall.
    + rewrite begins_with_amq_chomp. apply negb_true_iff, Hamq.
  - intros (body & Hs & Hne & Hall & Hamq).
    assert (Hch : chomp s = body).
    { destruct Hs as [->| ->]; [apply all_allowed_chomp, Hall | apply chomp_app_newline]. }
    rewrite Hch, Hall, <- (begins_with_amq_chomp s), Hch, Hamq.
    destruct (String.eqb_spec body ""); [contradiction | reflexivity].
Qed.

Lemma VALID_QUEUE_NAME_RE_spec (s : string) :
  re_match VALID_QUEUE_NAME_RE s = negb (begins_with_amq s) && all_allowed (chomp s).
Proof.
  unfold re_match, VALID_QUEUE_NAME_RE.
  change (matches (Cat Caret (Cat (NegLookahead (lits "amq.")) (Cat (Star NAME_CHAR) Dollar)))
            true s (fun _ _ => true))
    with (true && (negb (matches (lits "amq.") true s (fun _ _ => true)) &&
          star_loop (matches NAME_CHAR)
            (fun b s' => matches Dollar b s' (fun _ _ => true)) (String.length s) true s)).
  rewrite lookahead_amq, star_NAME_CHAR_dollar, name_tail_chomp by lia. reflexivity.
Qed.

Lemma chomp_empty (s : string) : chomp s = "" <-> s = "" \/ s = String newline "".
Proof.
  split.
  - intros H. destruct (chomp_cases s) as [E|E]; rewrite H in E; [left | right]; exact E.
  - intros [->| ->]; reflexivity.
Qed.

(** X2: a queue name may be all that an exchange name may be, and the
    queue pattern matches nothing else but the empty name and the name
    that is one newline. *)
Theorem queue_name_pattern (s : string) :
  re_match VALID_QUEUE_NAME_RE s = true <->
  re_match VALID_EXCHANGE_NAME_RE s = true \/ s = "" \/ s = String newline "".
Proof.
  rewrite VALID_QUEUE_NAME_RE_spec, VALID_EXCHANGE_NAME_RE_spec. unfold valid_exchange_name.
  destruct (String.eqb_spec (chomp s) "") as [E|E].
  - rewrite E. apply chomp_empty in E.
    split; [intros _; right; exact E|]. intros _.
    destruct E as [->| ->]; reflexivity.
  - cbn [negb]. rewrite andb_true_r. split; [intros H; left; exact H|].
    intros [H|H]; [exact H|]. apply chomp_empty in H. contradiction.
Qed.

(** * Requests on an idle channel *)

Lemma valid_exchange_name_nonempty (name : string) :
  valid_exchange_name name = true -> name <> "".
Proof. intros H ->. discriminate H. Qed.

(** X3: [declare_exchange] with a name that the pattern accepts, on an idle
    channel: one [ExchangeDeclare] frame is sent; when the peer's
    [ExchangeDeclareOK] arrives the call returns the exchange with the
    name, type and flags it was given and signals readiness once, and the
    channel is idle again. *)
Theorem declare_exchange_round_trip (w : World) (cid : Z) (cb : option Callback)
    (name type : string) (durable auto_delete internal : bool) (fuel : nat) :
  idle_channel w cid cb ->
  valid_exchange_name name = true ->
  (2 <= fuel)%nat ->
  let self := channel0 cid in
  let ok := MethodFrame cid ExchangeDeclareOK in
  let w' := play fuel [Call (declare_exchange self name type durable auto_delete internal);
                       Arrive ok] w in
  trace w' = trace w ++ [ESend (ExchangeDeclare_frame self name type durable auto_delete internal);
                         EHandle 0%nat ok; ENotify 0%nat spec_ExchangeDeclareOK VNone;
                         EReady 0%nat]
  /\ results w'
     = results w ++ [VExchange (new_Exchange (self0 cid) name type durable auto_delete internal)]
  /\ idle_channel w' cid cb.
Proof.
  intros [Hhs Hw]%idle_channel_world Hvalid Hfuel self ok w'.
  pose proof (valid_exchange_name_nonempty name Hvalid) as Hne.
  rewrite <- VALID_EXCHANGE_NAME_RE_spec in Hvalid.
  assert (Hw' : w' = world1 (next_channel_id w) (handlers w) (idle cid cb) []
                      (logs (trace w)
                         [ESend (ExchangeDeclare_frame self name type durable auto_delete internal);
                          EHandle 0%nat ok; ENotify 0%nat spec_ExchangeDeclareOK VNone;
                          EReady 0%nat])
                      (results w ++ [VExchange (new_Exchange (self0 cid) name type durable
                                                  auto_delete internal)])).
  { subst w'. rewrite Hw at 1. rewrite !play_cons.
    rewrite (run_to 1 fuel
               (feed (Call (declare_exchange self name type durable auto_delete internal))
                  (world1 (next_channel_id w) (handlers w) (idle cid cb) [] (trace w) (results w)))
               (world1 (next_channel_id w) (handlers w)
                  (busy cid cb None
                     [([spec_ExchangeDeclareOK],
                       declare_exchange_resume self name type durable auto_delete internal)]
                     true) []
                  (logs (trace w)
                     [ESend (ExchangeDeclare_frame self name type durable auto_delete internal)])
                  (results w))).
    - rewrite (arrive _ _ _ Hhs) by reflexivity.
      apply (run_to 2); [reflexivity | reflexivity | lia].
    - transitivity
        (finish (exec (declare_exchange self name type durable auto_delete internal)
                   (world1 (next_channel_id w) (handlers w) (idle cid cb) []
                      (trace w) (results w)))); [reflexivity|].
      rewrite declare_exchange_sends by assumption. reflexivity.
    - reflexivity.
    - lia. }
  rewrite Hw'. cbn [trace results world1]. rewrite logs_app.
  repeat split. exact Hhs.
Qed.

Lemma declare_exchange_round_trip_witness :
  idle_channel opened 1 None /\
  valid_exchange_name "logs.v1" = true /\
  let w' := play 3 [Call (declare_exchange (channel0 1) "logs.v1" "topic" true false false);
                    Arrive (MethodFrame 1 ExchangeDeclareOK)] opened in
  trace w' = trace opened
             ++ [ESend (ExchangeDeclare_frame (channel0 1) "logs.v1" "topic" true false false);
                 EHandle 0%nat (MethodFrame 1 ExchangeDeclareOK);
                 ENotify 0%nat spec_ExchangeDeclareOK VNone; EReady 0%nat]
  /\ results w'
     = results opened ++ [VExchange (new_Exchange (self0 1) "logs.v1" "topic" true false false)]
  /\ idle_channel w' 1 None.
Proof.
  split; [exact opened_idle|]. split; [reflexivity|].
  exact (declare_exchange_round_trip opened 1 None "logs.v1" "topic" true false false 3
           opened_idle eq_refl ltac:(lia)).
Defined.

(** X4: [declare_exchange] raises [ValueError], having sent no frame and
    changed nothing, for exactly these names other than the empty one:
    those that begin with [amq.], the name that is one newline, and those
    that, a newline at the end left aside, contain a character that is not
    allowed. *)
Theorem declare_exchange_rejection (self : Channel) (name type : string)
    (durable auto_delete internal : bool) (w : World) :
  name <> "" ->
  exec (declare_exchange self name type durable auto_delete internal) w
  = (w, Some (Failed (ValueError "Invalid exchange name.")))
  <-> begins_with_amq name = true \/ name = String newline ""
      \/ all_allowed (chomp name) = false.
Proof.
  intros Hne. destruct (re_match VALID_EXCHANGE_NAME_RE name) eqn:Hre.
  - rewrite declare_exchange_sends by assumption.
    rewrite VALID_EXCHANGE_NAME_RE_spec in Hre. unfold valid_exchange_name in Hre.
    apply andb_true_iff in Hre as [[Hamq Hch]%andb_true_iff Hall].
    split; [intros [= _ H]; discriminate H|].
    intros [H|[H|H]].
    + rewrite H in Hamq. discriminate Hamq.
    + rewrite H in Hch. discriminate Hch.
    + rewrite H in Hall. discriminate Hall.
  - rewrite declare_exchange_rejects by assumption.
    split; [intros _ | reflexivity].
    rewrite VALID_EXCHANGE_NAME_RE_spec in Hre. unfold valid_exchange_name in Hre.
    destruct (begins_with_amq name); [left; reflexivity|].
    destruct (String.eqb_spec (chomp name) "") as [E|E].
    + apply chomp_empty in E as [E|E]; [contradiction | right; left; exact E].
    + right; right. exact Hre.
Qed.

Lemma declare_exchange_rejection_witness :
  exec (declare_exchange ch1 "amq.topic" "topic" true false false) opened
  = (opened, Some (Failed (ValueError "Invalid exchange name."))).
Proof.
  apply (declare_exchange_rejection ch1 "amq.topic" "topic" true false false opened);
    [discriminate | left; reflexivity].
Defined.

(** X5: [set_qos] on an idle channel: one [BasicQos] frame with the three
    arguments is sent; when the peer's [BasicQosOK] arrives the call
    returns [None] and signals readiness once, and the channel is idle
    again. *)
Theorem set_qos_round_trip (w : World) (cid : Z) (cb : option Callback)
    (prefetch_size prefetch_count : Z) (apply_globally : bool) (fuel : nat) :
  idle_channel w cid cb ->
  (2 <= fuel)%nat ->
  let ok := MethodFrame cid BasicQosOK in
  let w' := play fuel [Call (set_qos (channel0 cid) prefetch_size prefetch_count apply_globally);
                       Arrive ok] w in
  trace w' = trace w ++ [ESend (BasicQos_frame cid prefetch_size prefetch_count apply_globally);
                         EHandle 0%nat ok; ENotify 0%nat spec_BasicQosOK VNone; EReady 0%nat]
  /\ results w' = results w ++ [VNone]
  /\ idle_channel w' cid cb.
Proof.
  intros [Hhs Hw]%idle_channel_world Hfuel ok w'.
  assert (Hw' : w' = world1 (next_channel_id w) (handlers w) (idle cid cb) []
                      (logs (trace w)
                         [ESend (BasicQos_frame cid prefetch_size prefetch_count apply_globally);
                          EHandle 0%nat ok; ENotify 0%nat spec_BasicQosOK VNone; EReady 0%nat])
                      (results w ++ [VNone])).
  { subst w'. rewrite Hw at 1. rewrite !play_cons.
    rewrite (run_to 1 fuel
               (feed (Call (set_qos (channel0 cid) prefetch_size prefetch_count apply_globally))
                  (world1 (next_channel_id w) (handlers w) (idle cid cb) [] (trace w) (results w)))
               (world1 (next_channel_id w) (handlers w)
                  (busy cid cb None
                     [([spec_BasicQosOK],
                       fun o => (of_outcome o ;; ready (self0 cid))%coro)] true) []
                  (logs (trace w)
                     [ESend (BasicQos_frame cid prefetch_size prefetch_count apply_globally)])
                  (results w)))
      by (reflexivity || lia).
    rewrite (arrive _ _ _ Hhs) by reflexivity.
    apply (run_to 2); [reflexivity | reflexivity | lia]. }
  rewrite Hw'. cbn [trace results world1]. rewrite logs_app.
  repeat split. exact Hhs.
Qed.

Lemma set_qos_round_trip_witness :
  idle_channel opened 1 None /\
  let w' := play 3 [Call (set_qos (channel0 1) 0 10 false);
                    Arrive (MethodFrame 1 BasicQosOK)] opened in
  trace w' = trace opened ++ [ESend (BasicQos_frame 1 0 10 false);
                              EHandle 0%nat (MethodFrame 1 BasicQosOK);
                              ENotify 0%nat spec_BasicQosOK VNone; EReady 0%nat]
  /\ results w' = results opened ++ [VNone]
  /\ idle_channel w' 1 None.
Proof.
  split; [exact opened_idle|].
  exact (set_qos_round_trip opened 1 None 0 10 false 3 opened_idle ltac:(lia)).
Defined.

(** * The returned message callback *)

Lemma callback_in_heap (w : World) (r : ref) (cb : Callback) :
  callback (comp w r) = Some cb -> exists c, heap w !! r = Some c /\ comp w r = c.
Proof.
  unfold comp. destruct (heap w !! r) as [c|]; cbn; [eauto | discriminate].
Qed.

(** X6: [set_return_handler] with an argument that is not callable, [None]
    among them, raises [TypeError] and changes nothing; with a callable it
    makes that the callback.  So once a callback is set, no calls of
    [set_return_handler] whatever bring back the state without one. *)
Theorem return_handler_stays_set (self : Channel) (w : World) (cb : Callback)
    (args : list PyObj) :
  callback (comp w (cell (parts self))) = Some cb ->
  (forall v,
     exec (set_return_handler self (NotCallable v)) w
     = (w, Some (Failed
                   (TypeError "The handler must be a callable with one argument (a dictionary)."))))
  /\ (forall f,
        snd (exec (set_return_handler self (Callable f)) w) = Some (Resolved VNone)
        /\ callback (comp (fst (exec (set_return_handler self (Callable f)) w))
                       (cell (parts self))) = Some f)
  /\ exists cb', callback (comp (set_return_handlers self args w) (cell (parts self))) = Some cb'.
Proof.
  intros Hcb. split; [reflexivity|]. split.
  - intros f. split; [reflexivity|].
    destruct (callback_in_heap _ _ _ Hcb) as (c & Hc & _).
    cbn [set_return_handler set_callback exec fst]. rewrite (comp_upd _ _ _ _ Hc). reflexivity.
  - revert w cb Hcb. induction args as [|a args IH]; intros w cb Hcb; [eauto|].
    cbn [set_return_handlers fold_left]. destruct a as [f|v].
    + destruct (callback_in_heap _ _ _ Hcb) as (c & Hc & _).
      apply (IH _ f). cbn [set_return_handler set_callback exec fst].
      rewrite (comp_upd _ _ _ _ Hc). reflexivity.
    + apply (IH _ cb). exact Hcb.
Qed.

Lemma return_handler_stays_set_witness :
  let w := fst (exec (set_return_handler ch1 (Callable 7%nat)) opened) in
  callback (comp w 0%nat) = Some 7%nat /\
  exists cb',
    callback (comp (set_return_handlers ch1 [NotCallable PNone; Callable 8%nat; NotCallable PNone] w)
                0%nat) = Some cb'.
Proof.
  intros w. split; [reflexivity|].
  exact (proj2 (proj2 (return_handler_stays_set ch1 w 7%nat
                         [NotCallable PNone; Callable 8%nat; NotCallable PNone] eq_refl))).
Defined.

(** * What the handler leaves alone *)

Lemma comp_upd_field {A : Type} (P : Comp -> A) (s r : ref) (f : Comp -> Comp) (w : World) :
  (forall c, P (f c) = P c) -> P (comp (upd s f w) r) = P (comp w r).
Proof.
  intros HP. unfold upd. unfold comp. cbn [heap set_heap].
  destruct (decide (s = r)) as [->|Hne].
  - destruct (heap w !! r) as [c|] eqn:E.
    + rewrite list_lookup_insert_eq by (apply lookup_lt_Some in E; exact E).
      exact (HP c).
    + rewrite list_insert_ge by (apply lookup_ge_None; exact E). rewrite E. reflexivity.
  - rewrite list_lookup_insert_ne by exact Hne. reflexivity.
Qed.

Lemma comp_schedule (t : Task) (w : World) (r : ref) : comp (schedule t w) r = comp w r.
Proof. reflexivity. Qed.

Lemma comp_log (e : Event) (w : World) (r : ref) : comp (log e w) r = comp w r.
Proof. reflexivity. Qed.

Lemma readies_app (t1 t2 : list Event) : readies (t1 ++ t2) = (readies t1 + readies t2)%nat.
Proof.
  induction t1 as [|e t1 IH]; [reflexivity|].
  destruct e; cbn; rewrite IH; reflexivity.
Qed.

(** What one call of [notify] from a handler leaves alone. *)
Lemma notify_hands_off (self : Self) (key : Key) (v : Value) (k : Coro) (w : World) (r : ref) :
  (forall w0, fst (exec k w0) = w0 \/ exists tag, fst (exec k w0) = log (ECancel (cell self) tag) w0) ->
  let w' := fst (exec (notify self key v ;; k)%coro w) in
  is_ready (comp w' r) = is_ready (comp w r)
  /\ message_builder (comp w' r) = message_builder (comp w r)
  /\ callback (comp w' r) = callback (comp w r)
  /\ frames_q (comp w' r) = frames_q (comp w r)
  /\ readies (trace w') = readies (trace w).
Proof.
  intros Hk w'. subst w'. unfold notify. cbn [bind exec].
  destruct (take_future key (futures (comp w (cell self)))) as [[waiter rest]|];
    cbn [of_outcome bind exec fst]; [|repeat split].
  destruct (Hk (schedule (TCoro (waiter (Resolved v)))
                  (upd (cell self) (set_futures rest) (log (ENotify (cell self) key v) w))))
    as [->|[tag ->]];
    rewrite ?comp_log, ?comp_schedule, !comp_upd_field by reflexivity;
    cbn [trace log schedule set_runq upd set_heap];
    rewrite ?readies_app; cbn [readies]; repeat split; lia.
Qed.

(** X7: whatever frame it is given, the handler signals no readiness, and
    leaves the readiness flag, the builder slot, the callback and the frame
    queue of every channel as they are: readiness is left to the receivers
    and to the callers that wait. *)
Theorem handler_hands_off (self : Self) (frame : Frame) (w : World) (r : ref) :
  let w' := fst (exec (handle self frame) w) in
  is_ready (comp w' r) = is_ready (comp w r)
  /\ message_builder (comp w' r) = message_builder (comp w r)
  /\ callback (comp w' r) = callback (comp w r)
  /\ frames_q (comp w' r) = frames_q (comp w r)
  /\ readies (trace w') = readies (trace w).
Proof.
  pose proof (fun key v => notify_hands_off self key v (Ret VNone) w r
                (fun w0 => or_introl eq_refl)) as Hn.
  destruct frame as [cid m|cid h|cid chunk]; [destruct m as [| | | | | | | | | | | | | | |tag| | | |]|..];
    try exact (Hn _ _);
    try (cbn; rewrite ?readies_app; cbn; repeat split; lia).
  apply (notify_hands_off self spec_BasicCancelOK VNone
           (ConsumersCancel (cell self) tag (Ret VNone)) w r).
  intros w0. right. exists tag. reflexivity.
Qed.

(** X11: a response frame that reaches the handler while no wait is
    pending: the handler raises, having done nothing; the consumer that a
    [BasicCancelOK] names, for one, is not cancelled. *)
Theorem unsolicited_response (self : Self) (cid : Z) (m : Method) (w : World) :
  is_response m = true ->
  futures (comp w (cell self)) = [] ->
  exec (handle self (MethodFrame cid m)) w
  = (w, Some (Failed (ProtocolError "no pending wait"))).
Proof.
  intros Hm Hf. destruct m; try discriminate Hm;
    cbv beta iota delta [handle handle_ChannelOpenOK handle_QueueDeclareOK handle_ExchangeDeclareOK
         handle_ExchangeDeleteOK handle_QueueBindOK handle_QueueUnbindOK handle_QueuePurgeOK
         handle_QueueDeleteOK handle_BasicGetEmpty handle_BasicConsumeOK handle_BasicCancelOK
         handle_ChannelCloseOK handle_BasicQosOK notify];
    cbn [bind exec]; rewrite Hf; reflexivity.
Qed.

Lemma unsolicited_response_witness :
  exec (handle (self0 1) (MethodFrame 1 (BasicCancelOK "ctag"))) opened
  = (opened, Some (Failed (ProtocolError "no pending wait"))).
Proof.
  exact (unsolicited_response (self0 1) 1 (BasicCancelOK "ctag") opened eq_refl eq_refl).
Defined.

(** * The pushed delivery *)

(** X8: the frames of a pushed delivery reach an idle channel, the body in
    any chunks that fit the declared length.  The receiver signals
    readiness after the trigger, after the header and after every chunk but
    the last; the last chunk resolves the wait for the body with the
    consumer tag of the trigger frame and the message, the message goes to
    the consumers under that tag, and only then is readiness signalled
    again; the channel is idle once more, its builder slot empty. *)
Theorem pushed_delivery (w : World) (cid : Z) (cb : option Callback)
    (tag : string) (delivery_tag : Z) (redelivered : bool) (ex rk : string)
    (h : ContentHeader) (chunks : list bytes) (fuel : nat) :
  idle_channel w cid cb ->
  fits (body_length h) 0 chunks = true ->
  (3 <= fuel)%nat ->
  let w' := play fuel (map Arrive (deliver_frames cid tag delivery_tag redelivered ex rk h chunks)) w in
  let msg := message_of (deliver_builder cid tag delivery_tag redelivered ex rk) h (concat chunks) in
  trace w'
  = trace w
    ++ [EHandle 0%nat (MethodFrame cid (BasicDeliver tag delivery_tag redelivered ex rk));
        EReady 0%nat;
        EHandle 0%nat (ContentHeaderFrame cid h);
        ENotify 0%nat frames_ContentHeaderFrame VNone; EReady 0%nat]
    ++ body_trace cid chunks
         [ENotify 0%nat frames_ContentBodyFrame (VTuple (Some tag) msg);
          EDeliver 0%nat (Some tag) msg; EReady 0%nat]
  /\ idle_channel w' cid cb.
Proof.
  intros [Hhs Hw]%idle_channel_world Hfits Hfuel w' msg.
  set (trigger := MethodFrame cid (BasicDeliver tag delivery_tag redelivered ex rk)).
  set (b0 := new_MessageBuilder {| sender_channel_id := cid |} (PInt delivery_tag)
               (PBool redelivered) ex rk (Some tag)).
  set (t2 := logs (logs (trace w) [EHandle 0%nat trigger; EReady 0%nat])
               [EHandle 0%nat (ContentHeaderFrame cid h);
                ENotify 0%nat frames_ContentHeaderFrame VNone; EReady 0%nat]).
  destruct (arrive_body (next_channel_id w) (handlers w) cid cb Hhs fuel h b0
              (receive_deliver_on_body (self0 cid)) chunks [] t2
              (results w ++ [VNone]) Hfits ltac:(lia)) as [rs' Hrs'].
  assert (Hw' : w' = world1 (next_channel_id w) (handlers w) (idle cid cb) []
                      (logs (t2 ++ body_trace cid chunks
                                     [ENotify 0%nat frames_ContentBodyFrame (VTuple (Some tag) msg)])
                         [EDeliver 0%nat (Some tag) msg; EReady 0%nat])
                      (rs' ++ [VNone])).
  { subst w'. rewrite Hw at 1. unfold deliver_frames. cbn [map]. fold trigger.
    rewrite !play_cons.
    rewrite (run_to 2 fuel
               (feed (Arrive trigger)
                  (world1 (next_channel_id w) (handlers w) (idle cid cb) [] (trace w) (results w)))
               (world1 (next_channel_id w) (handlers w)
                  (busy cid cb (Some b0)
                     [([frames_ContentHeaderFrame],
                       on_header (self0 cid) (receive_deliver_on_body (self0 cid)))] true) []
                  (logs (trace w) [EHandle 0%nat trigger; EReady 0%nat]) (results w)));
      [|rewrite (arrive _ _ _ Hhs) by reflexivity; reflexivity | reflexivity | lia].
    unfold b0.
    rewrite (run_to 3 fuel _ _
               (arrive_header _ _ cid cb Hhs _ (results w) h _ _ _ ex rk (Some tag) _) eq_refl)
      by lia.
    fold b0 t2. rewrite Hrs'.
    apply (run_to 1); [reflexivity | reflexivity | lia]. }
  rewrite Hw'. cbn [trace world1]. split; [|repeat split; exact Hhs].
  change [ENotify 0%nat frames_ContentBodyFrame (VTuple (Some tag) msg);
          EDeliver 0%nat (Some tag) msg; EReady 0%nat]
    with ([ENotify 0%nat frames_ContentBodyFrame (VTuple (Some tag) msg)]
          ++ [EDeliver 0%nat (Some tag) msg; EReady 0%nat]).
  rewrite body_trace_app by (eapply fits_nonempty, Hfits).
  subst t2. rewrite !logs_app, <- !app_assoc. reflexivity.
Qed.

Lemma pushed_delivery_witness :
  idle_channel opened 1 None /\
  fits (body_length hdr3) 0 xy_z = true /\
  let w' := play 3 (map Arrive (deliver_frames 1 "ctag" 5 false "ex" "rk" hdr3 xy_z)) opened in
  let msg := message_of (deliver_builder 1 "ctag" 5 false "ex" "rk") hdr3 (concat xy_z) in
  trace w'
  = trace opened
    ++ [EHandle 0%nat (MethodFrame 1 (BasicDeliver "ctag" 5 false "ex" "rk"));
        EReady 0%nat;
        EHandle 0%nat (ContentHeaderFrame 1 hdr3);
        ENotify 0%nat frames_ContentHeaderFrame VNone; EReady 0%nat]
    ++ body_trace 1 xy_z
         [ENotify 0%nat frames_ContentBodyFrame (VTuple (Some "ctag") msg);
          EDeliver 0%nat (Some "ctag") msg; EReady 0%nat]
  /\ idle_channel w' 1 None.
Proof.
  split; [exact opened_idle|]. split; [reflexivity|].
  exact (pushed_delivery opened 1 None "ctag" 5 false "ex" "rk" hdr3 xy_z 3
           opened_idle eq_refl ltac:(lia)).
Defined.

(** * Opening channels on a connection at rest *)

Lemma upd_last (hp : list Comp) (c : Comp) (f : Comp -> Comp) n hs q t rs :
  upd (List.length hp) f (Build_World n hs (hp ++ [c]) q t rs)
  = Build_World n hs (hp ++ [f c]) q t rs.
Proof.
  unfold upd, comp, set_heap. cbn [heap next_channel_id handlers runq trace results].
  rewrite list_lookup_middle by reflexivity. cbn [default].
  rewrite insert_app_r_alt by lia. rewrite Nat.sub_diag. reflexivity.
Qed.

Lemma comp_last (hp : list Comp) (c : Comp) n hs q t rs :
  comp (Build_World n hs (hp ++ [c]) q t rs) (List.length hp) = c.
Proof. unfold comp. cbn [heap]. rewrite list_lookup_middle by reflexivity. reflexivity. Qed.

Lemma exec_open n hs hp q t rs :
  exec open (Build_World n hs hp q t rs)
  = (Build_World n (<[n := List.length hp]> hs) (hp ++ [opening n (List.length hp)]) q
       (logs t [EAddHandler n (List.length hp); ESend (MethodFrame n (ChannelOpen ""));
                EReady (List.length hp)]) rs, None).
Proof.
  unfold open.
  cbn [exec bind try_except_reraise send_ChannelOpen send_method send_frame ready await cell sender of_outcome].
  cbv beta iota delta [log set_handlers set_heap set_runq set_next_channel_id schedule returned
                       next_channel_id handlers heap runq trace results].
  rewrite !upd_last. reflexivity.
Qed.

Lemma find_deliverable_app_none (l : list Comp) (c : Comp) :
  forall i, find_deliverable i l = None -> frames_q c = [] ->
  find_deliverable i (l ++ [c]) = None.
Proof.
  induction l as [|x l IH]; intros i Hl Hc; cbn [app find_deliverable] in *.
  - rewrite Hc. destruct (is_ready c); reflexivity.
  - destruct (is_ready x), (frames_q x); try discriminate Hl; apply IH; assumption.
Qed.

Lemma find_deliverable_app_last (l : list Comp) (c : Comp) (f : Frame) (fs : list Frame) :
  forall i, find_deliverable i l = None -> is_ready c = true -> frames_q c = f :: fs ->
  find_deliverable i (l ++ [c]) = Some ((i + List.length l)%nat, f).
Proof.
  induction l as [|x l IH]; intros i Hl Hr Hc; cbn [app find_deliverable List.length] in *.
  - rewrite Hr, Hc. rewrite Nat.add_0_r. reflexivity.
  - replace (i + S (List.length l))%nat with (S i + List.length l)%nat by lia.
    destruct (is_ready x), (frames_q x); try discriminate Hl; apply IH; assumption.
Qed.

Lemma dispatch_last (f : Frame) (hp : list Comp) (c : Comp) n hs q t rs :
  hs !! frame_channel_id f = Some (List.length hp) ->
  dispatch f (Build_World n hs (hp ++ [c]) q t rs)
  = Build_World n hs (hp ++ [set_frames_q (frames_q c ++ [f]) c]) q t rs.
Proof.
  intros H. rewrite dispatch_to with (r := List.length hp) by exact H.
  apply (upd_last hp c (fun c => set_frames_q (frames_q c ++ [f]) c)).
Qed.

Lemma step_last (f : Frame) (fs : list Frame) (hp : list Comp) (c : Comp) n hs t rs :
  find_deliverable 0%nat hp = None -> is_ready c = true -> frames_q c = f :: fs ->
  step (Build_World n hs (hp ++ [c]) [] t rs)
  = Some (finish_handler
            (exec (handle {| cell := List.length hp; sender := comp_sender c |} f)
               (Build_World n hs (hp ++ [set_frames_q fs (set_is_ready false c)]) []
                  (t ++ [EHandle (List.length hp) f]) rs))).
Proof.
  intros Hrest Hr Hc. unfold step. cbn [runq heap].
  rewrite (find_deliverable_app_last hp c f fs 0%nat Hrest Hr Hc). cbn [Nat.add].
  rewrite comp_last, upd_last, Hc. reflexivity.
Qed.

Lemma exec_notify_last (key : Key) (v : Value) (kk : Outcome -> Coro)
    (waiter : Outcome -> Coro) (rest : list (list Key * (Outcome -> Coro)))
    (hp : list Comp) (c : Comp) n hs q t rs :
  take_future key (futures c) = Some (waiter, rest) ->
  exec (Notify (List.length hp) key v kk) (Build_World n hs (hp ++ [c]) q t rs)
  = exec (kk (Resolved VNone))
      (Build_World n hs (hp ++ [set_futures rest c]) (q ++ [TCoro (waiter (Resolved v))])
         (t ++ [ENotify (List.length hp) key v]) rs).
Proof.
  intros H. cbn [exec]. rewrite comp_last, H.
  change (log (ENotify (List.length hp) key v) (Build_World n hs (hp ++ [c]) q t rs))
    with (Build_World n hs (hp ++ [c]) q (t ++ [ENotify (List.length hp) key v]) rs).
  rewrite upd_last. reflexivity.
Qed.

Lemma exec_ready_last (k : Coro) (hp : list Comp) (c : Comp) n hs q t rs :
  exec (Ready (List.length hp) k) (Build_World n hs (hp ++ [c]) q t rs)
  = exec k (Build_World n hs (hp ++ [set_is_ready true c]) q
              (t ++ [EReady (List.length hp)]) rs).
Proof.
  cbn [exec].
  change (log (EReady (List.length hp)) (Build_World n hs (hp ++ [c]) q t rs))
    with (Build_World n hs (hp ++ [c]) q (t ++ [EReady (List.length hp)]) rs).
  rewrite upd_last. reflexivity.
Qed.

Section AtRest.
Variables (n : Z) (hs : gmap Z ref) (hp : list Comp) (t : list Event) (rs : list Value).
Hypothesis Hrest : find_deliverable 0%nat hp = None.

Lemma open_call_turn :
  run 1 (feed (Call open) (Build_World n hs hp [] t rs))
  = Build_World n (<[n := (List.length hp)]> hs) (hp ++ [opening n (List.length hp)]) []
      (logs t [EAddHandler n (List.length hp); ESend (MethodFrame n (ChannelOpen "")); EReady (List.length hp)]) rs.
Proof.
  change (run 1 (feed (Call open) (Build_World n hs hp [] t rs)))
    with (finish (exec open (Build_World n hs hp [] t rs))).
  rewrite exec_open. reflexivity.
Qed.

Lemma last_quiescent (c : Comp) (n' : Z) (t' : list Event) (hs' : gmap Z ref)
    (rs' : list Value) :
  frames_q c = [] -> quiescent (Build_World n' hs' (hp ++ [c]) [] t' rs').
Proof.
  intros Hc. unfold quiescent, step. cbn [runq heap].
  rewrite find_deliverable_app_none by (exact Hrest || exact Hc). reflexivity.
Qed.

Lemma open_answer_turns (t' : list Event) :
  run 2 (feed (Arrive (MethodFrame n ChannelOpenOK))
           (Build_World n (<[n := (List.length hp)]> hs) (hp ++ [opening n (List.length hp)]) [] t' rs))
  = Build_World (n + 1) (<[n := (List.length hp)]> hs) (hp ++ [idle n None]) []
      (logs t' [EHandle (List.length hp) (MethodFrame n ChannelOpenOK); ENotify (List.length hp) spec_ChannelOpenOK VNone;
                EReady (List.length hp)])
      (rs ++ [VChannel (opened_channel n (List.length hp))]).
Proof.
  unfold feed. rewrite dispatch_last by apply lookup_insert_eq.
  cbn [run].
  rewrite (step_last (MethodFrame n ChannelOpenOK) [] hp
             (set_frames_q (frames_q (opening n (List.length hp)) ++ [MethodFrame n ChannelOpenOK]) (opening n (List.length hp)))
             n _ t' rs Hrest eq_refl eq_refl).
  change (handle ?self (MethodFrame n ChannelOpenOK))
    with (Notify (cell self) spec_ChannelOpenOK VNone of_outcome).
  cbn [cell].
  rewrite (exec_notify_last spec_ChannelOpenOK VNone of_outcome (open_resume n (List.length hp)) [])
    by reflexivity.
  cbn [of_outcome exec finish_handler].
  unfold step. cbn [runq app].
  change (exec (open_resume n (List.length hp) (Resolved VNone)) (set_runq [] ?W))
    with (exec (Ready (List.length hp) (Ret (VChannel (opened_channel n (List.length hp)))))
            (set_next_channel_id (n + 1) (set_runq [] W))).
  cbv beta iota delta [set_runq set_next_channel_id next_channel_id handlers heap runq trace results].
  rewrite exec_ready_last. reflexivity.
Qed.
End AtRest.

Lemma at_rest_world (w : World) :
  at_rest w ->
  find_deliverable 0%nat (heap w) = None /\
  w = Build_World (next_channel_id w) (handlers w) (heap w) [] (trace w) (results w).
Proof.
  destruct w as [n hs hp q t rs]. unfold at_rest, quiescent, step. cbn.
  intros [-> H]. split; [|reflexivity].
  destruct (find_deliverable 0%nat hp) as [[r f]|]; [discriminate H | reflexivity].
Qed.

(** One call of [open] and the peer's answer, at rest. *)
Lemma open_in_turn (fuel : nat) (n : Z) (hs : gmap Z ref) (hp : list Comp)
    (t : list Event) (rs : list Value) :
  find_deliverable 0%nat hp = None ->
  (2 <= fuel)%nat ->
  play fuel [Call open; Arrive (MethodFrame n ChannelOpenOK)] (Build_World n hs hp [] t rs)
  = Build_World (n + 1) (<[n := List.length hp]> hs) (hp ++ [idle n None]) []
      (logs (logs t [EAddHandler n (List.length hp); ESend (MethodFrame n (ChannelOpen ""));
                     EReady (List.length hp)])
         [EHandle (List.length hp) (MethodFrame n ChannelOpenOK);
          ENotify (List.length hp) spec_ChannelOpenOK VNone; EReady (List.length hp)])
      (rs ++ [VChannel (opened_channel n (List.length hp))]).
Proof.
  intros Hrest Hfuel. rewrite !play_cons. cbn [play fold_left].
  rewrite (run_to 1 fuel _ _ (open_call_turn n hs hp t rs));
    [|apply last_quiescent; [exact Hrest | reflexivity] | lia].
  apply (run_to 2 fuel _ _ (open_answer_turns n hs hp rs Hrest _));
    [apply last_quiescent; [exact Hrest | reflexivity] | lia].
Qed.

Lemma opens_in_turn (fuel : nat) (k : nat) :
  forall (n : Z) (hs : gmap Z ref) (hp : list Comp) (t : list Event) (rs : list Value),
  find_deliverable 0%nat hp = None ->
  (2 <= fuel)%nat ->
  let w' := play fuel (open_calls n k) (Build_World n hs hp [] t rs) in
  results w' = rs ++ opened_channels n (List.length hp) k
  /\ next_channel_id w' = n + Z.of_nat k
  /\ handlers w' = registered n (List.length hp) k hs
  /\ at_rest w'.
Proof.
  induction k as [|k IH]; intros n hs hp t rs Hrest Hfuel w'.
  - subst w'. cbn [open_calls play fold_left opened_channels registered results
                   next_channel_id handlers].
    rewrite app_nil_r, Z.add_0_r. repeat split.
    unfold quiescent, step. cbn [runq heap]. rewrite Hrest. reflexivity.
  - subst w'. cbn [open_calls].
    change (Call open :: Arrive (MethodFrame n ChannelOpenOK) :: open_calls (n + 1) k)
      with ([Call open; Arrive (MethodFrame n ChannelOpenOK)] ++ open_calls (n + 1) k).
    rewrite play_app, open_in_turn by assumption.
    destruct (IH (n + 1) (<[n := List.length hp]> hs) (hp ++ [idle n None])
                (logs (logs t [EAddHandler n (List.length hp);
                               ESend (MethodFrame n (ChannelOpen ""));
                               EReady (List.length hp)])
                   [EHandle (List.length hp) (MethodFrame n ChannelOpenOK);
                    ENotify (List.length hp) spec_ChannelOpenOK VNone;
                    EReady (List.length hp)])
                (rs ++ [VChannel (opened_channel n (List.length hp))])
                ltac:(apply find_deliverable_app_none; [exact Hrest | reflexivity]) Hfuel)
      as (Hres & Hnext & Hhs & Hat).
    rewrite length_app, Nat.add_1_r in Hres, Hhs.
    rewrite Hres, Hnext, Hhs. cbn [opened_channels registered].
    rewrite <- app_assoc. repeat split; [lia | apply Hat | apply Hat].
Qed.

Lemma registered_below (k : nat) :
  forall (n : Z) (r : ref) (hs : gmap Z ref) (j : Z),
  j < n -> registered n r k hs !! j = hs !! j.
Proof.
  induction k as [|k IH]; intros n r hs j Hj; [reflexivity|].
  cbn [registered]. rewrite IH by lia. apply lookup_insert_ne. lia.
Qed.

Lemma registered_lookup (k : nat) :
  forall (n : Z) (r : ref) (hs : gmap Z ref) (i : nat),
  (i < k)%nat -> registered n r k hs !! (n + Z.of_nat i) = Some (r + i)%nat.
Proof.
  induction k as [|k IH]; intros n r hs i Hi; [lia|].
  cbn [registered]. destruct i as [|i].
  - rewrite Z.add_0_r, Nat.add_0_r, registered_below by lia. apply lookup_insert_eq.
  - replace (n + Z.of_nat (S i)) with (n + 1 + Z.of_nat i) by lia.
    replace (r + S i)%nat with (S r + i)%nat by lia.
    apply IH. lia.
Qed.

Lemma opened_channels_lookup (k : nat) :
  forall (n : Z) (r : ref) (i : nat),
  (i < k)%nat ->
  opened_channels n r k !! i = Some (VChannel (opened_channel (n + Z.of_nat i) (r + i)%nat)).
Proof.
  induction k as [|k IH]; intros n r i Hi; [lia|].
  cbn [opened_channels]. destruct i as [|i].
  - rewrite Z.add_0_r, Nat.add_0_r. reflexivity.
  - cbn [lookup list_lookup]. rewrite IH by lia.
    replace (n + 1 + Z.of_nat i) with (n + Z.of_nat (S i)) by lia.
    replace (S r + i)%nat with (r + S i)%nat by lia. reflexivity.
Qed.

Lemma opened_channels_length (k : nat) :
  forall (n : Z) (r : ref), List.length (opened_channels n r k) = k.
Proof.
  induction k as [|k IH]; intros n r; [reflexivity|]. cbn. f_equal. apply IH.
Qed.

(** X9: calls of [open] that follow one another on a connection at rest,
    each answered by the peer's [ChannelOpenOK] before the next is made:
    the [i]-th of them (counting from 0) returns a channel whose id is the
    next id of the start plus [i], with components of its own, and is
    registered with the dispatcher under that id; after [k] calls the next
    id is that of the start plus [k], and the connection is at rest
    again. *)
Theorem opens_one_after_another (w : World) (k fuel : nat) :
  at_rest w ->
  (2 <= fuel)%nat ->
  let n := next_channel_id w in
  let r := List.length (heap w) in
  let w' := play fuel (open_calls n k) w in
  (forall i, (i < k)%nat ->
     results w' !! (List.length (results w) + i)%nat
     = Some (VChannel (opened_channel (n + Z.of_nat i) (r + i)%nat))
     /\ handlers w' !! (n + Z.of_nat i) = Some (r + i)%nat)
  /\ List.length (results w') = (List.length (results w) + k)%nat
  /\ next_channel_id w' = n + Z.of_nat k
  /\ at_rest w'.
Proof.
  intros [Hrest Hw]%at_rest_world Hfuel n r w'.
  destruct (opens_in_turn fuel k n (handlers w) (heap w) (trace w) (results w) Hrest Hfuel)
    as (Hres & Hnext & Hhs & Hat).
  assert (E : w' = play fuel (open_calls n k)
                      (Build_World n (handlers w) (heap w) [] (trace w) (results w))).
  { subst w' n. rewrite <- Hw. reflexivity. }
  rewrite E, Hres, Hnext, Hhs. repeat split; try apply Hat.
  - rewrite lookup_app_r by lia.
    replace (List.length (results w) + i - List.length (results w))%nat with i by lia.
    apply opened_channels_lookup. assumption.
  - apply registered_lookup. assumption.
  - rewrite length_app, opened_channels_length. reflexivity.
Qed.

Lemma new_World_at_rest : at_rest new_World.
Proof. split; reflexivity. Qed.

Lemma opens_one_after_another_witness :
  at_rest new_World /\
  let w' := play 2 (open_calls 1 3) new_World in
  (forall i, (i < 3)%nat ->
     results w' !! (0 + i)%nat = Some (VChannel (opened_channel (1 + Z.of_nat i) (0 + i)%nat))
     /\ handlers w' !! (1 + Z.of_nat i) = Some (0 + i)%nat)
  /\ List.length (results w') = 3%nat
  /\ next_channel_id w' = 4
  /\ at_rest w'.
Proof.
  split; [exact new_World_at_rest|].
  exact (opens_one_after_another new_World 3 2 new_World_at_rest ltac:(lia)).
Defined.

(** X10: a call of [open] on a connection at rest whose wait for
    [ChannelOpenOK] is failed with an exception: the handler is removed
    from the dispatcher again, the exception reaches the caller, no channel
    is returned, and the next id is as before, so that the next call gets
    the same id. *)
Theorem open_failure_rolls_back (w : World) (e : Exn) (fuel : nat) :
  at_rest w ->
  (1 <= fuel)%nat ->
  let n := next_channel_id w in
  let r := List.length (heap w) in
  let w' := play fuel [Call open; FailWait r spec_ChannelOpenOK e] w in
  trace w' = trace w ++ [EAddHandler n r; ESend (MethodFrame n (ChannelOpen "")); EReady r;
                         ERemoveHandler n; ERaised e]
  /\ handlers w' !! n = None
  /\ results w' = results w
  /\ next_channel_id w' = n
  /\ runq w' = [].
Proof.
  intros [Hrest Hw]%at_rest_world Hfuel n r w'.
  assert (Hw' : w' = Build_World n (delete n (<[n := r]> (handlers w)))
                      (heap w ++ [set_futures [] (opening n r)]) []
                      (logs (logs (trace w) [EAddHandler n r; ESend (MethodFrame n (ChannelOpen ""));
                                             EReady r])
                         [ERemoveHandler n; ERaised e])
                      (results w)).
  { subst w'. rewrite Hw at 1. fold n. rewrite !play_cons. cbn [play fold_left].
    rewrite (run_to 1 fuel _ _ (open_call_turn n (handlers w) (heap w) (trace w) (results w)));
      [|apply last_quiescent; [exact Hrest | reflexivity] | lia].
    unfold feed. rewrite comp_last. cbn [futures opening take_future].
    replace (bool_decide (spec_ChannelOpenOK ∈ [spec_ChannelOpenOK])) with true by reflexivity.
    cbv beta iota. subst r. rewrite upd_last.
    apply (run_to 1); [reflexivity | | lia].
    apply last_quiescent; [exact Hrest | reflexivity]. }
  rewrite Hw'. cbn [trace handlers results next_channel_id runq].
  rewrite !logs_app, <- app_assoc. repeat split. apply lookup_delete_eq.
Qed.

Lemma open_failure_rolls_back_witness :
  at_rest new_World /\
  let w' := play 1 [Call open; FailWait 0%nat spec_ChannelOpenOK (OtherError 3)] new_World in
  trace w' = [EAddHandler 1 0%nat; ESend (MethodFrame 1 (ChannelOpen "")); EReady 0%nat;
              ERemoveHandler 1; ERaised (OtherError 3)]
  /\ handlers w' !! 1 = None
  /\ results w' = []
  /\ next_channel_id w' = 1
  /\ runq w' = [].
Proof.
  split; [exact new_World_at_rest|].
  exact (open_failure_rolls_back new_World (OtherError 3) 1 new_World_at_rest ltac:(lia)).
Defined.

(** * After a reconstruction, and reconstructions that never end *)

(** X12: after the frames of a returned message with a body, in whatever
    chunks that fit the length its header declares, the channel is idle
    again: ready for the next frame, its builder slot empty, no wait
    pending and nothing scheduled, whether a callback is set or not; the
    exception that stands for the undeliverable message does not stall the
    channel. *)
Theorem returned_message_leaves_idle (w : World) (cid : Z) (cb : option Callback)
    (ex rk : string) (h : ContentHeader) (chunks : list bytes) (fuel : nat) :
  idle_channel w cid cb ->
  fits (body_length h) 0 chunks = true ->
  (4 <= fuel)%nat ->
  idle_channel (play fuel (map Arrive (return_frames cid ex rk h chunks)) w) cid cb.
Proof.
  intros [Hhs Hw]%idle_channel_world Hfits Hfuel.
  destruct (return_sequence (next_channel_id w) (handlers w) cid cb Hhs fuel (trace w)
              (results w) ex rk h chunks Hfits ltac:(lia)) as [rs' Hrs'].
  rewrite Hw, Hrs'.
  set (t' := trace w ++ _ ++ _).
  set (msg := returned_message cid ex rk h chunks).
  destruct cb as [f|].
  - rewrite (run_to 2 (fuel - 2) _
               (world1 (next_channel_id w) (handlers w) (idle cid (Some f)) []
                  (logs (logs t' [EReady 0%nat; ECallSoon f msg]) [ECall f msg])
                  (rs' ++ [VNone])))
      by (reflexivity || lia).
    repeat split. exact Hhs.
  - rewrite (run_to 1 (fuel - 2) _
               (world1 (next_channel_id w) (handlers w) (idle cid None) []
                  (logs t' [EReady 0%nat; ERaised (UndeliverableMessage msg)]) rs'))
      by (reflexivity || lia).
    repeat split. exact Hhs.
Qed.

Lemma returned_message_leaves_idle_witness :
  idle_channel opened 1 None /\
  fits (body_length hdr3) 0 xy_z = true /\
  idle_channel (play 4 (map Arrive (return_frames 1 "ex" "rk" hdr3 xy_z)) opened) 1 None.
Proof.
  split; [exact opened_idle|]. split; [reflexivity|].
  exact (returned_message_leaves_idle opened 1 None "ex" "rk" hdr3 xy_z 4
           opened_idle eq_refl ltac:(lia)).
Defined.

(** X13: a body frame that reaches an idle channel, on which no
    reconstruction is in flight, stalls it: the receiver fails on the empty
    builder slot before it signals readiness, and the frames that arrive
    afterwards stay in the queue, none of them handed to the handler. *)
Theorem stray_body_stalls_channel (w : World) (cid : Z) (cb : option Callback)
    (chunk : bytes) (later : list Frame) (fuel : nat) :
  idle_channel w cid cb ->
  Forall (fun f => frame_channel_id f = cid) later ->
  (2 <= fuel)%nat ->
  let body := ContentBodyFrame cid chunk in
  let w' := play fuel (map Arrive (body :: later)) w in
  trace w' = trace w ++ [EHandle 0%nat body; ERaised (AttributeError "add_body_chunk")]
  /\ is_ready (comp w' 0%nat) = false
  /\ frames_q (comp w' 0%nat) = later
  /\ quiescent w'.
Proof.
  intros [Hhs Hw]%idle_channel_world Hlater Hfuel body w'.
  assert (Hw' : w' = world1 (next_channel_id w) (handlers w)
                      (set_frames_q later (busy cid cb None [] false)) []
                      (logs (trace w) [EHandle 0%nat body;
                                       ERaised (AttributeError "add_body_chunk")])
                      (results w)).
  { subst w'. rewrite Hw at 1. cbn [map]. rewrite play_cons.
    rewrite (arrive _ _ _ Hhs) by reflexivity.
    rewrite (run_to 2 fuel _
               (world1 (next_channel_id w) (handlers w) (busy cid cb None [] false) []
                  (logs (trace w) [EHandle 0%nat body;
                                   ERaised (AttributeError "add_body_chunk")])
                  (results w)))
      by (reflexivity || lia).
    rewrite (arrive_not_ready _ _ cid Hhs) by (assumption || reflexivity).
    reflexivity. }
  rewrite Hw'. cbn [trace world1]. rewrite logs_app. repeat split.
Qed.

Lemma stray_body_stalls_channel_witness :
  idle_channel opened 1 None /\
  let body := ContentBodyFrame 1 [Byte.x78] in
  let later := [MethodFrame 1 BasicQosOK] in
  let w' := play 2 (map Arrive (body :: later)) opened in
  trace w' = trace opened ++ [EHandle 0%nat body; ERaised (AttributeError "add_body_chunk")]
  /\ is_ready (comp w' 0%nat) = false
  /\ frames_q (comp w' 0%nat) = later
  /\ quiescent w'.
Proof.
  split; [exact opened_idle|].
  exact (stray_body_stalls_channel opened 1 None [Byte.x78] [MethodFrame 1 BasicQosOK] 2
           opened_idle ltac:(repeat constructor) ltac:(lia)).
Defined.

(** X14: a pushed delivery whose header declares an empty body is never
    handed to the consumers: [receive_deliver] waits for a body frame
    whatever the header says, and [receive_header] does not look whether
    the builder is done.  After trigger and header the loop rests with the
    channel ready, the builder, done, still in the slot, and the receiver
    waiting. *)
Theorem empty_delivery_never_delivered (w : World) (cid : Z) (cb : option Callback)
    (tag : string) (delivery_tag : Z) (redelivered : bool) (ex rk : string)
    (h : ContentHeader) (fuel : nat) :
  idle_channel w cid cb ->
  body_length h = 0%nat ->
  (3 <= fuel)%nat ->
  let trigger := MethodFrame cid (BasicDeliver tag delivery_tag redelivered ex rk) in
  let w' := play fuel [Arrive trigger; Arrive (ContentHeaderFrame cid h)] w in
  trace w' = trace w ++ [EHandle 0%nat trigger; EReady 0%nat;
                         EHandle 0%nat (ContentHeaderFrame cid h);
                         ENotify 0%nat frames_ContentHeaderFrame VNone; EReady 0%nat]
  /\ (exists b, message_builder (comp w' 0%nat) = Some b /\ done b = true)
  /\ futures (comp w' 0%nat)
     = [([frames_ContentBodyFrame], receive_deliver_on_body (self0 cid))]
  /\ is_ready (comp w' 0%nat) = true
  /\ quiescent w'.
Proof.
  intros [Hhs Hw]%idle_channel_world Hlen Hfuel trigger w'.
  set (b0 := new_MessageBuilder {| sender_channel_id := cid |} (PInt delivery_tag)
               (PBool redelivered) ex rk (Some tag)).
  assert (Hw' : w' = world1 (next_channel_id w) (handlers w)
                      (busy cid cb (Some (building b0 h []))
                         [([frames_ContentBodyFrame], receive_deliver_on_body (self0 cid))] true)
                      []
                      (logs (logs (trace w) [EHandle 0%nat trigger; EReady 0%nat])
                         [EHandle 0%nat (ContentHeaderFrame cid h);
                          ENotify 0%nat frames_ContentHeaderFrame VNone; EReady 0%nat])
                      (results w ++ [VNone])).
  { subst w'. rewrite Hw at 1. rewrite !play_cons. cbn [play fold_left].
    rewrite (run_to 2 fuel
               (feed (Arrive trigger)
                  (world1 (next_channel_id w) (handlers w) (idle cid cb) [] (trace w) (results w)))
               (world1 (next_channel_id w) (handlers w)
                  (busy cid cb (Some b0)
                     [([frames_ContentHeaderFrame],
                       on_header (self0 cid) (receive_deliver_on_body (self0 cid)))] true) []
                  (logs (trace w) [EHandle 0%nat trigger; EReady 0%nat]) (results w)));
      [|rewrite (arrive _ _ _ Hhs) by reflexivity; reflexivity | reflexivity | lia].
    unfold b0.
    apply (run_to 3 fuel _ _
             (arrive_header _ _ cid cb Hhs _ (results w) h _ _ _ ex rk (Some tag) _));
      [reflexivity | lia]. }
  rewrite Hw'. cbn [trace world1]. rewrite !logs_app, <- app_assoc.
  split; [reflexivity|]. split; [|repeat split].
  eexists. split; [reflexivity|]. rewrite done_building, Hlen. reflexivity.
Qed.

Lemma empty_delivery_never_delivered_witness :
  idle_channel opened 1 None /\
  let h := {| body_length := 0; properties := [] |} in
  let trigger := MethodFrame 1 (BasicDeliver "ctag" 5 false "ex" "rk") in
  let w' := play 3 [Arrive trigger; Arrive (ContentHeaderFrame 1 h)] opened in
  trace w' = trace opened ++ [EHandle 0%nat trigger; EReady 0%nat;
                              EHandle 0%nat (ContentHeaderFrame 1 h);
                              ENotify 0%nat frames_ContentHeaderFrame VNone; EReady 0%nat]
  /\ (exists b, message_builder (comp w' 0%nat) = Some b /\ done b = true)
  /\ futures (comp w' 0%nat)
     = [([frames_ContentBodyFrame], receive_deliver_on_body (self0 1))]
  /\ is_ready (comp w' 0%nat) = true
  /\ quiescent w'.
Proof.
  split; [exact opened_idle|].
  exact (empty_delivery_never_delivered opened 1 None "ctag" 5 false "ex" "rk"
           {| body_length := 0; properties := [] |} 3 opened_idle eq_refl ltac:(lia)).
Defined.

(** * A trigger inside a reconstruction *)

(** X15: the one builder slot and the waits of the receivers are shared by
    all reconstructions of a channel.  When the trigger of a pushed
    delivery arrives after the trigger of a returned message and before
    its header, the delivery's builder takes the slot; header and body
    then wake the receiver of the returned message, which was waiting
    first: it gets the delivered message with its consumer tag, its
    assertion fails, and the channel is left not ready, the message
    delivered to nobody and the receiver of the delivery still waiting for
    a header. *)
Theorem delivery_inside_return (w : World) (cid : Z) (cb : option Callback)
    (ex rk tag : string) (delivery_tag : Z) (redelivered : bool) (ex' rk' : string)
    (h : ContentHeader) (chunk : bytes) (fuel : nat) :
  idle_channel w cid cb ->
  (0 < body_length h)%nat ->
  List.length chunk = body_length h ->
  (3 <= fuel)%nat ->
  let ret := MethodFrame cid (BasicReturn ex rk) in
  let dlv := MethodFrame cid (BasicDeliver tag delivery_tag redelivered ex' rk') in
  let hdr := ContentHeaderFrame cid h in
  let body := ContentBodyFrame cid chunk in
  let msg := message_of (deliver_builder cid tag delivery_tag redelivered ex' rk') h chunk in
  let w' := play fuel (map Arrive [ret; dlv; hdr; body]) w in
  trace w' = trace w ++ [EHandle 0%nat ret; EReady 0%nat;
                         EHandle 0%nat dlv; EReady 0%nat;
                         EHandle 0%nat hdr; ENotify 0%nat frames_ContentHeaderFrame VNone;
                         EReady 0%nat;
                         EHandle 0%nat body;
                         ENotify 0%nat frames_ContentBodyFrame (VTuple (Some tag) msg);
                         ERaised AssertionError]
  /\ is_ready (comp w' 0%nat) = false
  /\ message_builder (comp w' 0%nat) = None
  /\ futures (comp w' 0%nat)
     = [([frames_ContentHeaderFrame],
         on_header (self0 cid) (receive_deliver_on_body (self0 cid)))].
Proof.
  intros [Hhs Hw]%idle_channel_world Hpos Hlen Hfuel ret dlv hdr body msg w'.
  set (b0 := new_MessageBuilder {| sender_channel_id := cid |} (PInt delivery_tag)
               (PBool redelivered) ex' rk' (Some tag)).
  set (waiting := ([frames_ContentHeaderFrame],
                   on_header (self0 cid) (receive_deliver_on_body (self0 cid)))).
  set (t3 := logs (logs (logs (trace w) [EHandle 0%nat ret; EReady 0%nat])
                     [EHandle 0%nat dlv; EReady 0%nat])
               [EHandle 0%nat hdr; ENotify 0%nat frames_ContentHeaderFrame VNone; EReady 0%nat]).
  assert (Hw' : w' = world1 (next_channel_id w) (handlers w)
                      (busy cid cb None [waiting] false) []
                      (logs t3 [EHandle 0%nat body;
                                ENotify 0%nat frames_ContentBodyFrame (VTuple (Some tag) msg);
                                ERaised AssertionError])
                      ((results w ++ [VNone]) ++ [VNone])).
  { subst w'. rewrite Hw at 1. cbn [map]. rewrite !play_cons. cbn [play fold_left].
    rewrite (run_to 2 fuel _ _ (arrive_return _ _ cid cb Hhs _ _ ex rk) eq_refl) by lia.
    rewrite (run_to 2 fuel
               (feed (Arrive dlv) _)
               (world1 (next_channel_id w) (handlers w)
                  (busy cid cb (Some b0)
                     [([frames_ContentHeaderFrame],
                       on_header (self0 cid) (receive_return_on_body (self0 cid)));
                      waiting] true) []
                  (logs (logs (trace w) [EHandle 0%nat ret; EReady 0%nat])
                     [EHandle 0%nat dlv; EReady 0%nat]) (results w)));
      [|rewrite (arrive _ _ _ Hhs) by reflexivity; reflexivity | reflexivity | lia].
    rewrite (run_to 3 fuel
               (feed (Arrive hdr) _)
               (world1 (next_channel_id w) (handlers w)
                  (busy cid cb (Some (building b0 h []))
                     [waiting;
                      ([frames_ContentBodyFrame], receive_return_on_body (self0 cid))] true) []
                  t3 (results w ++ [VNone])));
      [|rewrite (arrive _ _ _ Hhs) by reflexivity; reflexivity | reflexivity | lia].
    rewrite (arrive _ _ _ Hhs) by reflexivity.
    apply (run_to 3); [|reflexivity | lia].
    transitivity
      (run 1 (finish (exec (receive_body (self0 cid) body)
                        (world1 (next_channel_id w) (handlers w)
                           (busy cid cb (Some (building b0 h []))
                              [waiting;
                               ([frames_ContentBodyFrame], receive_return_on_body (self0 cid))]
                              false) []
                           (t3 ++ [EHandle 0%nat body]) (results w ++ [VNone])))));
      [reflexivity|].
    unfold body.
    rewrite exec_receive_body_done
      with (b := building b0 h []) (b' := building b0 h chunk) (msg := msg)
           (waiter := receive_return_on_body (self0 cid)) (rest := [waiting]).
    - reflexivity.
    - reflexivity.
    - apply (add_body_chunk_building b0 h [] chunk); cbn [List.length]; lia.
    - rewrite done_building. apply Nat.eqb_eq. exact Hlen.
    - apply build_building. exact Hlen.
    - reflexivity. }
  rewrite Hw'. cbn [trace world1]. subst t3. rewrite !logs_app, <- !app_assoc.
  repeat split.
Qed.

Lemma delivery_inside_return_witness :
  idle_channel opened 1 None /\
  let chunk := [Byte.x78; Byte.x79; Byte.x7a] in
  let ret := MethodFrame 1 (BasicReturn "ex" "rk") in
  let dlv := MethodFrame 1 (BasicDeliver "ctag" 5 false "ex2" "rk2") in
  let hdr := ContentHeaderFrame 1 hdr3 in
  let body := ContentBodyFrame 1 chunk in
  let msg := message_of (deliver_builder 1 "ctag" 5 false "ex2" "rk2") hdr3 chunk in
  let w' := play 3 (map Arrive [ret; dlv; hdr; body]) opened in
  trace w' = trace opened ++ [EHandle 0%nat ret; EReady 0%nat;
                              EHandle 0%nat dlv; EReady 0%nat;
                              EHandle 0%nat hdr;
                              ENotify 0%nat frames_ContentHeaderFrame VNone; EReady 0%nat;
                              EHandle 0%nat body;
                              ENotify 0%nat frames_ContentBodyFrame (VTuple (Some "ctag") msg);
                              ERaised AssertionError]
  /\ is_ready (comp w' 0%nat) = false
  /\ message_builder (comp w' 0%nat) = None
  /\ futures (comp w' 0%nat)
     = [([frames_ContentHeaderFrame],
         on_header (self0 1) (receive_deliver_on_body (self0 1)))].
Proof.
  split; [exact opened_idle|].
  exact (delivery_inside_return opened 1 None "ex" "rk" "ctag" 5 false "ex2" "rk2" hdr3
           [Byte.x78; Byte.x79; Byte.x7a] 3 opened_idle ltac:(cbn; lia) eq_refl ltac:(lia)).
Defined.
